(** * Counseling-chat core of on_maum: a shallow embedding

    This development models the session lifecycle of the backend
    ([app/services/chat_service.py], [app/services/counselor_service.py],
    [app/services/scheduler_service.py], [app/services/notification_service.py])
    and the WebSocket room registry ([app/websocket/chat_manager.py]).

    Modelling conventions.
    - Identifiers (UUIDs in the source) are [nat]s; a dict keyed by an id is a
      [gmap nat _].
    - A [datetime] is a [Z] count of microseconds; a [date] is a [Z] count of
      days and a [time] a [Z] count of microseconds since midnight, so that
      [datetime.combine] is [combine] below.
    - Strings are ASCII [string]s; [str.strip] strips the ASCII characters for
      which Python's [str.isspace] holds.
    - A service method is a function from the committed database to the
      committed database after the call and its outcome: an exception leaves
      the database as last committed (the unit of work of the request is
      discarded, or rolled back explicitly).
    - [datetime.utcnow()] evaluated several times in one call is one [now].
    - [ChatService.__init__] calls [NotificationService(db)], which raises
      [TypeError] (see [NotificationService_new]), so in the source as it
      stands every route that builds a [ChatService] fails before reaching
      its methods. The [ChatService] methods are modelled on an instance, as
      they behave once that constructor call succeeds; the callers that
      build the instance ([handle_websocket], [api_send_chat_message])
      include the constructor call ([ChatService_new]). *)

From Stdlib Require Import ZArith Ascii String.
From stdpp Require Import base gmap strings list sorting.

Local Open Scope Z_scope.

(* ------------------------------------------------------------------ *)
(** ** Python values *)

(** Python exceptions raised along the modelled paths. *)
Inductive PyExc :=
| ValueError (msg : string)
| AttributeError (name : string)
| TypeError (msg : string).

(** Outcome of a Python call: a value or a raised exception. *)
Inductive result (A : Type) :=
| Ok (a : A)
| Err (e : PyExc).
Arguments Ok {A} a.
Arguments Err {A} e.

(** Python truthiness of an [Optional[str]]. *)
Definition truthy (o : option string) : bool :=
  match o with
  | Some s => negb (String.eqb s "")
  | None => false
  end.

(** [str.isspace] on one ASCII character: tab, LF, VT, FF, CR, the
    separators 0x1c-0x1f and space. *)
Definition is_space (a : ascii) : bool :=
  let n := nat_of_ascii a in
  ((9 <=? n)%nat && (n <=? 13)%nat) || ((28 <=? n)%nat && (n <=? 32)%nat).

Fixpoint drop_space (l : list ascii) : list ascii :=
  match l with
  | [] => []
  | a :: r => if is_space a then drop_space r else l
  end.

(** [str.strip()] *)
Definition strip (s : string) : string :=
  string_of_list_ascii
    (rev (drop_space (rev (drop_space (list_ascii_of_string s))))).

(** A string made only of whitespace (the empty string included). *)
Definition whitespace_only (s : string) : bool :=
  forallb is_space (list_ascii_of_string s).

Definition nl : string := String (ascii_of_nat 10) EmptyString.

(* ------------------------------------------------------------------ *)
(** ** Data model ([app/models]) *)

(** [ChatSession.status]; the four values written by the services. *)
Inductive Status := pending | active | completed | cancelled.

Global Instance Status_eq_dec : EqDecision Status.
Proof. solve_decision. Defined.

(** [sender_type] / [user_type]: "user" or "counselor". *)
Inductive SenderType := user | counselor.

Global Instance SenderType_eq_dec : EqDecision SenderType.
Proof. solve_decision. Defined.

(** [app/models/chat_session.py], the columns the services touch. *)
Record ChatSession := mkChatSession {
  user_id : nat;
  counselor_id : nat;
  time_slot_id : option nat;
  status : Status;
  scheduled_date : Z;
  scheduled_start_time : Z;
  scheduled_end_time : Z;
  actual_start_time : option Z;
  actual_end_time : option Z;
  duration : option Z;
  category : string;
  description : string;
  counselor_notes : option string
}.

(** The lifecycle columns are the only ones the services change after
    creation. *)
Definition set_lifecycle (s : ChatSession) (st : Status)
    (ast aet dur : option Z) (notes : option string) : ChatSession :=
  {| user_id := user_id s; counselor_id := counselor_id s;
     time_slot_id := time_slot_id s; status := st;
     scheduled_date := scheduled_date s;
     scheduled_start_time := scheduled_start_time s;
     scheduled_end_time := scheduled_end_time s;
     actual_start_time := ast; actual_end_time := aet; duration := dur;
     category := category s; description := description s;
     counselor_notes := notes |}.

(** [app/models/time_slot.py: TimeSlot] *)
Record TimeSlot := mkTimeSlot {
  ts_counselor_id : nat;
  ts_date : Z;
  ts_start_time : Z;
  ts_end_time : Z;
  is_available : bool;
  is_booked : bool
}.

Definition set_booked (t : TimeSlot) (b : bool) : TimeSlot :=
  {| ts_counselor_id := ts_counselor_id t; ts_date := ts_date t;
     ts_start_time := ts_start_time t; ts_end_time := ts_end_time t;
     is_available := is_available t; is_booked := b |}.

(** [app/models/counselor_profile.py: CounselorProfile] *)
Record CounselorProfile := mkCounselorProfile {
  profile_is_available : bool;
  total_sessions : Z
}.

(** A [Staff] row with its [counselor_profile] relationship. *)
Record Staff := mkStaff {
  role_is_counselor : bool;
  staff_is_active : bool;
  counselor_profile : option CounselorProfile
}.

(** [app/models/message.py: Message] *)
Record Message := mkMessage {
  msg_session_id : nat;
  sender_id : nat;
  sender_type : SenderType;
  content : string;
  msg_created_at : Z
}.

(** [app/models/notification.py: Notification], the columns read here. *)
Record Notification := mkNotification {
  notif_user_id : nat;
  notif_type : string;
  notif_session_id : option nat
}.

(** The durable store. [next_id] stands for the fresh [uuid4] of a new
    session. *)
Record DB := mkDB {
  sessions : gmap nat ChatSession;
  time_slots : gmap nat TimeSlot;
  staff : gmap nat Staff;
  messages : list Message;
  notifications : list Notification;
  next_id : nat
}.

Definition set_sessions (db : DB) (m : gmap nat ChatSession) : DB :=
  mkDB m (time_slots db) (staff db) (messages db) (notifications db) (next_id db).
Definition set_time_slots (db : DB) (m : gmap nat TimeSlot) : DB :=
  mkDB (sessions db) m (staff db) (messages db) (notifications db) (next_id db).
Definition set_staff (db : DB) (m : gmap nat Staff) : DB :=
  mkDB (sessions db) (time_slots db) m (messages db) (notifications db) (next_id db).

Definition add_message (m : Message) (db : DB) : DB :=
  mkDB (sessions db) (time_slots db) (staff db) (messages db ++ [m])
    (notifications db) (next_id db).
Definition add_notification (n : Notification) (db : DB) : DB :=
  mkDB (sessions db) (time_slots db) (staff db) (messages db)
    (notifications db ++ [n]) (next_id db).

(** [datetime.combine(date, time)] *)
Definition combine (d t : Z) : Z := d * 86400000000 + t.

(** [timedelta(minutes=m)] *)
Definition minutes (m : Z) : Z := m * 60000000.

(** [int(delta.total_seconds() / 60)]: whole minutes, truncated toward
    zero. *)
Definition minutes_between (t0 t1 : Z) : Z := Z.quot (t1 - t0) (minutes 1).

(* ------------------------------------------------------------------ *)
(** ** [NotificationService] ([app/services/notification_service.py]) *)

(** The attributes of class [NotificationService]: its four static
    methods. The class defines no [__init__] and no other method. *)
Definition NotificationService_attrs : list string :=
  ["create_notification"; "create_empathy_notification";
   "create_counselor_reply_notification"; "create_emoji_reaction_notification"].

(** Attribute lookup on the class or an instance. *)
Definition NotificationService_getattr (name : string) : result unit :=
  if bool_decide (name ∈ NotificationService_attrs) then Ok tt
  else Err (AttributeError name).

(** [NotificationService(a1, ..., an)]: without an [__init__] of its own
    the class accepts no constructor argument. *)
Definition NotificationService_new (nargs : nat) : result unit :=
  if (nargs =? 0)%nat then Ok tt
  else Err (TypeError "NotificationService() takes no arguments").

(** A notification call wrapped in [try: ... except Exception: print(...)]:
    the service methods call it best effort. *)
Definition notify_best_effort (name : string) (n : Notification) (db : DB) : DB :=
  match NotificationService_getattr name with
  | Ok _ => add_notification n db
  | Err _ => db
  end.

(* ------------------------------------------------------------------ *)
(** ** [CounselorService] ([app/services/counselor_service.py]) *)

(** [get_counselor_by_id]: an active staff row of role counselor joined
    with its profile. *)
Definition get_counselor_by_id (db : DB) (cid : nat)
    : option (Staff * CounselorProfile) :=
  match staff db !! cid with
  | Some c =>
      if role_is_counselor c && staff_is_active c then
        match counselor_profile c with
        | Some p => Some (c, p)
        | None => None
        end
      else None
  | None => None
  end.

(** [book_time_slot(slot_id, session_id)] *)
Definition book_time_slot (db : DB) (slot_id : nat) : result DB :=
  match time_slots db !! slot_id with
  | None => Err (ValueError "Time slot not found")
  | Some t =>
      if is_booked t then Err (ValueError "Time slot is already booked")
      else if negb (is_available t) then Err (ValueError "Time slot is not available")
      else Ok (set_time_slots db (<[slot_id := set_booked t true]> (time_slots db)))
  end.

(** [cancel_time_slot_booking(slot_id)] *)
Definition cancel_time_slot_booking (db : DB) (slot_id : nat) : result DB :=
  match time_slots db !! slot_id with
  | None => Err (ValueError "Time slot not found")
  | Some t => Ok (set_time_slots db (<[slot_id := set_booked t false]> (time_slots db)))
  end.

(** [app/models/time_slot.py: CounselorUnavailability], the columns read
    here. A [time] column is truthy whenever it is set (Python 3.5+). *)
Record Unavailability := mkUnavailability {
  un_counselor_id : nat;
  un_start_date : Z;
  un_end_date : Z;
  un_start_time : option Z;
  un_end_time : option Z
}.

(** The [or_(...)] conflict filter of [create_time_slot] on one row. *)
Definition slot_conflicts (cid : nat) (d s e : Z) (t : TimeSlot) : bool :=
  (ts_counselor_id t =? cid)%nat && (ts_date t =? d) &&
  ((ts_start_time t <=? s) && (s <? ts_end_time t)
   || (ts_start_time t <? e) && (e <=? ts_end_time t)
   || (s <=? ts_start_time t) && (ts_end_time t <=? e)).

(** [.first()] of the unavailability query of [create_time_slot] and
    [generate_slots_from_schedule]: the list holds the table's rows in the
    order the database returns them. *)
Definition first_unavailability (us : list Unavailability) (cid : nat) (d : Z)
    : option Unavailability :=
  List.find (fun u => (un_counselor_id u =? cid)%nat && (un_start_date u <=? d)
                      && (d <=? un_end_date u)) us.

(** The [uuid4] primary key of a new slot: a key not in use. *)
Definition fresh_slot_id (db : DB) : nat := fresh (dom (time_slots db)).

(** [create_time_slot(counselor_id, target_date, start_time, end_time,
    is_available)]: the new store and the id of the new slot. A new row
    gets the column default [is_booked=False]. *)
Definition create_time_slot (db : DB) (us : list Unavailability) (cid : nat)
    (target_date start_time end_time : Z) (is_avail : bool) : result (DB * nat) :=
  if existsb (fun kv : nat * TimeSlot =>
                slot_conflicts cid target_date start_time end_time kv.2)
       (map_to_list (time_slots db))
  then Err (ValueError "Time slot conflicts with existing slot")
  else
  let tid := fresh_slot_id db in
  let ok := Ok (set_time_slots db
                  (<[tid := mkTimeSlot cid target_date start_time end_time is_avail false]>
                     (time_slots db)), tid) in
  match first_unavailability us cid target_date with
  | Some u =>
      match un_start_time u, un_end_time u with
      | Some ust, Some uet =>
          if negb ((end_time <=? ust) || (uet <=? start_time))
          then Err (ValueError "Counselor is unavailable during this time")
          else ok
      | None, None => Err (ValueError "Counselor is unavailable all day")
      | _, _ => ok
      end
  | None => ok
  end.

(** The inner [for start_time, end_time in time_ranges] loop of
    [bulk_create_time_slots] on one date. [create_time_slot] raises only
    [ValueError], which the loop catches and skips. *)
Fixpoint bulk_ranges (db : DB) (us : list Unavailability) (cid : nat) (d : Z)
    (ranges : list (Z * Z)) : DB * list nat :=
  match ranges with
  | [] => (db, [])
  | (s, e) :: rest =>
      match create_time_slot db us cid d s e true with
      | Ok (db1, tid) =>
          let '(db2, ids) := bulk_ranges db1 us cid d rest in (db2, tid :: ids)
      | Err _ => bulk_ranges db us cid d rest
      end
  end.

(** The [while current_date <= end_date] loop, [n] dates from [d] on. *)
Fixpoint bulk_days (db : DB) (us : list Unavailability) (cid : nat) (n : nat)
    (d : Z) (exclude_dates : list Z) (ranges : list (Z * Z)) : DB * list nat :=
  match n with
  | O => (db, [])
  | S n' =>
      let '(db1, ids1) :=
        if bool_decide (d ∈ exclude_dates) then (db, [])
        else bulk_ranges db us cid d ranges in
      let '(db2, ids2) := bulk_days db1 us cid n' (d + 1) exclude_dates ranges in
      (db2, ids1 ++ ids2)
  end.

(** [bulk_create_time_slots(counselor_id, start_date, end_date, time_ranges,
    exclude_dates)]: the store and the ids of [created_slots]. *)
Definition bulk_create_time_slots (db : DB) (us : list Unavailability) (cid : nat)
    (start_date end_date : Z) (time_ranges : list (Z * Z))
    (exclude_dates : option (list Z)) : DB * list nat :=
  bulk_days db us cid (Z.to_nat (end_date - start_date + 1)) start_date
    (default [] exclude_dates) time_ranges.

(** [ORDER BY start_time] and [ORDER BY date, start_time] on (id, row)
    pairs. The database orders rows with equal keys in some order of its
    own; [merge_sort] fixes one. *)
Definition slot_start_le (a b : nat * TimeSlot) : Prop :=
  ts_start_time a.2 <= ts_start_time b.2.
Definition slot_date_start_le (a b : nat * TimeSlot) : Prop :=
  ts_date a.2 < ts_date b.2 \/
  (ts_date a.2 = ts_date b.2 /\ ts_start_time a.2 <= ts_start_time b.2).

Global Instance slot_start_le_dec : RelDecision slot_start_le.
Proof. intros a b. unfold slot_start_le. apply _. Defined.
Global Instance slot_date_start_le_dec : RelDecision slot_date_start_le.
Proof. intros a b. unfold slot_date_start_le. apply _. Defined.

(** [get_counselor_available_slots(counselor_id, target_date)]: the rows as
    (id, slot) pairs. *)
Definition get_counselor_available_slots (db : DB) (cid : nat) (target_date : Z)
    : list (nat * TimeSlot) :=
  merge_sort slot_start_le
    (filter (fun kv : nat * TimeSlot =>
               ts_counselor_id kv.2 = cid /\ ts_date kv.2 = target_date /\
               is_available kv.2 = true /\ is_booked kv.2 = false)
       (map_to_list (time_slots db))).

(** [get_counselor_time_slots(counselor_id, start_date, end_date,
    include_booked)] *)
Definition get_counselor_time_slots (db : DB) (cid : nat) (start_date end_date : Z)
    (include_booked : bool) : list (nat * TimeSlot) :=
  let q := filter (fun kv : nat * TimeSlot =>
                     ts_counselor_id kv.2 = cid /\ start_date <= ts_date kv.2 /\
                     ts_date kv.2 <= end_date)
             (map_to_list (time_slots db)) in
  let q := if include_booked then q
           else filter (fun kv : nat * TimeSlot => is_booked kv.2 = false) q in
  merge_sort slot_date_start_le q.

(** [app/models/time_slot.py: CounselorSchedule], the columns read by
    [generate_slots_from_schedule] and [generate_daily_time_slots]. *)
Record CounselorSchedule := mkCounselorSchedule {
  sc_counselor_id : nat;
  days_of_week : string;
  sc_start_time : Z;
  sc_end_time : Z;
  session_duration_minutes : Z;
  break_duration_minutes : Z;
  effective_from : Z;
  effective_until : option Z;
  sc_is_active : bool
}.

(** The attributes of class [CounselorService]: the methods of its class
    body. [create_counselor_schedule] and [generate_slots_from_schedule]
    are defined after the class body, at column 0, so they are functions
    of the module and not attributes of the class. *)
Definition CounselorService_attrs : list string :=
  ["get_available_counselors"; "get_counselor_by_id";
   "get_counselor_available_slots"; "get_counselor_time_slots";
   "create_time_slot"; "bulk_create_time_slots"; "book_time_slot";
   "cancel_time_slot_booking"].

Definition CounselorService_getattr (name : string) : result unit :=
  if bool_decide (name ∈ CounselorService_attrs) then Ok tt
  else Err (AttributeError name).

(** The value of an ASCII decimal digit. *)
Definition digit_val (a : ascii) : option Z :=
  let n := nat_of_ascii a in
  if (48 <=? n)%nat && (n <=? 57)%nat then Some (Z.of_nat n - 48) else None.

(** The digits after the first one: a digit, or one [_] followed by a
    digit. *)
Fixpoint parse_digits (l : list ascii) (acc : Z) : option Z :=
  match l with
  | [] => Some acc
  | a :: r =>
      match digit_val a with
      | Some v => parse_digits r (acc * 10 + v)
      | None =>
          if ascii_dec a "_" then
            match r with
            | b :: r' =>
                match digit_val b with
                | Some v => parse_digits r' (acc * 10 + v)
                | None => None
                end
            | [] => None
            end
          else None
      end
  end.

(** [int(s)] on an ASCII [str]: surrounding whitespace, an optional sign,
    then decimal digits with single underscores between them. *)
Definition py_int (s : string) : result Z :=
  let bad := Err (ValueError "invalid literal for int() with base 10") in
  let l := list_ascii_of_string (strip s) in
  let '(sign, body) :=
    match l with
    | a :: r =>
        if ascii_dec a "-" then (-1, r)
        else if ascii_dec a "+" then (1, r)
        else (1, l)
    | [] => (1, [])
    end in
  match body with
  | a :: r =>
      match digit_val a with
      | Some v =>
          match parse_digits r v with
          | Some n => Ok (sign * n)
          | None => bad
          end
      | None => bad
      end
  | [] => bad
  end.

(** [s.split(",")], with the characters of the current piece in reverse. *)
Fixpoint split_comma (l : list ascii) (cur : list ascii) : list string :=
  match l with
  | [] => [string_of_list_ascii (rev cur)]
  | a :: r =>
      if ascii_dec a "," then string_of_list_ascii (rev cur) :: split_comma r []
      else split_comma r (a :: cur)
  end.

(** [[int(d) for d in parts]]: the first failing [int] raises. *)
Fixpoint parse_days (parts : list string) : result (list Z) :=
  match parts with
  | [] => Ok []
  | p :: r =>
      match py_int p with
      | Err e => Err e
      | Ok v =>
          match parse_days r with
          | Err e => Err e
          | Ok vs => Ok (v :: vs)
          end
      end
  end.

(** [date.weekday()]: day 0 (1970-01-01) is a Thursday, weekday 3. *)
Definition weekday (d : Z) : Z := (d + 3) mod 7.

(** Microseconds in a day: [datetime.time()] keeps the remainder. *)
Definition day_us : Z := 86400000000.

(** The [while current_time < end_time] loop of
    [generate_slots_from_schedule]. Pending rows are flushed before each
    query (autoflush), so a slot added earlier in the loop is seen by the
    next existence check. [None] when the loop has not left within [fuel]
    iterations. *)
Fixpoint gen_loop (fuel : nat) (db : DB) (sch : CounselorSchedule) (d cur : Z)
    (ids : list nat) : option (DB * list nat) :=
  match fuel with
  | O => None
  | S f =>
    if cur <? sc_end_time sch then
      let slot_end := (cur + minutes (session_duration_minutes sch)) mod day_us in
      if sc_end_time sch <? slot_end then Some (db, ids)
      else
        let '(db1, ids1) :=
          if existsb (fun kv : nat * TimeSlot =>
                        (ts_counselor_id kv.2 =? sc_counselor_id sch)%nat &&
                        (ts_date kv.2 =? d) && (ts_start_time kv.2 =? cur))
               (map_to_list (time_slots db))
          then (db, ids)
          else
            let tid := fresh_slot_id db in
            (set_time_slots db (<[tid := mkTimeSlot (sc_counselor_id sch) d cur slot_end
                                          true false]> (time_slots db)), ids ++ [tid]) in
        gen_loop f db1 sch d
          ((cur + minutes (session_duration_minutes sch + break_duration_minutes sch))
             mod day_us) ids1
    else Some (db, ids)
  end.

(** [generate_slots_from_schedule(self, schedule, target_date)], its body
    with [self] a [CounselorService]: the store and the ids of the new
    slots, [None] when the loop does not end within [fuel] iterations. *)
Definition generate_slots_from_schedule (fuel : nat) (db : DB)
    (us : list Unavailability) (sch : CounselorSchedule) (d : Z)
    : option (result (DB * list nat)) :=
  if d <? effective_from sch then Some (Ok (db, [])) else
  if match effective_until sch with Some u => u <? d | None => false end
  then Some (Ok (db, [])) else
  match parse_days (split_comma (list_ascii_of_string (days_of_week sch)) []) with
  | Err e => Some (Err e)
  | Ok allowed =>
      if bool_decide (weekday d ∉ allowed) then Some (Ok (db, [])) else
      match first_unavailability us (sc_counselor_id sch) d with
      | Some _ => Some (Ok (db, []))
      | None => option_map Ok (gen_loop fuel db sch d (sc_start_time sch) [])
      end
  end.

(* ------------------------------------------------------------------ *)
(** ** [ChatService] ([app/services/chat_service.py]) *)

(** [ChatService(db)]: [__init__] builds [CounselorService(db)], which
    succeeds, then [NotificationService(db)], which raises. *)
Definition ChatService_new : result unit :=
  match NotificationService_new 1 with
  | Ok _ => Ok tt
  | Err e => Err e
  end.

(** [app/schemas/chat.py: ChatSessionCreate] *)
Record ChatSessionCreate := mkChatSessionCreate {
  cc_counselor_id : nat;
  cc_scheduled_date : Z;
  cc_start_time : Z;
  cc_end_time : Z;
  concern_category : string;
  cc_description : string;
  cc_time_slot_id : option nat
}.

(** [get_chat_session_details(session_id, user_id, counselor_id)] *)
Definition get_chat_session_details (db : DB) (sid : nat)
    (uid cid : option nat) : option ChatSession :=
  match sessions db !! sid with
  | None => None
  | Some s =>
      match uid with
      | Some u => if negb (user_id s =? u)%nat then None else
          match cid with
          | Some c => if negb (counselor_id s =? c)%nat then None else Some s
          | None => Some s
          end
      | None =>
          match cid with
          | Some c => if negb (counselor_id s =? c)%nat then None else Some s
          | None => None
          end
      end
  end.

(** The slot query of [book_chat_session]: id, counselor, available and
    not booked. *)
Definition query_free_slot (db : DB) (tid cid : nat) : option TimeSlot :=
  match time_slots db !! tid with
  | Some t =>
      if (ts_counselor_id t =? cid)%nat && is_available t && negb (is_booked t)
      then Some t else None
  | None => None
  end.

(** [book_chat_session(user_id, session_data)]; the result is the id of
    the new session. *)
Definition book_chat_session (db : DB) (uid : nat) (data : ChatSessionCreate)
    : DB * result nat :=
  match get_counselor_by_id db (cc_counselor_id data) with
  | None => (db, Err (ValueError "Counselor not found"))
  | Some (c, p) =>
    if negb (profile_is_available p) then
      (db, Err (ValueError "Counselor is not available"))
    else
    let slot_check : result (option nat) :=
      match cc_time_slot_id data with
      | None => Ok None
      | Some tid =>
          match query_free_slot db tid (cc_counselor_id data) with
          | None => Err (ValueError "Time slot not available")
          | Some t =>
              if negb (ts_date t =? cc_scheduled_date data)
                 || negb (ts_start_time t =? cc_start_time data)
                 || negb (ts_end_time t =? cc_end_time data)
              then Err (ValueError "Scheduled time does not match time slot")
              else Ok (Some tid)
          end
      end in
    match slot_check with
    | Err e => (db, Err e)
    | Ok slot =>
      let sid := next_id db in
      let s := {| user_id := uid; counselor_id := cc_counselor_id data;
                  time_slot_id := cc_time_slot_id data; status := pending;
                  scheduled_date := cc_scheduled_date data;
                  scheduled_start_time := cc_start_time data;
                  scheduled_end_time := cc_end_time data;
                  actual_start_time := None; actual_end_time := None;
                  duration := None; category := concern_category data;
                  description := cc_description data;
                  counselor_notes := None |} in
      (* db.add(chat_session); db.flush() *)
      let db1 := mkDB (<[sid := s]> (sessions db)) (time_slots db) (staff db)
                   (messages db) (notifications db) (S sid) in
      let booked :=
        match slot with
        | None => Ok db1
        | Some tid => book_time_slot db1 tid
        end in
      match booked with
      | Err _ => (db (* db.rollback() *), Err (ValueError "Failed to book time slot"))
      | Ok db2 =>
          (notify_best_effort "create_session_booking_notification"
             (mkNotification uid "session_booking" (Some sid)) db2, Ok sid)
      end
    end
  end.

(** [cancel_chat_session(session_id, user_id, counselor_id, cancel_reason)] *)
Definition cancel_chat_session (db : DB) (sid : nat) (uid cid : option nat)
    (cancel_reason : option string) : DB * result ChatSession :=
  match get_chat_session_details db sid uid cid with
  | None => (db, Err (ValueError "Session not found or access denied"))
  | Some s =>
    if bool_decide (status s ∈ [completed; cancelled]) then
      (db, Err (ValueError "Cannot cancel session with status"))
    else
    let reason := String.append "Cancellation reason: " (default "" cancel_reason) in
    let notes :=
      if truthy cancel_reason then
        if truthy (counselor_notes s)
        then Some (String.append (default "" (counselor_notes s))
                     (String.append nl (String.append nl reason)))
        else Some reason
      else counselor_notes s in
    let s' := set_lifecycle s cancelled (actual_start_time s) (actual_end_time s)
                (duration s) notes in
    let db1 := set_sessions db (<[sid := s']> (sessions db)) in
    let db2 :=
      match time_slot_id s with
      | Some tid =>
          match cancel_time_slot_booking db1 tid with
          | Ok db' => db'
          | Err _ => db1 (* print("Failed to unbook time slot") *)
          end
      | None => db1
      end in
    (notify_best_effort "create_session_cancellation_notification"
       (mkNotification (user_id s) "session_cancelled" (Some sid)) db2, Ok s')
  end.

(** The notes [cancel_chat_session] writes, as a function of the old notes
    and the reason. *)
Definition cancel_notes (old reason : option string) : option string :=
  if truthy reason then
    if truthy old
    then Some (String.append (default "" old)
                 (String.append nl (String.append nl
                    (String.append "Cancellation reason: " (default "" reason)))))
    else Some (String.append "Cancellation reason: " (default "" reason))
  else old.

(** [start_chat_session(session_id, counselor_id)] *)
Definition start_chat_session (db : DB) (sid cid : nat) (now : Z)
    : DB * result ChatSession :=
  match get_chat_session_details db sid None (Some cid) with
  | None => (db, Err (ValueError "Session not found or access denied"))
  | Some s =>
    if bool_decide (status s ≠ pending) then
      (db, Err (ValueError "Cannot start session with status"))
    else
    let s' := set_lifecycle s active (Some now) (actual_end_time s) (duration s)
                (counselor_notes s) in
    let db1 := set_sessions db (<[sid := s']> (sessions db)) in
    (notify_best_effort "create_session_start_notification"
       (mkNotification (user_id s) "session_started" (Some sid)) db1, Ok s')
  end.

(** [complete_chat_session(session_id, counselor_id, counselor_notes)] *)
Definition complete_chat_session (db : DB) (sid cid : nat)
    (notes : option string) (now : Z) : DB * result ChatSession :=
  match get_chat_session_details db sid None (Some cid) with
  | None => (db, Err (ValueError "Session not found or access denied"))
  | Some s =>
    if bool_decide (status s ≠ active) then
      (db, Err (ValueError "Cannot complete session with status"))
    else
    let dur :=
      match actual_start_time s with
      | Some t0 => Some (minutes_between t0 now)
      | None => duration s
      end in
    let notes' := if truthy notes then notes else counselor_notes s in
    let s' := set_lifecycle s completed (actual_start_time s) (Some now) dur notes' in
    (* counselor_profile = session.counselor.counselor_profile;
       counselor_profile.total_sessions += 1 *)
    match staff db !! counselor_id s with
    | None => (db, Err (AttributeError "counselor_profile"))
    | Some c =>
      match counselor_profile c with
      | None => (db, Err (AttributeError "total_sessions"))
      | Some p =>
        let p' := mkCounselorProfile (profile_is_available p) (total_sessions p + 1) in
        let c' := mkStaff (role_is_counselor c) (staff_is_active c) (Some p') in
        let db1 := set_staff (set_sessions db (<[sid := s']> (sessions db)))
                     (<[counselor_id s := c']> (staff db)) in
        (notify_best_effort "create_session_completion_notification"
           (mkNotification (user_id s) "session_completed" (Some sid)) db1, Ok s')
      end
    end
  end.

(** [send_message(session_id, sender_id, sender_type, message_data)] *)
Definition send_message (db : DB) (sid sender : nat) (stype : SenderType)
    (body : string) (now : Z) : DB * result Message :=
  let found :=
    match stype with
    | user => get_chat_session_details db sid (Some sender) None
    | counselor => get_chat_session_details db sid None (Some sender)
    end in
  match found with
  | None => (db, Err (ValueError "Session not found or access denied"))
  | Some s =>
    if bool_decide (status s ∉ [active; pending]) then
      (db, Err (ValueError "Cannot send message to session with status"))
    else
    let m := mkMessage sid sender stype body now in
    (add_message m db, Ok m)
  end.

(** [POST /sessions/{session_id}/messages] ([app/api/v1/chat.py:
    send_chat_message]): the route first builds [ChatService(db)], outside
    its [try]; on an instance it passes the request body's [content] to
    [send_message] as it is, with sender type "user". *)
Definition api_send_chat_message (db : DB) (sid current_user : nat)
    (body : string) (now : Z) : DB * result Message :=
  match ChatService_new with
  | Err e => (db, Err e)
  | Ok _ => send_message db sid current_user user body now
  end.

(** The string stored in [ChatSession.status]. *)
Definition status_str (st : Status) : string :=
  match st with
  | pending => "pending"
  | active => "active"
  | completed => "completed"
  | cancelled => "cancelled"
  end.

(** [ORDER BY scheduled_date DESC, scheduled_start_time DESC] on (id, row)
    pairs; [merge_sort] fixes one order among rows with equal keys. *)
Definition session_desc (a b : nat * ChatSession) : Prop :=
  scheduled_date b.2 < scheduled_date a.2 \/
  (scheduled_date a.2 = scheduled_date b.2 /\
   scheduled_start_time b.2 <= scheduled_start_time a.2).

Global Instance session_desc_dec : RelDecision session_desc.
Proof. intros a b. unfold session_desc. apply _. Defined.

(** [.offset(skip).limit(limit)]; the routes bound both below by 0. *)
Definition page {A} (skip limit : nat) (l : list A) : list A :=
  take limit (drop skip l).

(** The common body of [get_user_chat_sessions] and
    [get_counselor_chat_sessions]: the rows whose [owner] column is [who],
    with the status filter applied when [status] is truthy; the page and
    [query.count()]. *)
Definition list_sessions (db : DB) (owner : ChatSession -> nat) (who : nat)
    (skip limit : nat) (st : option string) : list (nat * ChatSession) * nat :=
  let q := filter (fun kv : nat * ChatSession => owner kv.2 = who)
             (map_to_list (sessions db)) in
  let q := if truthy st
           then filter (fun kv : nat * ChatSession =>
                          status_str (status kv.2) = default "" st) q
           else q in
  let q := merge_sort session_desc q in
  (page skip limit q, length q).

(** [get_user_chat_sessions(user_id, skip, limit, status)] *)
Definition get_user_chat_sessions (db : DB) (uid skip limit : nat)
    (st : option string) : list (nat * ChatSession) * nat :=
  list_sessions db user_id uid skip limit st.

(** [get_counselor_chat_sessions(counselor_id, skip, limit, status)] *)
Definition get_counselor_chat_sessions (db : DB) (cid skip limit : nat)
    (st : option string) : list (nat * ChatSession) * nat :=
  list_sessions db counselor_id cid skip limit st.

(** [ORDER BY created_at]; rows with equal times keep their insertion
    order. *)
Definition msg_created_le (a b : Message) : Prop :=
  msg_created_at a <= msg_created_at b.

Global Instance msg_created_le_dec : RelDecision msg_created_le.
Proof. intros a b. unfold msg_created_le. apply _. Defined.

(** [get_session_messages(session_id, user_id, counselor_id, skip, limit)] *)
Definition get_session_messages (db : DB) (sid : nat) (uid cid : option nat)
    (skip limit : nat) : result (list Message) :=
  match get_chat_session_details db sid uid cid with
  | None => Err (ValueError "Session not found or access denied")
  | Some _ =>
      Ok (page skip limit
            (merge_sort msg_created_le
               (filter (fun m => msg_session_id m = sid) (messages db))))
  end.

(* ------------------------------------------------------------------ *)
(** ** [SchedulerService] ([app/services/scheduler_service.py]) *)

Definition auto_cancel_note : string :=
  "Auto-cancelled: Session was not started within 15 minutes of scheduled time".
Definition auto_complete_note : string :=
  "Auto-completed: Session exceeded scheduled end time by 30+ minutes".

(** The ids of the sessions of a given status, in query order. *)
Definition keys_with_status (st : Status) (db : DB) : list nat :=
  (filter (fun kv : nat * ChatSession => status kv.2 = st)
     (map_to_list (sessions db))).*1.

(** One iteration of the pending-session loop of [update_session_statuses]. *)
Definition auto_cancel_one (now : Z) (db : DB) (k : nat) : DB :=
  match sessions db !! k with
  | None => db
  | Some s =>
    if combine (scheduled_date s) (scheduled_start_time s) + minutes 15 <? now then
      let s' := set_lifecycle s cancelled (actual_start_time s) (actual_end_time s)
                  (duration s) (Some auto_cancel_note) in
      let db1 := set_sessions db (<[k := s']> (sessions db)) in
      match time_slot_id s with
      | Some tid =>
          match time_slots db1 !! tid with
          | Some t => set_time_slots db1 (<[tid := set_booked t false]> (time_slots db1))
          | None => db1
          end
      | None => db1
      end
    else db
  end.

(** One iteration of the active-session loop of [update_session_statuses]. *)
Definition auto_complete_one (now : Z) (db : DB) (k : nat) : DB :=
  match sessions db !! k with
  | None => db
  | Some s =>
    let end_dt := combine (scheduled_date s) (scheduled_end_time s) in
    if end_dt + minutes 30 <? now then
      let aet := end_dt + minutes 30 in
      let notes := strip (String.append (default "" (counselor_notes s))
                           (String.append nl (String.append nl auto_complete_note))) in
      let dur :=
        match actual_start_time s with
        | Some t0 => Some (minutes_between t0 aet)
        | None => duration s
        end in
      set_sessions db (<[k := set_lifecycle s completed (actual_start_time s)
                                (Some aet) dur (Some notes)]> (sessions db))
    else db
  end.

(** [update_session_statuses()] run at time [now]: the pending query, its
    loop, then the active query (which sees the first loop's changes through
    autoflush) and its loop, then one commit. *)
Definition update_session_statuses (now : Z) (db : DB) : DB :=
  let db1 := fold_left (auto_cancel_one now) (keys_with_status pending db) db in
  fold_left (auto_complete_one now) (keys_with_status active db1) db1.

(** [timedelta(minutes=9, seconds=30) <= time_diff <= timedelta(minutes=10, seconds=30)] *)
Definition in_reminder_window (now sdt : Z) : bool :=
  (minutes 9 + 30000000 <=? sdt - now) && (sdt - now <=? minutes 10 + 30000000).

(** A notification of type "session_reminder" for session [k] exists. *)
Definition is_reminder_for (k : nat) (n : Notification) : bool :=
  String.eqb (notif_type n) "session_reminder" &&
  match notif_session_id n with Some k' => (k' =? k)%nat | None => false end.

(** One iteration of the loop of [check_session_reminders], inside its
    [try: ... except Exception: continue]. The two [NotificationService]
    methods it calls are looked up on the class; the [Ok] branches are what
    the calls would do if the class defined them. *)
Definition reminder_one (now : Z) (db : DB) (k : nat) : DB :=
  match sessions db !! k with
  | None => db
  | Some s =>
    let sdt := combine (scheduled_date s) (scheduled_start_time s) in
    if in_reminder_window now sdt then
      match NotificationService_getattr "has_session_reminder" with
      | Err _ => db
      | Ok _ =>
        if existsb (is_reminder_for k) (notifications db) then db else
        match NotificationService_getattr "create_session_reminder_notification" with
        | Err _ => db
        | Ok _ => add_notification (mkNotification (user_id s) "session_reminder" (Some k)) db
        end
      end
    else db
  end.

(** The loop of [check_session_reminders] over the pending sessions
    scheduled on the date of [now + 10 minutes]. *)
Definition reminder_loop (now : Z) (db : DB) : DB :=
  let day := (now + minutes 10) / 86400000000 in
  fold_left (reminder_one now)
    (List.filter (fun k => match sessions db !! k with
                           | Some s => scheduled_date s =? day
                           | None => false
                           end) (keys_with_status pending db)) db.

(** [check_session_reminders()] run at time [now]: the body starts with
    [notification_service = NotificationService(db)] inside the outer
    [try: ... except Exception: logger.error(...)]. *)
Definition check_session_reminders (now : Z) (db : DB) : DB :=
  match NotificationService_new 1 with
  | Err _ => db
  | Ok _ => reminder_loop now db
  end.

(** [generate_daily_time_slots()] run on day [today]: the active schedules
    of the next day, then for each one the call
    [counselor_service.generate_slots_from_schedule(...)] inside
    [try: ... except Exception: continue]. The attribute is looked up on the
    [CounselorService] instance; the [Ok] branch is what the call would do
    if the class defined it. [None] when some call does not end within
    [fuel] loop iterations. *)
Definition generate_daily_time_slots (fuel : nat) (today : Z) (db : DB)
    (us : list Unavailability) (schedules : list CounselorSchedule) : option DB :=
  let target := today + 1 in
  let active :=
    List.filter (fun sch => sc_is_active sch && (effective_from sch <=? target) &&
                   match effective_until sch with
                   | None => true
                   | Some u => target <=? u
                   end) schedules in
  fold_left (fun acc sch =>
      match acc with
      | None => None
      | Some db0 =>
          match CounselorService_getattr "generate_slots_from_schedule" with
          | Err _ => Some db0
          | Ok _ =>
              match generate_slots_from_schedule fuel db0 us sch target with
              | None => None
              | Some (Ok (db1, _)) => Some db1
              | Some (Err _) => Some db0
              end
          end
      end) active (Some db).

(* ------------------------------------------------------------------ *)
(** ** [ConnectionManager] ([app/websocket/chat_manager.py]) *)

(** The [connection_info] entry of a handle. *)
Record ConnInfo := mkConnInfo {
  ci_session_id : nat;
  ci_user_id : nat;
  ci_user_type : SenderType;
  ci_connected_at : Z
}.

(** [active_connections: Dict[str, Set[WebSocket]]] and
    [connection_info: Dict[WebSocket, dict]]. A handle is a [nat]; a set of
    handles is a list without duplicates, in iteration order. *)
Record ConnectionManager := mkCM {
  active_connections : gmap nat (list nat);
  connection_info : gmap nat ConnInfo
}.

(** The [type] and [data] of an outbound [WebSocketMessage]. *)
Inductive WsEvent :=
| ev_session_info (sid : nat) (st : Status) (participants : list (nat * SenderType))
| ev_new_message (m : Message)
| ev_user_joined (uid : nat) (ut : SenderType)
| ev_user_left (uid : nat) (ut : SenderType)
| ev_typing_indicator (uid : nat) (ut : SenderType) (is_typing : bool)
| ev_session_started (sid uid : nat) (started_at : Z)
| ev_session_ended (sid uid : nat) (ended_at : Z) (dur : option Z)
| ev_error (msg : string).

(** What the server does on a transport handle. *)
Inductive WsOutput :=
| Sent (ws : nat) (e : WsEvent)
| Closed (ws : nat) (code : Z) (reason : string).

(** [broadcast_to_session(session_id, message, exclude_websocket)]: one send
    per member of the room other than [exclude]. Transport sends are taken to
    succeed, so the [except] branch (which calls [disconnect]) is not
    taken. *)
Definition broadcast_to_session (cm : ConnectionManager) (sid : nat)
    (e : WsEvent) (exclude : option nat) : list WsOutput :=
  match active_connections cm !! sid with
  | None => []
  | Some room => map (fun w => Sent w e) (List.filter (fun w => negb (bool_decide (Some w = exclude))) room)
  end.

(** [connect(websocket, session_id, user_id, user_type)] *)
Definition connect (cm : ConnectionManager) (ws sid uid : nat) (ut : SenderType)
    (now : Z) : ConnectionManager * list WsOutput :=
  let room := default [] (active_connections cm !! sid) in
  let room' := if bool_decide (ws ∈ room) then room else room ++ [ws] in
  let cm1 := mkCM (<[sid := room']> (active_connections cm))
                  (<[ws := mkConnInfo sid uid ut now]> (connection_info cm)) in
  (cm1, broadcast_to_session cm1 sid (ev_user_joined uid ut) (Some ws)).

(** [disconnect(websocket)]. The [user_left] broadcast, started with
    [asyncio.create_task], is taken to run before the next change of the
    registry. *)
Definition disconnect (cm : ConnectionManager) (ws : nat)
    : ConnectionManager * list WsOutput :=
  match connection_info cm !! ws with
  | None => (cm, [])
  | Some info =>
    let sid := ci_session_id info in
    let ac1 :=
      match active_connections cm !! sid with
      | Some room =>
          let room' := List.filter (fun w => negb (w =? ws)%nat) room in
          match room' with
          | [] => delete sid (active_connections cm)
          | _ => <[sid := room']> (active_connections cm)
          end
      | None => active_connections cm
      end in
    let cm1 := mkCM ac1 (delete ws (connection_info cm)) in
    match ac1 !! sid with
    | Some _ => (cm1, broadcast_to_session cm1 sid
                        (ev_user_left (ci_user_id info) (ci_user_type info)) None)
    | None => (cm1, [])
    end
  end.

(** [get_session_participants(session_id)] *)
Definition get_session_participants (cm : ConnectionManager) (sid : nat)
    : list (nat * SenderType) :=
  match active_connections cm !! sid with
  | None => []
  | Some room =>
      omap (fun w => match connection_info cm !! w with
                     | Some i => Some (ci_user_id i, ci_user_type i)
                     | None => None
                     end) room
  end.


(* ------------------------------------------------------------------ *)
(** ** [ChatWebSocketManager] ([app/websocket/chat_manager.py]) *)

(** A decoded inbound JSON object: the keys the handlers read, [None] for an
    absent key. *)
Record Payload := mkPayload {
  p_type : option string;
  p_content : option string;
  p_is_typing : option bool;
  p_action : option string;
  p_counselor_notes : option string
}.

(** What [websocket.receive_text()] followed by [json.loads] yields. *)
Inductive Frame :=
| FDisconnect
| FInvalidJson
| FJson (d : Payload).

(** [handle_chat_message] *)
Definition handle_chat_message (db : DB) (cm : ConnectionManager)
    (ws sid uid : nat) (ut : SenderType) (d : Payload) (now : Z)
    : DB * list WsOutput :=
  let c := strip (default "" (p_content d)) in
  if String.eqb c "" then
    (db, [Sent ws (ev_error "Message content cannot be empty")])
  else
    match send_message db sid uid ut c now with
    | (db', Ok m) => (db', broadcast_to_session cm sid (ev_new_message m) None)
    | (db', Err _) => (db', [Sent ws (ev_error "Failed to send message")])
    end.

(** [handle_typing_indicator] *)
Definition handle_typing_indicator (cm : ConnectionManager) (ws sid uid : nat)
    (ut : SenderType) (d : Payload) : list WsOutput :=
  broadcast_to_session cm sid
    (ev_typing_indicator uid ut (default false (p_is_typing d))) (Some ws).

Definition action_error : WsEvent := ev_error "Failed to perform action".

(** [handle_session_action] *)
Definition handle_session_action (db : DB) (cm : ConnectionManager)
    (ws sid uid : nat) (ut : SenderType) (d : Payload) (now : Z)
    : DB * list WsOutput :=
  let is_action a := match p_action d with
                     | Some a' => String.eqb a' a
                     | None => false
                     end in
  if is_action "start_session" && bool_decide (ut = counselor) then
    match start_chat_session db sid uid now with
    | (db', Ok s) =>
        match actual_start_time s with
        | Some t => (db', broadcast_to_session cm sid (ev_session_started sid uid t) None)
        | None => (db', [Sent ws action_error])
        end
    | (db', Err _) => (db', [Sent ws action_error])
    end
  else if is_action "end_session" && bool_decide (ut = counselor) then
    match complete_chat_session db sid uid
            (Some (default "" (p_counselor_notes d))) now with
    | (db', Ok s) =>
        match actual_end_time s with
        | Some t => (db', broadcast_to_session cm sid
                            (ev_session_ended sid uid t (duration s)) None)
        | None => (db', [Sent ws action_error])
        end
    | (db', Err _) => (db', [Sent ws action_error])
    end
  else (db, [Sent ws (ev_error "Invalid or unauthorized action")]).

(** [handle_message]: dispatch on [message_data.get("type")]. *)
Definition handle_message (db : DB) (cm : ConnectionManager)
    (ws sid uid : nat) (ut : SenderType) (d : Payload) (now : Z)
    : DB * list WsOutput :=
  let is_type t := match p_type d with
                   | Some t' => String.eqb t' t
                   | None => false
                   end in
  if is_type "chat_message" then handle_chat_message db cm ws sid uid ut d now
  else if is_type "typing" then (db, handle_typing_indicator cm ws sid uid ut d)
  else if is_type "session_action" then handle_session_action db cm ws sid uid ut d now
  else (db, [Sent ws (ev_error "Unknown message type")]).

(** The [while True] receive loop; each frame comes with the time it is
    handled. The stream ends with the client's disconnect. *)
Fixpoint receive_loop (db : DB) (cm : ConnectionManager) (ws sid uid : nat)
    (ut : SenderType) (frames : list (Z * Frame)) : DB * list WsOutput :=
  match frames with
  | [] => (db, [])
  | (_, FDisconnect) :: _ => (db, [])
  | (_, FInvalidJson) :: rest =>
      let '(db', o) := receive_loop db cm ws sid uid ut rest in
      (db', Sent ws (ev_error "Invalid JSON format") :: o)
  | (t, FJson d) :: rest =>
      let '(db1, o1) := handle_message db cm ws sid uid ut d t in
      let '(db2, o2) := receive_loop db1 cm ws sid uid ut rest in
      (db2, o1 ++ o2)
  end.

(** The [try]/[finally] block of [handle_websocket] for the identity
    [(uid, ut)] resolved from the connection's token, run with a
    [ChatService] instance: the access check, then registration and
    [session_info], then the receive loop; the [finally] clause always calls
    [disconnect]. *)
Definition handle_websocket_body (db : DB) (cm : ConnectionManager)
    (ws sid uid : nat) (ut : SenderType) (now : Z) (frames : list (Z * Frame))
    : DB * ConnectionManager * list WsOutput :=
  let found :=
    match ut with
    | user => get_chat_session_details db sid (Some uid) None
    | counselor => get_chat_session_details db sid None (Some uid)
    end in
  match found with
  | None =>
      let '(cm', o) := disconnect cm ws in
      (db, cm', Closed ws 4003 "Access denied to session" :: o)
  | Some s =>
      let '(cm1, o1) := connect cm ws sid uid ut now in
      let o2 := [Sent ws (ev_session_info sid (status s) (get_session_participants cm1 sid))] in
      let '(db2, o3) := receive_loop db cm1 ws sid uid ut frames in
      let '(cm2, o4) := disconnect cm1 ws in
      (db2, cm2, o1 ++ o2 ++ o3 ++ o4)
  end.

(** [handle_websocket(websocket, session_id, user_id, user_type)]: [db =
    SessionLocal()] and [chat_service = ChatService(db)] come before the
    [try], so an exception of the constructor leaves the handler at once,
    without the [finally] clause. *)
Definition handle_websocket (db : DB) (cm : ConnectionManager)
    (ws sid uid : nat) (ut : SenderType) (now : Z) (frames : list (Z * Frame))
    : result (DB * ConnectionManager * list WsOutput) :=
  match ChatService_new with
  | Err e => Err e
  | Ok _ => Ok (handle_websocket_body db cm ws sid uid ut now frames)
  end.

(** [websocket_chat_endpoint] ([app/api/websocket.py]) once
    [get_websocket_user] has resolved the token to the identity [(uid, ut)]:
    it awaits [handle_websocket]; an exception other than
    [WebSocketDisconnect] is logged and the handle is closed with 4000
    "Server error". *)
Definition websocket_chat_endpoint (db : DB) (cm : ConnectionManager)
    (ws sid uid : nat) (ut : SenderType) (now : Z) (frames : list (Z * Frame))
    : DB * ConnectionManager * list WsOutput :=
  match handle_websocket db cm ws sid uid ut now frames with
  | Ok r => r
  | Err _ => (db, cm, [Closed ws 4000 "Server error"])
  end.

(* ------------------------------------------------------------------ *)
(** ** Reachable states of the store *)

(** The changes of the store made by the modelled entry points, whatever
    their outcome. A new slot ([create_time_slot], [bulk_create_time_slots],
    [generate_slots_from_schedule]) is created with [is_booked=False]. The
    staff route [handle_session_action] of [app/api/v1/staff.py] is left
    out: it compares the [UUID] column [session.counselor_id] with a [str]
    and so rejects every request with 403 before changing anything. *)
Inductive step : DB -> DB -> Prop :=
| step_book db uid data :
    step db (book_chat_session db uid data).1
| step_start db sid cid now :
    step db (start_chat_session db sid cid now).1
| step_complete db sid cid notes now :
    step db (complete_chat_session db sid cid notes now).1
| step_cancel db sid uid cid reason :
    step db (cancel_chat_session db sid uid cid reason).1
| step_send db sid sender ty body now :
    step db (send_message db sid sender ty body now).1
| step_sweep db now :
    step db (update_session_statuses now db)
| step_reminders db now :
    step db (check_session_reminders now db)
| step_add_slot db tid t :
    time_slots db !! tid = None -> is_booked t = false ->
    step db (set_time_slots db (<[tid := t]> (time_slots db))).

(** A fresh store: no session, no booked slot. *)
Definition initial (db : DB) : Prop :=
  sessions db = ∅ /\ forall tid t, time_slots db !! tid = Some t -> is_booked t = false.

Inductive reachable : DB -> Prop :=
| reachable_init db : initial db -> reachable db
| reachable_step db db' : reachable db -> step db db' -> reachable db'.

(** Setting [is_booked=False] on slot [tid] if it exists. *)
Definition release_slot (db : DB) (tid : nat) : DB :=
  match time_slots db !! tid with
  | Some t => set_time_slots db (<[tid := set_booked t false]> (time_slots db))
  | None => db
  end.

Definition release_opt (o : option nat) (db : DB) : DB :=
  match o with
  | Some tid => release_slot db tid
  | None => db
  end.

(** A session that holds its slot: any status but [cancelled]. *)
Definition holds_slot (s : ChatSession) : Prop := status s <> cancelled.

(** Session [k] is bound to slot [tid] and holds it. *)
Definition bound_holder (m : gmap nat ChatSession) (tid k : nat) : Prop :=
  exists s, m !! k = Some s /\ time_slot_id s = Some tid /\ holds_slot s.

(** The invariant of reachable stores. *)
Record Inv (db : DB) : Prop := {
  inv_fresh : forall k, (next_id db <= k)%nat -> sessions db !! k = None;
  inv_booked : forall tid t, time_slots db !! tid = Some t ->
    (is_booked t = true <-> exists k, bound_holder (sessions db) tid k);
  inv_unique : forall tid k1 k2, bound_holder (sessions db) tid k1 ->
    bound_holder (sessions db) tid k2 -> k1 = k2;
  inv_slot : forall tid k, bound_holder (sessions db) tid k ->
    is_Some (time_slots db !! tid);
  inv_notes : forall k s, sessions db !! k = Some s ->
    status s = pending \/ status s = active -> counselor_notes s = None;
  inv_started : forall k s, sessions db !! k = Some s ->
    status s = active -> is_Some (actual_start_time s)
}.

(** No two distinct slots of one counselor on one date, both of positive
    length, overlap. *)
Definition no_overlap (m : gmap nat TimeSlot) : Prop :=
  forall k1 k2 t1 t2, k1 <> k2 -> m !! k1 = Some t1 -> m !! k2 = Some t2 ->
  ts_counselor_id t1 = ts_counselor_id t2 -> ts_date t1 = ts_date t2 ->
  ts_start_time t1 < ts_end_time t1 -> ts_start_time t2 < ts_end_time t2 ->
  ts_end_time t1 <= ts_start_time t2 \/ ts_end_time t2 <= ts_start_time t1.

(* ------------------------------------------------------------------ *)
(** ** Example stores *)

(** Day 20000 (2024-10-04), 09:00 and 09:50. *)
Definition day0 : Z := 20000.
Definition nine_am : Z := 9 * 3600000000.
Definition nine_fifty : Z := nine_am + minutes 50.

(** Counselor 7, active, available, with no session yet. *)
Definition ex_counselor : Staff :=
  mkStaff true true (Some (mkCounselorProfile true 0)).

(** Slot 3 of counselor 7, 09:00-09:50, open. *)
Definition ex_slot : TimeSlot := mkTimeSlot 7 day0 nine_am nine_fifty true false.

Definition ex_db0 : DB := mkDB ∅ {[3%nat := ex_slot]} {[7%nat := ex_counselor]} [] [] 0.

(** User 1 books slot 3 of counselor 7. *)
Definition ex_booking : ChatSessionCreate :=
  mkChatSessionCreate 7 day0 nine_am nine_fifty "anxiety" "first session" (Some 3%nat).

(** After the booking: session 0, pending. *)
Definition ex_db1 : DB := (book_chat_session ex_db0 1 ex_booking).1.

(** The session the booking creates. *)
Definition ex_session0 : ChatSession :=
  {| user_id := 1; counselor_id := 7; time_slot_id := Some 3%nat; status := pending;
     scheduled_date := day0; scheduled_start_time := nine_am;
     scheduled_end_time := nine_fifty; actual_start_time := None;
     actual_end_time := None; duration := None; category := "anxiety";
     description := "first session"; counselor_notes := None |}.

Definition ex_t_start : Z := combine day0 nine_am + minutes 2.
Definition ex_t_end : Z := ex_t_start + minutes 32.

(** After counselor 7 starts session 0: active. *)
Definition ex_db2 : DB := (start_chat_session ex_db1 0 7 ex_t_start).1.

(** After counselor 7 completes session 0 with notes. *)
Definition ex_db3 : DB :=
  (complete_chat_session ex_db2 0 7 (Some "Good progress") ex_t_end).1.

(** An active session of user 1 with counselor 7 without [actual_start_time]. *)
Definition ex_unstarted : ChatSession :=
  {| user_id := 1; counselor_id := 7; time_slot_id := None; status := active;
     scheduled_date := day0; scheduled_start_time := nine_am;
     scheduled_end_time := nine_fifty; actual_start_time := None;
     actual_end_time := None; duration := None; category := "anxiety";
     description := ""; counselor_notes := None |}.

Definition ex_db_unstarted : DB :=
  mkDB {[0%nat := ex_unstarted]} ∅ {[7%nat := ex_counselor]} [] [] 1.

(** Handles 10 (user 1) and 11 (counselor 7) in the room of session 0. *)
Definition ex_cm : ConnectionManager :=
  mkCM {[0%nat := [10%nat; 11%nat]]}
       {[10%nat := mkConnInfo 0 1 user 0; 11%nat := mkConnInfo 0 7 counselor 0]}.

(** Counselor 7 adds a slot 10:00-10:50 on day 20000 to [ex_db0]. *)
Definition ex_created : DB * nat :=
  match create_time_slot ex_db0 [] 7 day0 (nine_am + minutes 60) (nine_am + minutes 110) true with
  | Ok r => r
  | Err _ => (ex_db0, 0%nat)
  end.

(** No room is kept without members. *)
Definition no_empty_room (cm : ConnectionManager) : Prop :=
  forall sid room, active_connections cm !! sid = Some room -> room <> [].

(* ------------------------------------------------------------------ *)
(** ** The invariant is preserved *)

(** Case analysis on the boolean comparisons of [Z] in the hypotheses. *)
Ltac zcases :=
  repeat match goal with
  | H : context [Z.leb ?a ?b] |- _ => destruct (Z.leb_spec a b)
  | H : context [Z.ltb ?a ?b] |- _ => destruct (Z.ltb_spec a b)
  end.

Section Invariant.

Lemma Inv_ext db db' :
  sessions db' = sessions db -> time_slots db' = time_slots db ->
  next_id db' = next_id db -> Inv db -> Inv db'.
Proof.
  intros Hs Ht Hn [F B U S N A]. split; rewrite ?Hs, ?Ht, ?Hn; assumption.
Qed.

Lemma Inv_set_staff db m : Inv db -> Inv (set_staff db m).
Proof. apply Inv_ext; reflexivity. Qed.

Lemma live_lt db k s : Inv db -> sessions db !! k = Some s -> (k < next_id db)%nat.
Proof.
  intros I Hk. destruct (Nat.lt_ge_cases k (next_id db)) as [|Hge]; [done|].
  rewrite (inv_fresh _ I k Hge) in Hk. discriminate.
Qed.

(** Replacing a session by one bound to the same slot and holding it the
    same way leaves the holders of every slot unchanged. *)
Lemma bound_holder_insert_same (m : gmap nat ChatSession) k s s' tid j :
  m !! k = Some s -> time_slot_id s' = time_slot_id s ->
  (holds_slot s' <-> holds_slot s) ->
  bound_holder (<[k := s']> m) tid j <-> bound_holder m tid j.
Proof.
  intros Hk Hid Hh. unfold bound_holder.
  destruct (decide (j = k)) as [->|Hne].
  - rewrite lookup_insert_eq, Hk. split.
    + intros (x & Hx & Ht & Hl). injection Hx as <-. exists s. rewrite <- Hid. tauto.
    + intros (x & Hx & Ht & Hl). injection Hx as <-. exists s'. rewrite Hid. tauto.
  - rewrite lookup_insert_ne by congruence. reflexivity.
Qed.

(** Cancelling session [k] removes it, and only it, from the holders. *)
Lemma bound_holder_insert_cancel (m : gmap nat ChatSession) k s' tid j :
  status s' = cancelled ->
  bound_holder (<[k := s']> m) tid j <-> bound_holder m tid j /\ j <> k.
Proof.
  intros Hc. unfold bound_holder, holds_slot.
  destruct (decide (j = k)) as [->|Hne].
  - rewrite lookup_insert_eq. split.
    + intros (x & Hx & _ & Hl). injection Hx as <-. congruence.
    + intros [_ Hk]. congruence.
  - rewrite lookup_insert_ne by congruence. tauto.
Qed.

Lemma Inv_update db k s s' :
  Inv db -> sessions db !! k = Some s ->
  time_slot_id s' = time_slot_id s -> (holds_slot s' <-> holds_slot s) ->
  (status s' = pending \/ status s' = active -> counselor_notes s' = None) ->
  (status s' = active -> is_Some (actual_start_time s')) ->
  Inv (set_sessions db (<[k := s']> (sessions db))).
Proof.
  intros I Hk Hid Hh Hn Ha.
  pose proof (live_lt db k s I Hk) as Hlt.
  split; simpl.
  - intros j Hj. rewrite lookup_insert_ne by lia. apply (inv_fresh _ I j Hj).
  - intros tid t Ht. rewrite (inv_booked _ I tid t Ht).
    split; intros [j Hj]; exists j;
      eapply bound_holder_insert_same; eauto.
  - intros tid k1 k2 H1 H2.
    eapply (inv_unique _ I tid); eapply bound_holder_insert_same; eauto.
  - intros tid j Hj. eapply (inv_slot _ I tid j).
    eapply bound_holder_insert_same; eauto.
  - intros j x Hj Hst. destruct (decide (j = k)) as [->|Hne].
    + rewrite lookup_insert_eq in Hj. injection Hj as <-. auto.
    + rewrite lookup_insert_ne in Hj by congruence. eapply (inv_notes _ I); eauto.
  - intros j x Hj Hst. destruct (decide (j = k)) as [->|Hne].
    + rewrite lookup_insert_eq in Hj. injection Hj as <-. auto.
    + rewrite lookup_insert_ne in Hj by congruence. eapply (inv_started _ I); eauto.
Qed.

Lemma Inv_cancel db k s s' :
  Inv db -> sessions db !! k = Some s -> holds_slot s ->
  status s' = cancelled -> time_slot_id s' = time_slot_id s ->
  Inv (release_opt (time_slot_id s) (set_sessions db (<[k := s']> (sessions db)))).
Proof.
  intros I Hk Hh Hc Hid.
  pose proof (live_lt db k s I Hk) as Hlt.
  assert (Hfresh : forall j, (next_id db <= j)%nat ->
            <[k := s']> (sessions db) !! j = None).
  { intros j Hj. rewrite lookup_insert_ne by lia. apply (inv_fresh _ I j Hj). }
  assert (Huniq : forall tid k1 k2, bound_holder (<[k := s']> (sessions db)) tid k1 ->
            bound_holder (<[k := s']> (sessions db)) tid k2 -> k1 = k2).
  { intros tid k1 k2 H1 H2.
    apply bound_holder_insert_cancel in H1, H2; auto.
    eapply (inv_unique _ I tid); tauto. }
  assert (Hnotes : forall j x, <[k := s']> (sessions db) !! j = Some x ->
            status x = pending \/ status x = active -> counselor_notes x = None).
  { intros j x Hj Hst. destruct (decide (j = k)) as [->|Hne].
    - rewrite lookup_insert_eq in Hj. injection Hj as <-.
      rewrite Hc in Hst. destruct Hst; discriminate.
    - rewrite lookup_insert_ne in Hj by congruence. eapply (inv_notes _ I); eauto. }
  assert (Hstarted : forall j x, <[k := s']> (sessions db) !! j = Some x ->
            status x = active -> is_Some (actual_start_time x)).
  { intros j x Hj Hst. destruct (decide (j = k)) as [->|Hne].
    - rewrite lookup_insert_eq in Hj. injection Hj as <-. congruence.
    - rewrite lookup_insert_ne in Hj by congruence. eapply (inv_started _ I); eauto. }
  (* the holders of a slot other than the cancelled session's *)
  assert (Hother : forall tid, time_slot_id s <> Some tid ->
            (exists j, bound_holder (<[k := s']> (sessions db)) tid j) <->
            (exists j, bound_holder (sessions db) tid j)).
  { intros tid Hne. split; intros [j Hj]; exists j.
    - apply bound_holder_insert_cancel in Hj; tauto.
    - apply bound_holder_insert_cancel; auto. split; [done|].
      intros ->. destruct Hj as (x & Hx & Ht & _). congruence. }
  destruct (time_slot_id s) as [tid0|] eqn:Hts; simpl.
  - assert (Hb0 : bound_holder (sessions db) tid0 k) by (exists s; auto).
    destruct (inv_slot _ I tid0 k Hb0) as [t0 Ht0].
    unfold release_slot. simpl. rewrite Ht0. split; simpl.
    + exact Hfresh.
    + intros tid t Ht. destruct (decide (tid = tid0)) as [->|Hne].
      * rewrite lookup_insert_eq in Ht. injection Ht as <-. simpl.
        split; [discriminate|]. intros [j Hj].
        apply bound_holder_insert_cancel in Hj; auto. destruct Hj as [Hj Hjk].
        exfalso. apply Hjk. eapply (inv_unique _ I tid0); eauto.
      * rewrite lookup_insert_ne in Ht by congruence.
        rewrite (inv_booked _ I tid t Ht). symmetry. apply Hother. congruence.
    + exact Huniq.
    + intros tid j Hj. destruct (decide (tid = tid0)) as [->|Hne].
      * rewrite lookup_insert_eq. eauto.
      * rewrite lookup_insert_ne by congruence.
        apply bound_holder_insert_cancel in Hj; auto.
        eapply (inv_slot _ I tid j). tauto.
    + exact Hnotes.
    + exact Hstarted.
  - split; simpl.
    + exact Hfresh.
    + intros tid t Ht. rewrite (inv_booked _ I tid t Ht). symmetry.
      apply Hother. discriminate.
    + exact Huniq.
    + intros tid j Hj. apply bound_holder_insert_cancel in Hj; auto.
      eapply (inv_slot _ I tid j). tauto.
    + exact Hnotes.
    + exact Hstarted.
Qed.

Lemma details_lookup db sid u c s :
  get_chat_session_details db sid u c = Some s -> sessions db !! sid = Some s.
Proof.
  unfold get_chat_session_details.
  destruct (sessions db !! sid); [|discriminate].
  destruct u, c; repeat case_match; congruence.
Qed.

Lemma notify_best_effort_store name n db :
  sessions (notify_best_effort name n db) = sessions db /\
  time_slots (notify_best_effort name n db) = time_slots db /\
  next_id (notify_best_effort name n db) = next_id db.
Proof. unfold notify_best_effort. by case_match. Qed.

Lemma Inv_notify name n db : Inv db -> Inv (notify_best_effort name n db).
Proof.
  destruct (notify_best_effort_store name n db) as (? & ? & ?).
  apply Inv_ext; assumption.
Qed.

(** The unbooking of [cancel_chat_session], with its error swallowed. *)
Lemma cancel_booking_release db tid :
  match cancel_time_slot_booking db tid with
  | Ok db' => db'
  | Err _ => db
  end = release_slot db tid.
Proof. unfold cancel_time_slot_booking, release_slot. by destruct (time_slots db !! tid). Qed.

Lemma Inv_cancel_match db k s s' :
  Inv db -> sessions db !! k = Some s -> holds_slot s ->
  status s' = cancelled -> time_slot_id s' = time_slot_id s ->
  Inv (match time_slot_id s with
       | Some tid =>
           match cancel_time_slot_booking (set_sessions db (<[k := s']> (sessions db))) tid with
           | Ok db' => db'
           | Err _ => set_sessions db (<[k := s']> (sessions db))
           end
       | None => set_sessions db (<[k := s']> (sessions db))
       end).
Proof.
  intros I Hk Hh Hc Hid.
  pose proof (Inv_cancel db k s s' I Hk Hh Hc Hid) as H.
  destruct (time_slot_id s); [rewrite cancel_booking_release|]; exact H.
Qed.

Lemma Inv_cancel_chat_session db sid u c r :
  Inv db -> Inv (cancel_chat_session db sid u c r).1.
Proof.
  intros I. unfold cancel_chat_session.
  destruct (get_chat_session_details db sid u c) as [s|] eqn:Hd; [|exact I].
  apply details_lookup in Hd.
  case_bool_decide as Hst; [exact I|]. simpl. apply Inv_notify.
  eapply Inv_cancel_match; eauto.
  unfold holds_slot. intros Hc. apply Hst. rewrite Hc. set_solver.
Qed.

Lemma Inv_start_chat_session db sid cid now :
  Inv db -> Inv (start_chat_session db sid cid now).1.
Proof.
  intros I. unfold start_chat_session.
  destruct (get_chat_session_details db sid None (Some cid)) as [s|] eqn:Hd; [|exact I].
  apply details_lookup in Hd.
  case_bool_decide as Hst; [exact I|]. simpl.
  apply Inv_notify. eapply Inv_update; eauto; simpl.
  - unfold holds_slot. simpl. rewrite Hst. split; discriminate.
  - intros _. eapply (inv_notes _ I); eauto.
Qed.

Lemma Inv_complete_chat_session db sid cid notes now :
  Inv db -> Inv (complete_chat_session db sid cid notes now).1.
Proof.
  intros I. unfold complete_chat_session.
  destruct (get_chat_session_details db sid None (Some cid)) as [s|] eqn:Hd; [|exact I].
  apply details_lookup in Hd.
  case_bool_decide as Hst; [exact I|].
  destruct (staff db !! counselor_id s) as [c|]; [|exact I].
  destruct (counselor_profile c) as [p|]; [|exact I]. simpl.
  apply Inv_notify, Inv_set_staff.
  eapply Inv_update; eauto; simpl.
  - unfold holds_slot. simpl. rewrite Hst. split; discriminate.
  - intros [H|H]; discriminate.
  - discriminate.
Qed.

Lemma Inv_send_message db sid sender ty body now :
  Inv db -> Inv (send_message db sid sender ty body now).1.
Proof.
  intros I. unfold send_message.
  repeat case_match; simpl; try exact I.
  all: apply (Inv_ext db); [reflexivity|reflexivity|reflexivity|exact I].
Qed.

Lemma bound_holder_insert_fresh (m : gmap nat ChatSession) n s tid j :
  m !! n = None ->
  bound_holder (<[n := s]> m) tid j <->
  (j = n /\ time_slot_id s = Some tid /\ holds_slot s) \/ bound_holder m tid j.
Proof.
  intros Hn. unfold bound_holder.
  destruct (decide (j = n)) as [->|Hne].
  - rewrite lookup_insert_eq, Hn. split.
    + intros (x & Hx & Ht & Hl). injection Hx as <-. left. auto.
    + intros [(_ & Ht & Hl) | (x & Hx & _)]; [eauto | discriminate].
  - rewrite lookup_insert_ne by congruence. split; [auto|].
    intros [(? & _) | H]; [congruence | exact H].
Qed.

Lemma Inv_new_noslot db s :
  Inv db -> time_slot_id s = None -> status s = pending -> counselor_notes s = None ->
  Inv (mkDB (<[next_id db := s]> (sessions db)) (time_slots db) (staff db)
         (messages db) (notifications db) (S (next_id db))).
Proof.
  intros I Hts Hst Hn.
  pose proof (inv_fresh _ I (next_id db) (le_n _)) as Hfr.
  assert (Hb : forall tid j, bound_holder (<[next_id db := s]> (sessions db)) tid j <->
                             bound_holder (sessions db) tid j).
  { intros tid j. rewrite bound_holder_insert_fresh by exact Hfr.
    rewrite Hts. split; [intros [(_ & ? & _)|H]; [discriminate|exact H] | auto]. }
  split; simpl.
  - intros j Hj. rewrite lookup_insert_ne by lia. apply (inv_fresh _ I). lia.
  - intros tid t Ht. rewrite (inv_booked _ I tid t Ht).
    split; intros [j Hj]; exists j; apply Hb; exact Hj.
  - intros tid k1 k2 H1 H2. apply Hb in H1, H2. eapply (inv_unique _ I); eauto.
  - intros tid j Hj. apply Hb in Hj. eapply (inv_slot _ I); eauto.
  - intros j x Hj Hx. destruct (decide (j = next_id db)) as [->|Hne].
    + rewrite lookup_insert_eq in Hj. injection Hj as <-. exact Hn.
    + rewrite lookup_insert_ne in Hj by congruence. eapply (inv_notes _ I); eauto.
  - intros j x Hj Hx. destruct (decide (j = next_id db)) as [->|Hne].
    + rewrite lookup_insert_eq in Hj. injection Hj as <-. congruence.
    + rewrite lookup_insert_ne in Hj by congruence. eapply (inv_started _ I); eauto.
Qed.

Lemma Inv_new_slot db s tid t :
  Inv db -> time_slot_id s = Some tid -> time_slots db !! tid = Some t ->
  is_booked t = false -> status s = pending -> counselor_notes s = None ->
  Inv (set_time_slots
         (mkDB (<[next_id db := s]> (sessions db)) (time_slots db) (staff db)
            (messages db) (notifications db) (S (next_id db)))
         (<[tid := set_booked t true]> (time_slots db))).
Proof.
  intros I Hts Ht Hfree Hst Hn.
  pose proof (inv_fresh _ I (next_id db) (le_n _)) as Hfr.
  assert (Hh : holds_slot s) by (unfold holds_slot; rewrite Hst; discriminate).
  assert (Hnone : forall j, ~ bound_holder (sessions db) tid j).
  { intros j Hj. pose proof (proj2 (inv_booked _ I tid t Ht) (ex_intro _ j Hj)).
    congruence. }
  assert (Hb : forall tid' j,
             bound_holder (<[next_id db := s]> (sessions db)) tid' j <->
             (j = next_id db /\ tid' = tid) \/ bound_holder (sessions db) tid' j).
  { intros tid' j. rewrite bound_holder_insert_fresh by exact Hfr.
    rewrite Hts. split.
    - intros [(? & ? & ?)|H]; [left; split; congruence | auto].
    - intros [(? & ?)|H]; [left; subst; auto | auto]. }
  split; simpl.
  - intros j Hj. rewrite lookup_insert_ne by lia. apply (inv_fresh _ I). lia.
  - intros tid' t' Ht'. destruct (decide (tid' = tid)) as [->|Hne].
    + rewrite lookup_insert_eq in Ht'. injection Ht' as <-. simpl.
      split; [|reflexivity]. intros _. exists (next_id db). apply Hb. auto.
    + rewrite lookup_insert_ne in Ht' by congruence.
      rewrite (inv_booked _ I tid' t' Ht').
      split; intros [j Hj]; exists j; [apply Hb; auto|].
      apply Hb in Hj. destruct Hj as [[_ ?]|Hj]; [congruence|exact Hj].
  - intros tid' k1 k2 H1 H2. apply Hb in H1, H2.
    destruct H1 as [[-> ->]|H1], H2 as [[-> ?]|H2]; subst; auto.
    + exfalso. eapply Hnone; eauto.
    + exfalso. eapply Hnone; eauto.
    + eapply (inv_unique _ I); eauto.
  - intros tid' j Hj. apply Hb in Hj. destruct (decide (tid' = tid)) as [->|Hne].
    + rewrite lookup_insert_eq. eauto.
    + rewrite lookup_insert_ne by congruence.
      destruct Hj as [[_ ?]|Hj]; [congruence|]. eapply (inv_slot _ I); eauto.
  - intros j x Hj Hx. destruct (decide (j = next_id db)) as [->|Hne].
    + rewrite lookup_insert_eq in Hj. injection Hj as <-. exact Hn.
    + rewrite lookup_insert_ne in Hj by congruence. eapply (inv_notes _ I); eauto.
  - intros j x Hj Hx. destruct (decide (j = next_id db)) as [->|Hne].
    + rewrite lookup_insert_eq in Hj. injection Hj as <-. congruence.
    + rewrite lookup_insert_ne in Hj by congruence. eapply (inv_started _ I); eauto.
Qed.

Lemma query_free_slot_Some db tid cid t :
  query_free_slot db tid cid = Some t ->
  time_slots db !! tid = Some t /\ ts_counselor_id t = cid /\
  is_available t = true /\ is_booked t = false.
Proof.
  unfold query_free_slot. destruct (time_slots db !! tid) as [t'|]; [|discriminate].
  destruct (ts_counselor_id t' =? cid)%nat eqn:E1,
           (is_available t') eqn:E2, (is_booked t') eqn:E3;
    simpl; intros H; try discriminate.
  injection H as <-. apply Nat.eqb_eq in E1. auto.
Qed.

Lemma Inv_book_chat_session db uid data :
  Inv db -> Inv (book_chat_session db uid data).1.
Proof.
  intros I. unfold book_chat_session.
  destruct (get_counselor_by_id db (cc_counselor_id data)) as [[c p]|]; [|exact I].
  destruct (negb (profile_is_available p)); [exact I|].
  destruct (cc_time_slot_id data) as [tid|] eqn:Hslot.
  - destruct (query_free_slot db tid (cc_counselor_id data)) as [t|] eqn:Hq; [|exact I].
    apply query_free_slot_Some in Hq as (Ht & _ & Hav & Hfree).
    destruct (_ || _ || _); [exact I|]. simpl.
    unfold book_time_slot. simpl. rewrite Ht, Hfree, Hav. simpl.
    apply Inv_notify. eapply Inv_new_slot; simpl; eauto.
  - simpl. apply Inv_notify. apply Inv_new_noslot; simpl; auto.
Qed.

Lemma keys_with_status_spec st db k :
  k ∈ keys_with_status st db -> exists s, sessions db !! k = Some s /\ status s = st.
Proof.
  unfold keys_with_status. rewrite list_elem_of_fmap.
  intros [[k' s] [-> Hin]]. apply list_elem_of_filter in Hin as [Hst Hin].
  apply elem_of_map_to_list in Hin. simpl in *. eauto.
Qed.

Lemma keys_with_status_NoDup st db : NoDup (keys_with_status st db).
Proof.
  unfold keys_with_status. apply NoDup_fmap_fst.
  - intros x y1 y2 H1 H2.
    apply list_elem_of_filter in H1 as [_ H1], H2 as [_ H2].
    apply elem_of_map_to_list in H1, H2. congruence.
  - apply NoDup_filter, NoDup_map_to_list.
Qed.

Lemma Inv_auto_cancel_one now db k s :
  Inv db -> sessions db !! k = Some s -> status s = pending ->
  Inv (auto_cancel_one now db k).
Proof.
  intros I Hk Hst. unfold auto_cancel_one. rewrite Hk.
  destruct (_ <? now); [|exact I].
  assert (Hh : holds_slot s) by (unfold holds_slot; rewrite Hst; discriminate).
  pose proof (Inv_cancel db k s (set_lifecycle s cancelled (actual_start_time s)
                (actual_end_time s) (duration s) (Some auto_cancel_note))
                I Hk Hh eq_refl eq_refl) as H.
  destruct (time_slot_id s); exact H.
Qed.

Lemma auto_cancel_one_other now db k j :
  j <> k -> sessions (auto_cancel_one now db k) !! j = sessions db !! j.
Proof.
  intros Hne. unfold auto_cancel_one.
  destruct (sessions db !! k) as [s|]; [|reflexivity].
  destruct (_ <? now); [|reflexivity].
  destruct (time_slot_id s); [destruct (time_slots _ !! _)|]; simpl;
    by rewrite lookup_insert_ne by congruence.
Qed.

Lemma Inv_fold_auto_cancel now ks db :
  Inv db -> NoDup ks ->
  (forall k, k ∈ ks -> exists s, sessions db !! k = Some s /\ status s = pending) ->
  Inv (fold_left (auto_cancel_one now) ks db).
Proof.
  revert db. induction ks as [|k ks IH]; intros db I Hnd Hp; simpl; [exact I|].
  apply NoDup_cons in Hnd as [Hk Hnd].
  destruct (Hp k (list_elem_of_here k ks)) as (s & Hs & Hst).
  apply IH; [eapply Inv_auto_cancel_one; eauto | exact Hnd |].
  intros j Hj. rewrite auto_cancel_one_other by (intros ->; contradiction).
  apply Hp. by apply list_elem_of_further.
Qed.

Lemma Inv_auto_complete_one now db k :
  Inv db -> (forall s, sessions db !! k = Some s -> holds_slot s) ->
  Inv (auto_complete_one now db k).
Proof.
  intros I Hh. unfold auto_complete_one.
  destruct (sessions db !! k) as [s|] eqn:Hk; [|exact I].
  destruct (_ <? now); [|exact I].
  eapply Inv_update; eauto; simpl.
  - specialize (Hh s eq_refl). unfold holds_slot in *. simpl. split; [auto|discriminate].
  - intros [H|H]; discriminate.
  - discriminate.
Qed.

Lemma auto_complete_one_holds now db k j :
  (forall s, sessions db !! j = Some s -> holds_slot s) ->
  forall s, sessions (auto_complete_one now db k) !! j = Some s -> holds_slot s.
Proof.
  intros Hh s'. unfold auto_complete_one.
  destruct (sessions db !! k) as [s|] eqn:Hk; [|apply Hh].
  destruct (_ <? now); [|apply Hh]. simpl.
  destruct (decide (j = k)) as [->|Hne].
  - rewrite lookup_insert_eq. intros [= <-]. unfold holds_slot. simpl. discriminate.
  - rewrite lookup_insert_ne by congruence. apply Hh.
Qed.

Lemma Inv_fold_auto_complete now ks db :
  Inv db ->
  (forall k, k ∈ ks -> forall s, sessions db !! k = Some s -> holds_slot s) ->
  Inv (fold_left (auto_complete_one now) ks db).
Proof.
  revert db. induction ks as [|k ks IH]; intros db I Hh; simpl; [exact I|].
  apply IH.
  - apply Inv_auto_complete_one; [exact I|]. apply Hh, list_elem_of_here.
  - intros j Hj. apply auto_complete_one_holds. apply Hh. by apply list_elem_of_further.
Qed.

Lemma Inv_update_session_statuses now db :
  Inv db -> Inv (update_session_statuses now db).
Proof.
  intros I. unfold update_session_statuses.
  apply Inv_fold_auto_complete.
  - apply Inv_fold_auto_cancel; [exact I | apply keys_with_status_NoDup |].
    intros k Hk. by apply keys_with_status_spec.
  - intros k Hk s Hs. apply keys_with_status_spec in Hk as (s' & Hs' & Hst).
    rewrite Hs in Hs'. injection Hs' as <-. unfold holds_slot. rewrite Hst. discriminate.
Qed.

Lemma Inv_add_slot db tid t :
  Inv db -> time_slots db !! tid = None -> is_booked t = false ->
  Inv (set_time_slots db (<[tid := t]> (time_slots db))).
Proof.
  intros I Hn Hb. split; simpl.
  - apply (inv_fresh _ I).
  - intros tid' t' Ht'. destruct (decide (tid' = tid)) as [->|Hne].
    + rewrite lookup_insert_eq in Ht'. injection Ht' as <-. rewrite Hb.
      split; [discriminate|]. intros [j Hj].
      destruct (inv_slot _ I tid j Hj) as [x Hx]. congruence.
    + rewrite lookup_insert_ne in Ht' by congruence. exact (inv_booked _ I tid' t' Ht').
  - apply (inv_unique _ I).
  - intros tid' j Hj. destruct (decide (tid' = tid)) as [->|Hne].
    + rewrite lookup_insert_eq. eauto.
    + rewrite lookup_insert_ne by congruence. exact (inv_slot _ I tid' j Hj).
  - apply (inv_notes _ I).
  - apply (inv_started _ I).
Qed.

Lemma Inv_initial db : initial db -> Inv db.
Proof.
  intros [Hs Hb]. split; rewrite ?Hs.
  - intros k _. apply lookup_empty.
  - intros tid t Ht. rewrite (Hb tid t Ht). split; [discriminate|].
    intros [j (x & Hx & _)]. rewrite lookup_empty in Hx. discriminate.
  - intros tid k1 k2 (x & Hx & _). rewrite lookup_empty in Hx. discriminate.
  - intros tid k (x & Hx & _). rewrite lookup_empty in Hx. discriminate.
  - intros k s Hx. rewrite lookup_empty in Hx. discriminate.
  - intros k s Hx. rewrite lookup_empty in Hx. discriminate.
Qed.

Lemma reachable_Inv db : reachable db -> Inv db.
Proof.
  induction 1 as [db Hi|db db' _ I Hstep].
  - by apply Inv_initial.
  - destruct Hstep.
    + by apply Inv_book_chat_session.
    + by apply Inv_start_chat_session.
    + by apply Inv_complete_chat_session.
    + by apply Inv_cancel_chat_session.
    + by apply Inv_send_message.
    + by apply Inv_update_session_statuses.
    + exact I.
    + by apply Inv_add_slot.
Qed.

End Invariant.

(* ------------------------------------------------------------------ *)
(** ** Facts about single operations *)

Lemma release_slot_sessions db tid : sessions (release_slot db tid) = sessions db.
Proof. unfold release_slot. by case_match. Qed.

Lemma release_slot_lookup db tid :
  time_slots (release_slot db tid) !! tid =
  (fun t => set_booked t false) <$> time_slots db !! tid.
Proof.
  unfold release_slot. destruct (time_slots db !! tid) eqn:E; simpl.
  - by rewrite lookup_insert_eq.
  - by rewrite E.
Qed.

Lemma notify_best_effort_staff name n db :
  staff (notify_best_effort name n db) = staff db.
Proof. unfold notify_best_effort. by case_match. Qed.

Lemma notify_best_effort_sessions name n db :
  sessions (notify_best_effort name n db) = sessions db.
Proof. apply notify_best_effort_store. Qed.

Lemma notify_best_effort_time_slots name n db :
  time_slots (notify_best_effort name n db) = time_slots db.
Proof. apply notify_best_effort_store. Qed.

Lemma cancel_chat_session_unfold db sid uid cid r s :
  get_chat_session_details db sid uid cid = Some s ->
  status s <> completed -> status s <> cancelled ->
  cancel_chat_session db sid uid cid r =
    (let s' := set_lifecycle s cancelled (actual_start_time s) (actual_end_time s)
                 (duration s) (cancel_notes (counselor_notes s) r) in
     (notify_best_effort "create_session_cancellation_notification"
        (mkNotification (user_id s) "session_cancelled" (Some sid))
        (release_opt (time_slot_id s) (set_sessions db (<[sid := s']> (sessions db)))),
      Ok s')).
Proof.
  intros Hd H1 H2. unfold cancel_chat_session. rewrite Hd.
  rewrite bool_decide_false by set_solver.
  destruct (time_slot_id s) as [tid|]; [|reflexivity].
  cbn [release_opt]. unfold release_slot, cancel_time_slot_booking.
  cbn [time_slots set_sessions].
  destruct (time_slots db !! tid); reflexivity.
Qed.

Lemma initial_ex_db0 : initial ex_db0.
Proof.
  split; [reflexivity|]. intros tid t Ht. simpl in Ht.
  apply lookup_singleton_Some in Ht as [_ <-]. reflexivity.
Qed.

Lemma ex_db1_reachable : reachable ex_db1.
Proof.
  unfold ex_db1. eapply reachable_step; [|apply step_book].
  apply reachable_init, initial_ex_db0.
Qed.

Lemma ex_db2_reachable : reachable ex_db2.
Proof. unfold ex_db2. eapply reachable_step; [apply ex_db1_reachable|apply step_start]. Qed.

Lemma ex_db3_reachable : reachable ex_db3.
Proof. unfold ex_db3. eapply reachable_step; [apply ex_db2_reachable|apply step_complete]. Qed.

(* ------------------------------------------------------------------ *)
(** ** C1: cancellation *)

(** C1 (counterexample): in the reachable store where slot 3 was booked and
    the session then started, session 0 is active, and its user's
    [cancel_chat_session] succeeds and makes it cancelled. *)
Lemma cancel_active_session_succeeds :
  reachable ex_db2 /\
  (exists s, sessions ex_db2 !! 0%nat = Some s /\ status s = active) /\
  exists db' s', cancel_chat_session ex_db2 0 (Some 1%nat) None (Some "schedule change")
                 = (db', Ok s') /\
    status s' = cancelled /\ sessions db' !! 0%nat = Some s'.
Proof.
  split; [exact ex_db2_reachable|].
  split; [eexists; split; reflexivity|].
  do 2 eexists; split; [reflexivity|]. split; reflexivity.
Qed.

(** C1 (amended): [cancel_chat_session] fails, leaving the store unchanged,
    exactly when the session is not found for the caller or its status is
    [completed] or [cancelled]. From [pending] and from [active] it succeeds:
    the session becomes [cancelled], a non-empty reason is appended to its
    notes (after a blank line when there are notes already), other notes are
    left as they were, and its bound slot, if any, gets [is_booked=False]. *)
Theorem cancel_chat_session_spec db sid uid cid r :
  match get_chat_session_details db sid uid cid with
  | None => exists e, cancel_chat_session db sid uid cid r = (db, Err e)
  | Some s =>
    ((status s = completed \/ status s = cancelled) ->
       exists e, cancel_chat_session db sid uid cid r = (db, Err e)) /\
    ((status s = pending \/ status s = active) ->
       exists db' s', cancel_chat_session db sid uid cid r = (db', Ok s') /\
         sessions db' !! sid = Some s' /\ status s' = cancelled /\
         (truthy r = true -> truthy (counselor_notes s) = true ->
            counselor_notes s' =
              Some (String.append (default "" (counselor_notes s))
                      (String.append nl (String.append nl
                         (String.append "Cancellation reason: " (default "" r)))))) /\
         (truthy r = true -> truthy (counselor_notes s) = false ->
            counselor_notes s' =
              Some (String.append "Cancellation reason: " (default "" r))) /\
         (truthy r = false -> counselor_notes s' = counselor_notes s) /\
         (forall tid t, time_slot_id s = Some tid -> time_slots db !! tid = Some t ->
            time_slots db' !! tid = Some (set_booked t false)))
  end.
Proof.
  destruct (get_chat_session_details db sid uid cid) as [s|] eqn:Hd.
  - split.
    + intros Hst. unfold cancel_chat_session. rewrite Hd.
      rewrite bool_decide_true by (destruct Hst as [-> | ->]; set_solver).
      eexists; reflexivity.
    + intros Hst.
      assert (H1 : status s <> completed) by (destruct Hst as [-> | ->]; discriminate).
      assert (H2 : status s <> cancelled) by (destruct Hst as [-> | ->]; discriminate).
      rewrite (cancel_chat_session_unfold db sid uid cid r s Hd H1 H2). cbv zeta.
      do 2 eexists; split; [reflexivity|].
      destruct (notify_best_effort_store "create_session_cancellation_notification"
                  (mkNotification (user_id s) "session_cancelled" (Some sid))
                  (release_opt (time_slot_id s)
                     (set_sessions db (<[sid := set_lifecycle s cancelled
                        (actual_start_time s) (actual_end_time s) (duration s)
                        (cancel_notes (counselor_notes s) r)]> (sessions db)))))
        as (Hs & Ht & _).
      rewrite Hs, Ht. cbn [counselor_notes status set_lifecycle].
      unfold cancel_notes.
      split; [|split; [reflexivity|]].
      { destruct (time_slot_id s); cbn [release_opt];
          rewrite ?release_slot_sessions; simpl; apply lookup_insert_eq. }
      split; [intros -> ->; reflexivity|].
      split; [intros -> ->; reflexivity|].
      split; [intros ->; reflexivity|].
      intros tid t Htid Ht0. rewrite Htid. cbn [release_opt].
      rewrite release_slot_lookup. simpl. by rewrite Ht0.
  - unfold cancel_chat_session. rewrite Hd. eexists; reflexivity.
Qed.

(* ------------------------------------------------------------------ *)
(** ** The overdue sweep *)

Lemma keys_with_status_in st db k s :
  sessions db !! k = Some s -> status s = st -> k ∈ keys_with_status st db.
Proof.
  intros Hk Hst. unfold keys_with_status. apply list_elem_of_fmap.
  exists (k, s). split; [reflexivity|]. apply list_elem_of_filter.
  split; [exact Hst|]. by apply elem_of_map_to_list.
Qed.

Lemma auto_cancel_one_released now db k tid :
  (forall t, time_slots db !! tid = Some t -> is_booked t = false) ->
  forall t, time_slots (auto_cancel_one now db k) !! tid = Some t -> is_booked t = false.
Proof.
  intros Hr t. unfold auto_cancel_one.
  destruct (sessions db !! k) as [s|]; [|apply Hr].
  destruct (_ <? now); [|apply Hr].
  destruct (time_slot_id s) as [tid'|]; cbn [time_slots set_sessions]; [|apply Hr].
  destruct (time_slots db !! tid') as [t'|]; cbn [time_slots set_time_slots]; [|apply Hr].
  destruct (decide (tid = tid')) as [->|Hne].
  - rewrite lookup_insert_eq. intros [= <-]. reflexivity.
  - rewrite lookup_insert_ne by congruence. apply Hr.
Qed.

Lemma fold_auto_cancel_released now ks db tid :
  (forall t, time_slots db !! tid = Some t -> is_booked t = false) ->
  forall t, time_slots (fold_left (auto_cancel_one now) ks db) !! tid = Some t ->
  is_booked t = false.
Proof.
  revert db. induction ks as [|k ks IH]; intros db Hr; simpl; [exact Hr|].
  apply IH. by apply auto_cancel_one_released.
Qed.

Lemma auto_complete_one_slots now db k :
  time_slots (auto_complete_one now db k) = time_slots db.
Proof. unfold auto_complete_one. by repeat case_match. Qed.

Lemma fold_auto_complete_slots now ks db :
  time_slots (fold_left (auto_complete_one now) ks db) = time_slots db.
Proof.
  revert db. induction ks as [|k ks IH]; intros db; simpl; [reflexivity|].
  by rewrite IH, auto_complete_one_slots.
Qed.

Lemma auto_complete_one_other now db k j :
  j <> k -> sessions (auto_complete_one now db k) !! j = sessions db !! j.
Proof.
  intros Hne. unfold auto_complete_one.
  destruct (sessions db !! k); [|reflexivity]. destruct (_ <? now); [|reflexivity].
  cbn [sessions set_sessions]. by rewrite lookup_insert_ne by congruence.
Qed.

Lemma fold_auto_complete_other now ks db j :
  j ∉ ks -> sessions (fold_left (auto_complete_one now) ks db) !! j = sessions db !! j.
Proof.
  revert db. induction ks as [|k ks IH]; intros db Hj; simpl; [reflexivity|].
  rewrite IH by set_solver. apply auto_complete_one_other. set_solver.
Qed.

Lemma fold_auto_cancel_other now ks db j :
  j ∉ ks -> sessions (fold_left (auto_cancel_one now) ks db) !! j = sessions db !! j.
Proof.
  revert db. induction ks as [|k ks IH]; intros db Hj; simpl; [reflexivity|].
  rewrite IH by set_solver. apply auto_cancel_one_other. set_solver.
Qed.

Lemma fold_auto_cancel_keeps now ks db k s :
  sessions db !! k = Some s ->
  ~ combine (scheduled_date s) (scheduled_start_time s) + minutes 15 < now ->
  sessions (fold_left (auto_cancel_one now) ks db) !! k = Some s.
Proof.
  intros Hk Hn. revert db Hk. induction ks as [|j ks IH]; intros db Hk; simpl; [exact Hk|].
  apply IH. destruct (decide (k = j)) as [->|Hne].
  - unfold auto_cancel_one. rewrite Hk. destruct (_ <? now) eqn:E; [|exact Hk].
    apply Z.ltb_lt in E. contradiction.
  - by rewrite auto_cancel_one_other.
Qed.

Lemma auto_cancel_one_hit now db k s :
  sessions db !! k = Some s ->
  combine (scheduled_date s) (scheduled_start_time s) + minutes 15 < now ->
  sessions (auto_cancel_one now db k) !! k =
    Some (set_lifecycle s cancelled (actual_start_time s) (actual_end_time s)
            (duration s) (Some auto_cancel_note)) /\
  forall tid t, time_slot_id s = Some tid ->
    time_slots (auto_cancel_one now db k) !! tid = Some t -> is_booked t = false.
Proof.
  intros Hk Hlt. apply Z.ltb_lt in Hlt. unfold auto_cancel_one. rewrite Hk, Hlt.
  destruct (time_slot_id s) as [tid0|]; cbn [time_slots set_sessions].
  - destruct (time_slots db !! tid0) as [t0|] eqn:Ht0;
      cbn [time_slots sessions set_time_slots set_sessions].
    + split; [apply lookup_insert_eq|]. intros tid t [= <-].
      rewrite lookup_insert_eq. intros [= <-]. reflexivity.
    + split; [apply lookup_insert_eq|]. intros tid t [= <-]. rewrite Ht0. discriminate.
  - cbn [sessions set_sessions]. split; [apply lookup_insert_eq|]. discriminate.
Qed.

(** What one run of [update_session_statuses] does to a pending session. *)
Lemma update_session_statuses_pending now db k s :
  sessions db !! k = Some s -> status s = pending ->
  (combine (scheduled_date s) (scheduled_start_time s) + minutes 15 < now ->
     sessions (update_session_statuses now db) !! k =
       Some (set_lifecycle s cancelled (actual_start_time s) (actual_end_time s)
               (duration s) (Some auto_cancel_note)) /\
     forall tid t, time_slot_id s = Some tid ->
       time_slots (update_session_statuses now db) !! tid = Some t -> is_booked t = false) /\
  (~ combine (scheduled_date s) (scheduled_start_time s) + minutes 15 < now ->
     sessions (update_session_statuses now db) !! k = Some s).
Proof.
  intros Hk Hst. unfold update_session_statuses. split.
  - intros Hlt.
    pose proof (keys_with_status_in pending db k s Hk Hst) as Hin.
    pose proof (keys_with_status_NoDup pending db) as Hnd.
    apply list_elem_of_split in Hin as (l1 & l2 & Hsplit).
    rewrite Hsplit in Hnd |- *.
    apply NoDup_app in Hnd as (_ & Hdis & Hnd2).
    apply NoDup_cons in Hnd2 as [Hk2 _].
    assert (Hk1 : k ∉ l1) by (intros H; apply (Hdis k H); apply list_elem_of_here).
    rewrite fold_left_app. cbn [fold_left].
    assert (Ha : sessions (fold_left (auto_cancel_one now) l1 db) !! k = Some s)
      by (rewrite fold_auto_cancel_other; auto).
    destruct (auto_cancel_one_hit now _ k s Ha Hlt) as [Hb1 Hb2].
    assert (H1 : sessions (fold_left (auto_cancel_one now) l2
                   (auto_cancel_one now (fold_left (auto_cancel_one now) l1 db) k)) !! k =
                 Some (set_lifecycle s cancelled (actual_start_time s) (actual_end_time s)
                         (duration s) (Some auto_cancel_note)))
      by (rewrite fold_auto_cancel_other; auto).
    assert (Hnot : k ∉ keys_with_status active (fold_left (auto_cancel_one now) l2
                   (auto_cancel_one now (fold_left (auto_cancel_one now) l1 db) k))).
    { intros Hin. apply keys_with_status_spec in Hin as (x & Hx & Hxs).
      rewrite H1 in Hx. injection Hx as <-. discriminate. }
    split.
    + rewrite fold_auto_complete_other by exact Hnot. exact H1.
    + intros tid t Htid. rewrite fold_auto_complete_slots.
      apply fold_auto_cancel_released. intros t'. by apply Hb2.
  - intros Hn.
    assert (H1 : sessions (fold_left (auto_cancel_one now) (keys_with_status pending db) db)
                 !! k = Some s) by (apply fold_auto_cancel_keeps; auto).
    rewrite fold_auto_complete_other; [exact H1|].
    intros Hin. apply keys_with_status_spec in Hin as (x & Hx & Hxs).
    rewrite H1 in Hx. injection Hx as <-. congruence.
Qed.

(** C7: on a run of the sweep at time [now], a pending session whose
    scheduled start is more than 15 minutes before [now] becomes cancelled,
    with the auto-cancellation note (which starts with "Auto-cancelled") as
    its notes, its other columns as they were, and its bound slot, if any,
    not booked; a pending session within the 15 minutes is left as it
    was. *)
Theorem update_session_statuses_auto_cancel now db k s :
  sessions db !! k = Some s -> status s = pending ->
  (combine (scheduled_date s) (scheduled_start_time s) + minutes 15 < now ->
     exists s', sessions (update_session_statuses now db) !! k = Some s' /\
       status s' = cancelled /\ counselor_notes s' = Some auto_cancel_note /\
       String.prefix "Auto-cancelled" auto_cancel_note = true /\
       time_slot_id s' = time_slot_id s /\ user_id s' = user_id s /\
       counselor_id s' = counselor_id s /\
       (forall tid t, time_slot_id s = Some tid ->
          time_slots (update_session_statuses now db) !! tid = Some t ->
          is_booked t = false)) /\
  (now <= combine (scheduled_date s) (scheduled_start_time s) + minutes 15 ->
     sessions (update_session_statuses now db) !! k = Some s).
Proof.
  intros Hk Hst.
  destruct (update_session_statuses_pending now db k s Hk Hst) as [Hover Hin].
  split.
  - intros Hlt. destruct (Hover Hlt) as [Hs Hslot].
    eexists; split; [exact Hs|]. cbn [set_lifecycle status counselor_notes time_slot_id
      user_id counselor_id]. repeat (split; [reflexivity|]). exact Hslot.
  - intros Hle. apply Hin. lia.
Qed.

Lemma update_session_statuses_auto_cancel_witness :
  sessions ex_db1 !! 0%nat = Some ex_session0 /\ status ex_session0 = pending /\
  ((combine (scheduled_date ex_session0) (scheduled_start_time ex_session0) + minutes 15
      < combine day0 nine_am + minutes 16 ->
    exists s', sessions (update_session_statuses (combine day0 nine_am + minutes 16) ex_db1)
                 !! 0%nat = Some s' /\
      status s' = cancelled /\ counselor_notes s' = Some auto_cancel_note /\
      String.prefix "Auto-cancelled" auto_cancel_note = true /\
      time_slot_id s' = time_slot_id ex_session0 /\ user_id s' = user_id ex_session0 /\
      counselor_id s' = counselor_id ex_session0 /\
      (forall tid t, time_slot_id ex_session0 = Some tid ->
         time_slots (update_session_statuses (combine day0 nine_am + minutes 16) ex_db1)
           !! tid = Some t -> is_booked t = false)) /\
   (combine day0 nine_am + minutes 16 <=
      combine (scheduled_date ex_session0) (scheduled_start_time ex_session0) + minutes 15 ->
    sessions (update_session_statuses (combine day0 nine_am + minutes 16) ex_db1) !! 0%nat
      = Some ex_session0)).
Proof.
  split; [reflexivity|]. split; [reflexivity|].
  apply (update_session_statuses_auto_cancel (combine day0 nine_am + minutes 16) ex_db1
           0 ex_session0); reflexivity.
Defined.

(* ------------------------------------------------------------------ *)
(** ** C3: slot bookings *)

Lemma cancel_chat_session_Ok db sid uid cid r db' s' :
  cancel_chat_session db sid uid cid r = (db', Ok s') ->
  exists s, get_chat_session_details db sid uid cid = Some s /\
    s' = set_lifecycle s cancelled (actual_start_time s) (actual_end_time s)
           (duration s) (cancel_notes (counselor_notes s) r) /\
    db' = notify_best_effort "create_session_cancellation_notification"
            (mkNotification (user_id s) "session_cancelled" (Some sid))
            (release_opt (time_slot_id s) (set_sessions db (<[sid := s']> (sessions db)))).
Proof.
  intros H. destruct (get_chat_session_details db sid uid cid) as [s|] eqn:Hd.
  - destruct (decide (status s = completed \/ status s = cancelled)) as [Hst|Hst].
    + unfold cancel_chat_session in H. rewrite Hd in H.
      rewrite bool_decide_true in H by (destruct Hst as [-> | ->]; set_solver).
      discriminate.
    + rewrite (cancel_chat_session_unfold db sid uid cid r s Hd) in H by tauto.
      injection H as <- <-. eauto.
  - unfold cancel_chat_session in H. rewrite Hd in H. discriminate.
Qed.

Lemma cancel_chat_session_releases db sid uid cid r db' s' tid t :
  cancel_chat_session db sid uid cid r = (db', Ok s') ->
  time_slot_id s' = Some tid -> time_slots db' !! tid = Some t -> is_booked t = false.
Proof.
  intros H Hid Ht. apply cancel_chat_session_Ok in H as (s & _ & -> & ->).
  destruct (notify_best_effort_store "create_session_cancellation_notification"
              (mkNotification (user_id s) "session_cancelled" (Some sid))
              (release_opt (time_slot_id s) (set_sessions db (<[sid :=
                 set_lifecycle s cancelled (actual_start_time s) (actual_end_time s)
                   (duration s) (cancel_notes (counselor_notes s) r)]> (sessions db)))))
    as (_ & Hts & _).
  rewrite Hts in Ht. cbn [time_slot_id set_lifecycle] in Hid. rewrite Hid in Ht.
  cbn [release_opt] in Ht. rewrite release_slot_lookup in Ht.
  destruct (time_slots _ !! tid); [|discriminate]. injection Ht as <-. reflexivity.
Qed.

Lemma complete_chat_session_Ok db sid cid notes now db' s' :
  complete_chat_session db sid cid notes now = (db', Ok s') ->
  exists s, sessions db !! sid = Some s /\ status s = active /\
    time_slot_id s' = time_slot_id s /\ time_slots db' = time_slots db.
Proof.
  unfold complete_chat_session.
  destruct (get_chat_session_details db sid None (Some cid)) as [s|] eqn:Hd;
    [|discriminate].
  apply details_lookup in Hd.
  case_bool_decide as Hst; [discriminate|].
  destruct (staff db !! counselor_id s) as [c|]; [|discriminate].
  destruct (counselor_profile c) as [p|]; [|discriminate].
  intros H. injection H as <- <-. exists s.
  split; [exact Hd|]. split; [destruct (status s); congruence|].
  split; [reflexivity|]. unfold notify_best_effort. by case_match.
Qed.

Lemma holds_slot_status s :
  holds_slot s <-> status s = pending \/ status s = active \/ status s = completed.
Proof. unfold holds_slot. destruct (status s); intuition congruence. Qed.

(** C3 (counterexample): in the reachable store where session 0 was booked
    on slot 3, started and completed, session 0 is completed while slot 3 is
    still booked. *)
Lemma completed_session_keeps_slot_booked :
  reachable ex_db3 /\
  exists s t, sessions ex_db3 !! 0%nat = Some s /\ status s = completed /\
    time_slot_id s = Some 3%nat /\ time_slots ex_db3 !! 3%nat = Some t /\
    is_booked t = true.
Proof.
  split; [exact ex_db3_reachable|]. do 2 eexists.
  repeat (split; [reflexivity|]). reflexivity.
Qed.

(** C3 (amended): in every reachable store a slot is booked exactly when a
    session bound to it is pending, active or completed, and at most one
    session bound to it is in one of these states. A successful
    [cancel_chat_session], and the auto-cancellation of a pending session by
    the sweep, leave the cancelled session's slot not booked; a successful
    [complete_chat_session] leaves the completed session's slot booked. *)
Theorem slot_booked_reachable db :
  reachable db ->
  (forall tid t, time_slots db !! tid = Some t ->
     (is_booked t = true <->
      exists k s, sessions db !! k = Some s /\ time_slot_id s = Some tid /\
        (status s = pending \/ status s = active \/ status s = completed))) /\
  (forall tid k1 k2 s1 s2, sessions db !! k1 = Some s1 -> sessions db !! k2 = Some s2 ->
     time_slot_id s1 = Some tid -> time_slot_id s2 = Some tid ->
     status s1 <> cancelled -> status s2 <> cancelled -> k1 = k2) /\
  (forall sid uid cid r db' s' tid t,
     cancel_chat_session db sid uid cid r = (db', Ok s') ->
     time_slot_id s' = Some tid -> time_slots db' !! tid = Some t -> is_booked t = false) /\
  (forall now k s tid t, sessions db !! k = Some s -> status s = pending ->
     combine (scheduled_date s) (scheduled_start_time s) + minutes 15 < now ->
     time_slot_id s = Some tid ->
     time_slots (update_session_statuses now db) !! tid = Some t -> is_booked t = false) /\
  (forall sid cid notes now db' s' tid t,
     complete_chat_session db sid cid notes now = (db', Ok s') ->
     time_slot_id s' = Some tid -> time_slots db' !! tid = Some t -> is_booked t = true).
Proof.
  intros R. pose proof (reachable_Inv db R) as I.
  split; [|split; [|split; [|split]]].
  - intros tid t Ht. rewrite (inv_booked _ I tid t Ht). unfold bound_holder.
    split.
    + intros [k (s & Hs & Hid & Hh)]. exists k, s. by rewrite <- holds_slot_status.
    + intros (k & s & Hs & Hid & Hh). exists k, s. by rewrite holds_slot_status.
  - intros tid k1 k2 s1 s2 H1 H2 Hid1 Hid2 Hc1 Hc2.
    apply (inv_unique _ I tid); [exists s1 | exists s2]; auto.
  - intros sid uid cid r db' s' tid t H. by apply cancel_chat_session_releases with
      (db := db) (sid := sid) (uid := uid) (cid := cid) (r := r) (s' := s').
  - intros now k s tid t Hk Hst Hlt Hid.
    destruct (update_session_statuses_pending now db k s Hk Hst) as [Hover _].
    apply (proj2 (Hover Hlt) tid t Hid).
  - intros sid cid notes now db' s' tid t H Hid Ht.
    apply complete_chat_session_Ok in H as (s & Hs & Hst & Hid' & Hts).
    rewrite Hts in Ht. rewrite Hid' in Hid.
    apply (proj2 (inv_booked _ I tid t Ht)). exists sid, s.
    split; [exact Hs|]. split; [exact Hid|]. unfold holds_slot. congruence.
Qed.

Lemma slot_booked_reachable_witness :
  reachable ex_db2 /\
  (forall tid t, time_slots ex_db2 !! tid = Some t ->
     (is_booked t = true <->
      exists k s, sessions ex_db2 !! k = Some s /\ time_slot_id s = Some tid /\
        (status s = pending \/ status s = active \/ status s = completed))) /\
  (forall tid k1 k2 s1 s2, sessions ex_db2 !! k1 = Some s1 -> sessions ex_db2 !! k2 = Some s2 ->
     time_slot_id s1 = Some tid -> time_slot_id s2 = Some tid ->
     status s1 <> cancelled -> status s2 <> cancelled -> k1 = k2) /\
  (forall sid uid cid r db' s' tid t,
     cancel_chat_session ex_db2 sid uid cid r = (db', Ok s') ->
     time_slot_id s' = Some tid -> time_slots db' !! tid = Some t -> is_booked t = false) /\
  (forall now k s tid t, sessions ex_db2 !! k = Some s -> status s = pending ->
     combine (scheduled_date s) (scheduled_start_time s) + minutes 15 < now ->
     time_slot_id s = Some tid ->
     time_slots (update_session_statuses now ex_db2) !! tid = Some t -> is_booked t = false) /\
  (forall sid cid notes now db' s' tid t,
     complete_chat_session ex_db2 sid cid notes now = (db', Ok s') ->
     time_slot_id s' = Some tid -> time_slots db' !! tid = Some t -> is_booked t = true).
Proof.
  split; [exact ex_db2_reachable|]. apply slot_booked_reachable. exact ex_db2_reachable.
Defined.

(* ------------------------------------------------------------------ *)
(** ** C4, C10: completion *)

Lemma details_counselor db sid s :
  sessions db !! sid = Some s ->
  get_chat_session_details db sid None (Some (counselor_id s)) = Some s.
Proof. intros Hs. unfold get_chat_session_details. rewrite Hs, Nat.eqb_refl. reflexivity. Qed.

(** [int(delta.total_seconds() / 60)] of a non-negative [delta] is its number
    of whole minutes. *)
Lemma minutes_between_bounds t0 t1 :
  t0 <= t1 ->
  minutes (minutes_between t0 t1) <= t1 - t0 < minutes (minutes_between t0 t1 + 1).
Proof.
  intros Hle. unfold minutes_between, minutes.
  replace (1 * 60000000) with 60000000 by lia.
  rewrite Z.quot_div_nonneg by lia.
  pose proof (Z.div_mod (t1 - t0) 60000000 ltac:(lia)).
  pose proof (Z.mod_pos_bound (t1 - t0) 60000000 ltac:(lia)).
  lia.
Qed.

(** The successful completion of an active session whose counselor has a
    profile. *)
Lemma complete_chat_session_active db sid notes now s c p :
  sessions db !! sid = Some s -> status s = active ->
  staff db !! counselor_id s = Some c -> counselor_profile c = Some p ->
  exists db' c', complete_chat_session db sid (counselor_id s) notes now =
    (db', Ok (set_lifecycle s completed (actual_start_time s) (Some now)
                (match actual_start_time s with
                 | Some t0 => Some (minutes_between t0 now)
                 | None => duration s
                 end)
                (if truthy notes then notes else counselor_notes s))) /\
    sessions db' !! sid = Some (set_lifecycle s completed (actual_start_time s) (Some now)
                (match actual_start_time s with
                 | Some t0 => Some (minutes_between t0 now)
                 | None => duration s
                 end)
                (if truthy notes then notes else counselor_notes s)) /\
    staff db' !! counselor_id s = Some c' /\
    counselor_profile c' = Some (mkCounselorProfile (profile_is_available p)
                                   (total_sessions p + 1)).
Proof.
  intros Hs Ha Hc Hp. unfold complete_chat_session.
  rewrite (details_counselor db sid s Hs).
  rewrite bool_decide_false by (intros Hn; apply Hn; exact Ha).
  rewrite Hc, Hp. do 2 eexists. split; [reflexivity|].
  split; [|split].
  - unfold notify_best_effort. case_match; cbn [sessions set_staff set_sessions add_notification];
      apply lookup_insert_eq.
  - rewrite notify_best_effort_staff. cbn [staff set_staff]. apply lookup_insert_eq.
  - reflexivity.
Qed.

(** C4: in a reachable store, [complete_chat_session] called by the bound
    counselor fails, leaving the store unchanged, unless the session is
    active. On an active session (whose counselor has a profile) it
    succeeds: the session becomes completed, its [duration] is the number of
    whole minutes from its [actual_start_time] (always set on an active
    session) to [now], and the counselor's [total_sessions] grows by exactly
    1. The source assigns the supplied notes rather than concatenating them;
    as an active session of a reachable store has no notes, the supplied
    non-empty notes become the notes and no earlier note is lost. *)
Theorem complete_chat_session_reachable db sid cid notes now s c p :
  reachable db -> sessions db !! sid = Some s -> counselor_id s = cid ->
  staff db !! cid = Some c -> counselor_profile c = Some p ->
  (status s <> active ->
     exists e, complete_chat_session db sid cid notes now = (db, Err e)) /\
  (status s = active ->
   exists db' s' t0 c' p', complete_chat_session db sid cid notes now = (db', Ok s') /\
     sessions db' !! sid = Some s' /\ status s' = completed /\
     actual_start_time s = Some t0 /\ duration s' = Some (minutes_between t0 now) /\
     (t0 <= now -> minutes (minutes_between t0 now) <= now - t0 <
                   minutes (minutes_between t0 now + 1)) /\
     counselor_notes s = None /\
     counselor_notes s' = (if truthy notes then notes else None) /\
     staff db' !! cid = Some c' /\ counselor_profile c' = Some p' /\
     total_sessions p' = total_sessions p + 1).
Proof.
  intros R Hs <- Hc Hp. pose proof (reachable_Inv db R) as I. split.
  - intros Ha. unfold complete_chat_session. rewrite (details_counselor db sid s Hs).
    rewrite bool_decide_true by exact Ha. eexists; reflexivity.
  - intros Ha.
    destruct (inv_started _ I sid s Hs Ha) as [t0 Ht0].
    pose proof (inv_notes _ I sid s Hs (or_intror Ha)) as Hn.
    destruct (complete_chat_session_active db sid notes now s c p Hs Ha Hc Hp)
      as (db' & c' & Hcall & Hs' & Hc' & Hp').
    rewrite Ht0, Hn in *.
    do 5 eexists. split; [exact Hcall|]. split; [exact Hs'|].
    split; [reflexivity|]. split; [reflexivity|]. split; [reflexivity|].
    split; [apply minutes_between_bounds|].
    split; [reflexivity|]. split; [reflexivity|].
    split; [exact Hc'|]. split; [exact Hp'|]. reflexivity.
Qed.

Lemma complete_chat_session_reachable_witness :
  reachable ex_db2 /\
  sessions ex_db2 !! 0%nat =
    Some (set_lifecycle ex_session0 active (Some ex_t_start) None None None) /\
  counselor_id (set_lifecycle ex_session0 active (Some ex_t_start) None None None) = 7%nat /\
  staff ex_db2 !! 7%nat = Some ex_counselor /\
  counselor_profile ex_counselor = Some (mkCounselorProfile true 0) /\
  (status (set_lifecycle ex_session0 active (Some ex_t_start) None None None) <> active ->
     exists e, complete_chat_session ex_db2 0 7 (Some "Good progress") ex_t_end
               = (ex_db2, Err e)) /\
  (status (set_lifecycle ex_session0 active (Some ex_t_start) None None None) = active ->
   exists db' s' t0 c' p',
     complete_chat_session ex_db2 0 7 (Some "Good progress") ex_t_end = (db', Ok s') /\
     sessions db' !! 0%nat = Some s' /\ status s' = completed /\
     actual_start_time (set_lifecycle ex_session0 active (Some ex_t_start) None None None)
       = Some t0 /\
     duration s' = Some (minutes_between t0 ex_t_end) /\
     (t0 <= ex_t_end -> minutes (minutes_between t0 ex_t_end) <= ex_t_end - t0 <
                        minutes (minutes_between t0 ex_t_end + 1)) /\
     counselor_notes (set_lifecycle ex_session0 active (Some ex_t_start) None None None)
       = None /\
     counselor_notes s' = (if truthy (Some "Good progress") then Some "Good progress"
                           else None) /\
     staff db' !! 7%nat = Some c' /\ counselor_profile c' = Some p' /\
     total_sessions p' = total_sessions (mkCounselorProfile true 0) + 1).
Proof.
  split; [exact ex_db2_reachable|].
  do 4 (split; [reflexivity|]).
  apply (complete_chat_session_reachable ex_db2 0 7 (Some "Good progress") ex_t_end
           (set_lifecycle ex_session0 active (Some ex_t_start) None None None)
           ex_counselor (mkCounselorProfile true 0));
    [exact ex_db2_reachable | reflexivity | reflexivity | reflexivity | reflexivity].
Defined.

(** C10: completing an active session that has no [actual_start_time]
    (by its counselor, who has a profile) succeeds: the session becomes
    completed and its [actual_end_time] is [now], but no duration is
    computed, so a session without a duration is completed without one. *)
Theorem complete_unstarted_session db sid notes now s c p :
  sessions db !! sid = Some s -> status s = active -> actual_start_time s = None ->
  duration s = None -> staff db !! counselor_id s = Some c ->
  counselor_profile c = Some p ->
  exists db' s', complete_chat_session db sid (counselor_id s) notes now = (db', Ok s') /\
    sessions db' !! sid = Some s' /\ status s' = completed /\
    actual_end_time s' = Some now /\ duration s' = None.
Proof.
  intros Hs Ha Hst Hd Hc Hp.
  destruct (complete_chat_session_active db sid notes now s c p Hs Ha Hc Hp)
    as (db' & c' & Hcall & Hs' & _).
  rewrite Hst, Hd in *.
  do 2 eexists. split; [exact Hcall|]. split; [exact Hs'|].
  split; [reflexivity|]. split; reflexivity.
Qed.

Lemma complete_unstarted_session_witness :
  sessions ex_db_unstarted !! 0%nat = Some ex_unstarted /\ status ex_unstarted = active /\
  actual_start_time ex_unstarted = None /\ duration ex_unstarted = None /\
  staff ex_db_unstarted !! counselor_id ex_unstarted = Some ex_counselor /\
  counselor_profile ex_counselor = Some (mkCounselorProfile true 0) /\
  exists db' s', complete_chat_session ex_db_unstarted 0 (counselor_id ex_unstarted)
                   None ex_t_end = (db', Ok s') /\
    sessions db' !! 0%nat = Some s' /\ status s' = completed /\
    actual_end_time s' = Some ex_t_end /\ duration s' = None.
Proof.
  do 6 (split; [reflexivity|]).
  apply (complete_unstarted_session ex_db_unstarted 0 None ex_t_end ex_unstarted
           ex_counselor (mkCounselorProfile true 0)); reflexivity.
Defined.

(* ------------------------------------------------------------------ *)
(** ** C5: booking a slot *)

(** C5: when [book_chat_session] is given a slot id, it fails unless the slot
    exists, belongs to the requested counselor, is available, is not booked
    and has exactly the requested date, start and end; on a failure the store
    is left as it was (no session added, the slot not booked). On success
    the new session, the only session that changes, is pending and bound to
    the slot, and the slot is marked booked. *)
Theorem book_chat_session_slot db uid data tid :
  cc_time_slot_id data = Some tid ->
  match book_chat_session db uid data with
  | (db', Err _) => db' = db
  | (db', Ok k) =>
      (exists t, time_slots db !! tid = Some t /\
         ts_counselor_id t = cc_counselor_id data /\ is_available t = true /\
         is_booked t = false /\ ts_date t = cc_scheduled_date data /\
         ts_start_time t = cc_start_time data /\ ts_end_time t = cc_end_time data /\
         time_slots db' !! tid = Some (set_booked t true)) /\
      k = next_id db /\
      (exists s, sessions db' !! k = Some s /\ status s = pending /\
         time_slot_id s = Some tid /\ user_id s = uid /\
         counselor_id s = cc_counselor_id data) /\
      (forall j, j <> k -> sessions db' !! j = sessions db !! j)
  end.
Proof.
  intros Htid. unfold book_chat_session.
  destruct (get_counselor_by_id db (cc_counselor_id data)) as [[c p]|]; [|reflexivity].
  destruct (negb (profile_is_available p)); [reflexivity|].
  rewrite Htid.
  destruct (query_free_slot db tid (cc_counselor_id data)) as [t|] eqn:Hq; [|reflexivity].
  apply query_free_slot_Some in Hq as (Ht & Hcid & Hav & Hfree).
  destruct (negb (ts_date t =? cc_scheduled_date data)
            || negb (ts_start_time t =? cc_start_time data)
            || negb (ts_end_time t =? cc_end_time data)) eqn:Hm; [reflexivity|].
  apply orb_false_iff in Hm as [Hm Hm3]. apply orb_false_iff in Hm as [Hm1 Hm2].
  apply negb_false_iff, Z.eqb_eq in Hm1, Hm2, Hm3.
  unfold book_time_slot. cbn [time_slots]. rewrite Ht, Hfree, Hav. cbn [negb].
  rewrite notify_best_effort_sessions, notify_best_effort_time_slots.
  cbn [sessions time_slots set_time_slots].
  split; [|split; [reflexivity|split]].
  - exists t. split; [reflexivity|]. repeat (split; [assumption|]).
    apply lookup_insert_eq.
  - eexists. split; [apply lookup_insert_eq|]. cbn. auto.
  - intros j Hj. by rewrite lookup_insert_ne by congruence.
Qed.

Lemma book_chat_session_slot_witness :
  cc_time_slot_id ex_booking = Some 3%nat /\
  match book_chat_session ex_db0 1 ex_booking with
  | (db', Err _) => db' = ex_db0
  | (db', Ok k) =>
      (exists t, time_slots ex_db0 !! 3%nat = Some t /\
         ts_counselor_id t = cc_counselor_id ex_booking /\ is_available t = true /\
         is_booked t = false /\ ts_date t = cc_scheduled_date ex_booking /\
         ts_start_time t = cc_start_time ex_booking /\
         ts_end_time t = cc_end_time ex_booking /\
         time_slots db' !! 3%nat = Some (set_booked t true)) /\
      k = next_id ex_db0 /\
      (exists s, sessions db' !! k = Some s /\ status s = pending /\
         time_slot_id s = Some 3%nat /\ user_id s = 1%nat /\
         counselor_id s = cc_counselor_id ex_booking) /\
      (forall j, j <> k -> sessions db' !! j = sessions ex_db0 !! j)
  end.
Proof.
  split; [reflexivity|]. apply (book_chat_session_slot ex_db0 1 ex_booking 3). reflexivity.
Defined.

(* ------------------------------------------------------------------ *)
(** ** C6: a stranger connecting to the WebSocket endpoint *)

Lemma ChatService_new_fails :
  ChatService_new = Err (TypeError "NotificationService() takes no arguments").
Proof. reflexivity. Qed.

(** What the endpoint does with any identity: the constructor call in
    [handle_websocket] raises before the access check, and the endpoint
    closes the handle with 4000 "Server error". *)
Lemma websocket_chat_endpoint_fails db cm ws sid uid ut now frames :
  handle_websocket db cm ws sid uid ut now frames =
    Err (TypeError "NotificationService() takes no arguments") /\
  websocket_chat_endpoint db cm ws sid uid ut now frames =
    (db, cm, [Closed ws 4000 "Server error"]).
Proof. split; reflexivity. Qed.

(** The access check of the [try] block: a stranger, on a handle not yet
    registered, is closed with 4003 and nothing else happens. *)
Lemma handle_websocket_body_denied db cm ws sid uid ut now frames :
  connection_info cm !! ws = None ->
  (forall s, sessions db !! sid = Some s -> uid <> user_id s /\ uid <> counselor_id s) ->
  handle_websocket_body db cm ws sid uid ut now frames =
    (db, cm, [Closed ws 4003 "Access denied to session"]).
Proof.
  intros Hfresh Hnot. unfold handle_websocket_body.
  assert (Hnone : match ut with
                  | user => get_chat_session_details db sid (Some uid) None
                  | counselor => get_chat_session_details db sid None (Some uid)
                  end = None).
  { unfold get_chat_session_details.
    destruct (sessions db !! sid) as [s|] eqn:Hs; [|destruct ut; reflexivity].
    destruct (Hnot s eq_refl) as [H1 H2]. destruct ut.
    - destruct (user_id s =? uid)%nat eqn:E; [|reflexivity].
      apply Nat.eqb_eq in E. congruence.
    - destruct (counselor_id s =? uid)%nat eqn:E; [|reflexivity].
      apply Nat.eqb_eq in E. congruence. }
  rewrite Hnone. unfold disconnect. rewrite Hfresh. reflexivity.
Qed.

(** C6 (code bug): a connection of an identity that is neither the bound
    user nor the bound counselor of the session, on a handle not yet
    registered, is not closed with the access-denied code. The access check
    of [handle_websocket] would close it with 4003 "Access denied to
    session", but [ChatService(db)] raises [TypeError] before that check, and
    the endpoint closes the handle with 4000 "Server error", the close every
    identity gets, the bound participants included. The registry and the
    store are unchanged and nothing else is sent, so no [session_info]. *)
Theorem websocket_stranger_server_error db cm ws sid uid ut now frames :
  connection_info cm !! ws = None ->
  (forall s, sessions db !! sid = Some s -> uid <> user_id s /\ uid <> counselor_id s) ->
  handle_websocket_body db cm ws sid uid ut now frames =
    (db, cm, [Closed ws 4003 "Access denied to session"]) /\
  handle_websocket db cm ws sid uid ut now frames =
    Err (TypeError "NotificationService() takes no arguments") /\
  websocket_chat_endpoint db cm ws sid uid ut now frames =
    (db, cm, [Closed ws 4000 "Server error"]) /\
  (forall uid' ut', websocket_chat_endpoint db cm ws sid uid' ut' now frames =
     (db, cm, [Closed ws 4000 "Server error"])).
Proof.
  intros Hfresh Hnot. split; [by apply handle_websocket_body_denied|].
  destruct (websocket_chat_endpoint_fails db cm ws sid uid ut now frames) as [H1 H2].
  split; [exact H1|]. split; [exact H2|].
  intros uid' ut'. apply websocket_chat_endpoint_fails.
Qed.

Lemma websocket_stranger_server_error_witness :
  connection_info (mkCM ∅ ∅) !! 20%nat = None /\
  (forall s, sessions ex_db1 !! 0%nat = Some s ->
     99%nat <> user_id s /\ 99%nat <> counselor_id s) /\
  websocket_chat_endpoint ex_db1 (mkCM ∅ ∅) 20 0 99 user 0 [] =
    (ex_db1, mkCM ∅ ∅, [Closed 20 4000 "Server error"]).
Proof.
  assert (Hs : forall s, sessions ex_db1 !! 0%nat = Some s ->
                 99%nat <> user_id s /\ 99%nat <> counselor_id s).
  { intros s Hs. vm_compute in Hs. injection Hs as <-. cbn. lia. }
  split; [reflexivity|]. split; [exact Hs|].
  apply (websocket_stranger_server_error ex_db1 (mkCM ∅ ∅) 20 0 99 user 0 []);
    [reflexivity | exact Hs].
Defined.

(* ------------------------------------------------------------------ *)
(** ** C9: leaving a room *)

(** C9: [disconnect] of a registered handle drops its [connection_info]
    entry and removes it from the room of its session; the room's entry is
    deleted when no member is left, other rooms are untouched, and no empty
    room is kept. The [user_left] event goes to every remaining member and to
    no one else. A second [disconnect] of the same handle changes nothing and
    sends nothing. *)
Theorem disconnect_leave cm ws info :
  connection_info cm !! ws = Some info -> no_empty_room cm ->
  match disconnect cm ws with
  | (cm1, out) =>
    connection_info cm1 !! ws = None /\
    (forall room, active_connections cm !! ci_session_id info = Some room ->
       (List.filter (fun w => negb (w =? ws)%nat) room = [] ->
          active_connections cm1 !! ci_session_id info = None) /\
       (List.filter (fun w => negb (w =? ws)%nat) room <> [] ->
          active_connections cm1 !! ci_session_id info =
            Some (List.filter (fun w => negb (w =? ws)%nat) room))) /\
    (forall room, active_connections cm1 !! ci_session_id info = Some room ->
       ~ In ws room) /\
    (forall sid', sid' <> ci_session_id info ->
       active_connections cm1 !! sid' = active_connections cm !! sid') /\
    no_empty_room cm1 /\
    (forall x, In x out <->
       exists room w, active_connections cm1 !! ci_session_id info = Some room /\
         In w room /\ x = Sent w (ev_user_left (ci_user_id info) (ci_user_type info))) /\
    disconnect cm1 ws = (cm1, [])
  end.
Proof.
  intros Hi Hne. unfold disconnect at 1. rewrite Hi.
  assert (Hsecond : forall ac, disconnect (mkCM ac (delete ws (connection_info cm))) ws =
                               (mkCM ac (delete ws (connection_info cm)), [])).
  { intros ac. unfold disconnect. cbn [connection_info]. by rewrite lookup_delete_eq. }
  destruct (active_connections cm !! ci_session_id info) as [room|] eqn:Hr.
  - destruct (List.filter (fun w => negb (w =? ws)%nat) room) as [|w rest] eqn:Hf.
    + rewrite lookup_delete_eq. cbn [connection_info active_connections].
      split; [apply lookup_delete_eq|]. split.
      { intros room' Hr'. injection Hr' as <-.
        split; [intros _; apply lookup_delete_eq | rewrite Hf; congruence]. }
      split; [by rewrite lookup_delete_eq|]. split.
      { intros sid' Hne'. by rewrite lookup_delete_ne by congruence. }
      split.
      { intros sid' room' Hr'. cbn [active_connections] in Hr'.
        destruct (decide (sid' = ci_session_id info)) as [->|Hne'].
        - by rewrite lookup_delete_eq in Hr'.
        - rewrite lookup_delete_ne in Hr' by congruence. exact (Hne _ _ Hr'). }
      split; [|apply Hsecond].
      intros x. split; [intros []|]. intros (room' & w & Hr' & _).
      by rewrite lookup_delete_eq in Hr'.
    + rewrite lookup_insert_eq. cbn [connection_info active_connections].
      split; [apply lookup_delete_eq|]. split.
      { intros room' Hr'. injection Hr' as <-. rewrite Hf.
        split; [discriminate | intros _; apply lookup_insert_eq]. }
      split.
      { intros room' Hr' Hin. rewrite lookup_insert_eq in Hr'. injection Hr' as <-.
        rewrite <- Hf in Hin. apply filter_In in Hin as [_ Hin].
        rewrite Nat.eqb_refl in Hin. discriminate. }
      split.
      { intros sid' Hne'. by rewrite lookup_insert_ne by congruence. }
      split.
      { intros sid' room' Hr'. cbn [active_connections] in Hr'.
        destruct (decide (sid' = ci_session_id info)) as [->|Hne'].
        - rewrite lookup_insert_eq in Hr'. injection Hr' as <-. discriminate.
        - rewrite lookup_insert_ne in Hr' by congruence. exact (Hne _ _ Hr'). }
      split; [|apply Hsecond].
      intros x. unfold broadcast_to_session. cbn [active_connections].
      rewrite lookup_insert_eq. rewrite in_map_iff. split.
      * intros (w' & <- & Hw'). apply filter_In in Hw' as [Hw' _].
        exists (w :: rest), w'. auto.
      * intros (room' & w' & Hr' & Hw' & ->). injection Hr' as <-.
        exists w'. split; [reflexivity|]. apply filter_In. split; [exact Hw'|].
        rewrite bool_decide_false by congruence. reflexivity.
  - rewrite Hr. cbn [connection_info active_connections].
    split; [apply lookup_delete_eq|]. split; [intros room' Hr'; congruence|].
    split; [intros room' Hr'; congruence|]. split; [reflexivity|].
    split; [exact Hne|]. split; [|apply Hsecond].
    intros x. split; [intros []|]. intros (room' & w & Hr' & _). congruence.
Qed.

Lemma disconnect_leave_witness :
  connection_info ex_cm !! 10%nat = Some (mkConnInfo 0 1 user 0) /\ no_empty_room ex_cm /\
  match disconnect ex_cm 10 with
  | (cm1, out) =>
    connection_info cm1 !! 10%nat = None /\
    (forall room, active_connections ex_cm !! 0%nat = Some room ->
       (List.filter (fun w => negb (w =? 10)%nat) room = [] ->
          active_connections cm1 !! 0%nat = None) /\
       (List.filter (fun w => negb (w =? 10)%nat) room <> [] ->
          active_connections cm1 !! 0%nat =
            Some (List.filter (fun w => negb (w =? 10)%nat) room))) /\
    (forall room, active_connections cm1 !! 0%nat = Some room -> ~ In 10%nat room) /\
    (forall sid', sid' <> 0%nat ->
       active_connections cm1 !! sid' = active_connections ex_cm !! sid') /\
    no_empty_room cm1 /\
    (forall x, In x out <->
       exists room w, active_connections cm1 !! 0%nat = Some room /\
         In w room /\ x = Sent w (ev_user_left 1 user)) /\
    disconnect cm1 10 = (cm1, [])
  end.
Proof.
  assert (Hne : no_empty_room ex_cm).
  { intros sid room Hr. unfold ex_cm in Hr. cbn [active_connections] in Hr.
    apply lookup_singleton_Some in Hr as [_ <-]. discriminate. }
  split; [reflexivity|]. split; [exact Hne|].
  apply (disconnect_leave ex_cm 10 (mkConnInfo 0 1 user 0)); [reflexivity | exact Hne].
Defined.

(* ------------------------------------------------------------------ *)
(** ** C2: session reminders *)

Lemma NotificationService_no_reminder_methods :
  NotificationService_getattr "has_session_reminder" =
    Err (AttributeError "has_session_reminder") /\
  NotificationService_getattr "create_session_reminder_notification" =
    Err (AttributeError "create_session_reminder_notification").
Proof. split; reflexivity. Qed.

Lemma reminder_one_id now db k : reminder_one now db k = db.
Proof.
  unfold reminder_one. destruct (sessions db !! k); [|reflexivity].
  destruct (in_reminder_window _ _); [|reflexivity].
  rewrite (proj1 NotificationService_no_reminder_methods). reflexivity.
Qed.

Lemma reminder_loop_id now db : reminder_loop now db = db.
Proof.
  unfold reminder_loop. generalize (List.filter (fun k => match sessions db !! k with
                                              | Some s => scheduled_date s =? (now + minutes 10) / 86400000000
                                              | None => false end)
                                     (keys_with_status pending db)).
  intros ks. induction ks as [|k ks IH]; [reflexivity|].
  simpl. rewrite reminder_one_id. exact IH.
Qed.

(** [NotificationService(db)] raises [TypeError], so the scan stops at its
    first line. *)
Lemma check_session_reminders_id now db : check_session_reminders now db = db.
Proof. reflexivity. Qed.

(** C2 (code bug): session 0 of [ex_db1] is pending and starts at 09:00;
    scans at 08:49:30 and at 08:50:30 both fall inside the reminder window,
    yet after both no notification at all, so no reminder for session 0,
    exists. [check_session_reminders] never changes the store, because
    [NotificationService(db)] raises [TypeError]; and its loop, reached
    once that is fixed, would change nothing either, since
    [NotificationService] has neither [has_session_reminder] nor
    [create_session_reminder_notification]. *)
Theorem session_reminder_never_sent :
  sessions ex_db1 !! 0%nat = Some ex_session0 /\ status ex_session0 = pending /\
  in_reminder_window (combine day0 nine_am - minutes 10 - 30000000)
    (combine day0 nine_am) = true /\
  in_reminder_window (combine day0 nine_am - minutes 10 + 30000000)
    (combine day0 nine_am) = true /\
  notifications ex_db1 = [] /\
  List.filter (is_reminder_for 0)
    (notifications (check_session_reminders (combine day0 nine_am - minutes 10 + 30000000)
       (check_session_reminders (combine day0 nine_am - minutes 10 - 30000000) ex_db1)))
    = [] /\
  (forall now db, check_session_reminders now db = db /\ reminder_loop now db = db).
Proof.
  do 5 (split; [reflexivity|]). split.
  - rewrite !check_session_reminders_id. reflexivity.
  - intros now db. split; [apply check_session_reminders_id | apply reminder_loop_id].
Qed.

(* ------------------------------------------------------------------ *)
(** ** C8: message content *)

Lemma drop_space_all l : forallb is_space l = true -> drop_space l = [].
Proof.
  induction l as [|a l IH]; [reflexivity|]. simpl.
  intros H. apply andb_true_iff in H as [Ha Hl]. rewrite Ha. exact (IH Hl).
Qed.

Lemma strip_whitespace_only c : whitespace_only c = true -> strip c = "".
Proof.
  unfold whitespace_only, strip. intros H. rewrite (drop_space_all _ H). reflexivity.
Qed.

(** The WebSocket path: a [chat_message] whose content is empty or only
    whitespace gets an error event back and changes nothing. *)
Lemma handle_chat_message_blank db cm ws sid uid ut d now :
  whitespace_only (default "" (p_content d)) = true ->
  handle_chat_message db cm ws sid uid ut d now =
    (db, [Sent ws (ev_error "Message content cannot be empty")]).
Proof.
  intros H. unfold handle_chat_message. rewrite (strip_whitespace_only _ H). reflexivity.
Qed.

(** [send_message] stores a message only in a pending or active session, and
    stores it with the body it was given. *)
Lemma send_message_Ok db sid sender ty body now db' m :
  send_message db sid sender ty body now = (db', Ok m) ->
  exists s, sessions db !! sid = Some s /\ (status s = active \/ status s = pending) /\
    m = mkMessage sid sender ty body now /\ db' = add_message m db.
Proof.
  unfold send_message.
  destruct (match ty with
            | user => get_chat_session_details db sid (Some sender) None
            | counselor => get_chat_session_details db sid None (Some sender)
            end) as [s|] eqn:Hd; [|discriminate].
  assert (Hs : sessions db !! sid = Some s) by (destruct ty; eapply details_lookup; exact Hd).
  case_bool_decide as Hst; [discriminate|].
  intros H. injection H as <- <-. exists s. split; [exact Hs|].
  split; [|split; reflexivity].
  destruct (decide (status s = active)) as [|Ha]; [by left|].
  destruct (decide (status s = pending)) as [|Hp]; [by right|].
  exfalso. set_solver.
Qed.

Lemma drop_space_head l :
  drop_space l = [] \/ exists a r, drop_space l = a :: r /\ is_space a = false.
Proof.
  induction l as [|a l IH]; cbn; [by left|].
  destruct (is_space a) eqn:E; [exact IH|right; eauto].
Qed.

Lemma strip_nonempty_not_blank s : strip s <> "" -> whitespace_only (strip s) = false.
Proof.
  unfold strip, whitespace_only. rewrite list_ascii_of_string_of_list_ascii.
  destruct (drop_space_head (rev (drop_space (list_ascii_of_string s)))) as [->|(a & r & -> & Ha)].
  - cbn. congruence.
  - intros _. cbn. rewrite forallb_app. cbn. rewrite Ha. cbn.
    by rewrite andb_false_r.
Qed.

(** The REST route [POST /sessions/{session_id}/messages] never reaches
    [send_message]: [ChatService(db)] raises first. *)
Lemma api_send_chat_message_fails db sid u body now :
  api_send_chat_message db sid u body now =
    (db, Err (TypeError "NotificationService() takes no arguments")).
Proof. reflexivity. Qed.

(** [handle_chat_message] either changes nothing or appends one message of
    the session, stored under the pending/active guard, whose content is the
    stripped payload and is not blank. *)
Lemma handle_chat_message_stored db cm ws sid uid ut d now :
  (handle_chat_message db cm ws sid uid ut d now).1 = db \/
  exists s m, sessions db !! sid = Some s /\ (status s = active \/ status s = pending) /\
    m = mkMessage sid uid ut (strip (default "" (p_content d))) now /\
    whitespace_only (content m) = false /\
    (handle_chat_message db cm ws sid uid ut d now).1 = add_message m db.
Proof.
  unfold handle_chat_message.
  destruct (String.eqb_spec (strip (default "" (p_content d))) "") as [Hc|Hc]; [by left|].
  destruct (send_message db sid uid ut (strip (default "" (p_content d))) now)
    as [db' [m|e]] eqn:Hs.
  - right. apply send_message_Ok in Hs as (s & Hs & Hst & -> & ->).
    exists s, (mkMessage sid uid ut (strip (default "" (p_content d))) now).
    split; [exact Hs|]. split; [exact Hst|]. split; [reflexivity|].
    split; [by apply strip_nonempty_not_blank|reflexivity].
  - left. revert Hs. unfold send_message.
    destruct (match ut with
              | user => get_chat_session_details db sid (Some uid) None
              | counselor => get_chat_session_details db sid None (Some uid)
              end); [|intros [= <- _]; reflexivity].
    case_bool_decide; [intros [= <- _]; reflexivity|discriminate].
Qed.

(** C8: no code path stores a blank message, or a message outside a pending
    or active session. The REST route fails at [ChatService(db)] with the
    store unchanged, and so does the WebSocket endpoint, for every
    identity. The handler of a [chat_message] answers empty or whitespace-only
    content with an error event to the sender and no change, and otherwise
    either changes nothing or stores one message, only in a pending or active
    session, with the stripped content, which is not blank. *)
Theorem message_content_guarded :
  (forall db sid u body now,
     api_send_chat_message db sid u body now =
       (db, Err (TypeError "NotificationService() takes no arguments"))) /\
  (forall db cm ws sid uid ut now frames,
     websocket_chat_endpoint db cm ws sid uid ut now frames =
       (db, cm, [Closed ws 4000 "Server error"])) /\
  (forall db cm ws sid uid ut d now,
     whitespace_only (default "" (p_content d)) = true ->
     handle_chat_message db cm ws sid uid ut d now =
       (db, [Sent ws (ev_error "Message content cannot be empty")])) /\
  (forall db cm ws sid uid ut d now,
     (handle_chat_message db cm ws sid uid ut d now).1 = db \/
     exists s m, sessions db !! sid = Some s /\ (status s = active \/ status s = pending) /\
       m = mkMessage sid uid ut (strip (default "" (p_content d))) now /\
       whitespace_only (content m) = false /\
       (handle_chat_message db cm ws sid uid ut d now).1 = add_message m db).
Proof.
  split; [exact api_send_chat_message_fails|].
  split; [intros; apply websocket_chat_endpoint_fails|].
  split; [exact handle_chat_message_blank|exact handle_chat_message_stored].
Qed.

(* ------------------------------------------------------------------ *)
(** ** Further properties: [CounselorService] time slots *)

Lemma existsb_map_to_list_false {V} (f : nat * V -> bool) (m : gmap nat V) :
  existsb f (map_to_list m) = false -> forall k v, m !! k = Some v -> f (k, v) = false.
Proof.
  intros H k v Hk. destruct (f (k, v)) eqn:E; [|reflexivity]. exfalso.
  assert (Ht : existsb f (map_to_list m) = true).
  { apply existsb_exists. exists (k, v). split; [|exact E].
    apply list_elem_of_In. by apply elem_of_map_to_list. }
  congruence.
Qed.

Lemma fresh_slot_id_None db : time_slots db !! fresh_slot_id db = None.
Proof. unfold fresh_slot_id. apply not_elem_of_dom. apply is_fresh. Qed.

Lemma set_time_slots_same db : set_time_slots db (time_slots db) = db.
Proof. by destruct db. Qed.

Lemma set_time_slots_twice db m1 m2 :
  set_time_slots (set_time_slots db m1) m2 = set_time_slots db m2.
Proof. reflexivity. Qed.

Lemma create_time_slot_Ok db us cid d s e avail db' tid :
  create_time_slot db us cid d s e avail = Ok (db', tid) ->
  (forall k t, time_slots db !! k = Some t -> slot_conflicts cid d s e t = false) /\
  tid = fresh_slot_id db /\
  db' = set_time_slots db (<[tid := mkTimeSlot cid d s e avail false]> (time_slots db)).
Proof.
  unfold create_time_slot. destruct (existsb _ _) eqn:Hc; [discriminate|].
  intros H.
  assert (Hd : db' = set_time_slots db (<[fresh_slot_id db :=
                 mkTimeSlot cid d s e avail false]> (time_slots db)) /\
               tid = fresh_slot_id db).
  { destruct (first_unavailability us cid d) as [u|];
      [destruct (un_start_time u), (un_end_time u); try destruct (negb _)|];
      try discriminate; injection H as <- <-; split; reflexivity. }
  destruct Hd as [-> ->]. split; [|split; reflexivity].
  intros k t Hk. exact (existsb_map_to_list_false _ _ Hc k t Hk).
Qed.

Lemma slot_conflicts_false cid d s e t :
  slot_conflicts cid d s e t = false -> ts_counselor_id t = cid -> ts_date t = d ->
  ts_start_time t < ts_end_time t -> s < e ->
  ts_end_time t <= s \/ e <= ts_start_time t.
Proof.
  unfold slot_conflicts. intros H <- <-. rewrite Nat.eqb_refl, Z.eqb_refl in H.
  cbn [andb] in H. intros Ht Hse. zcases; cbn [andb orb] in H; try discriminate; lia.
Qed.

(** X1: a slot that [create_time_slot] creates does not overlap any slot
    the counselor already has on that date, when both have positive
    length. *)
Theorem create_time_slot_disjoint db us cid d s e avail db' tid :
  create_time_slot db us cid d s e avail = Ok (db', tid) ->
  s < e ->
  forall k t, time_slots db !! k = Some t -> ts_counselor_id t = cid -> ts_date t = d ->
  ts_start_time t < ts_end_time t ->
  ts_end_time t <= s \/ e <= ts_start_time t.
Proof.
  intros H Hse k t Hk Hc Hd Ht.
  destruct (create_time_slot_Ok _ _ _ _ _ _ _ _ _ H) as (Hno & _ & _).
  exact (slot_conflicts_false cid d s e t (Hno k t Hk) Hc Hd Ht Hse).
Qed.

Lemma create_time_slot_disjoint_witness :
  create_time_slot ex_db0 [] 7 day0 (nine_am + minutes 60) (nine_am + minutes 110) true
    = Ok (ex_created.1, ex_created.2) /\
  nine_am + minutes 60 < nine_am + minutes 110 /\
  time_slots ex_db0 !! 3%nat = Some ex_slot /\
  (ts_end_time ex_slot <= nine_am + minutes 60 \/ nine_am + minutes 110 <= ts_start_time ex_slot).
Proof.
  assert (H : create_time_slot ex_db0 [] 7 day0 (nine_am + minutes 60) (nine_am + minutes 110)
                true = Ok (ex_created.1, ex_created.2)) by (vm_compute; reflexivity).
  split; [exact H|]. split; [vm_compute; reflexivity|]. split; [reflexivity|].
  apply (create_time_slot_disjoint ex_db0 [] 7 day0 _ _ true _ _ H 
           ltac:(vm_compute; reflexivity) 3%nat ex_slot);
    [reflexivity|reflexivity|reflexivity|vm_compute; reflexivity].
Defined.

Lemma create_time_slot_no_conflict db cid d s e :
  (forall k t, time_slots db !! k = Some t -> slot_conflicts cid d s e t = false) ->
  existsb (fun kv : nat * TimeSlot => slot_conflicts cid d s e kv.2)
    (map_to_list (time_slots db)) = false.
Proof.
  intros H. apply not_true_iff_false. intros Hx. apply existsb_exists in Hx as ([k t] & Hin & Ht).
  apply list_elem_of_In, elem_of_map_to_list in Hin. cbn in Ht. rewrite (H k t Hin) in Ht.
  discriminate.
Qed.

(** X2: [create_time_slot] never compares [start_time] with [end_time]:
    when the counselor has no slot on the date and no unavailability row
    matches it, the slot is created for any start and end, also with the
    end at or before the start. *)
Theorem create_time_slot_unchecked db us cid d s e avail :
  (forall k t, time_slots db !! k = Some t -> ts_counselor_id t = cid -> ts_date t <> d) ->
  first_unavailability us cid d = None ->
  create_time_slot db us cid d s e avail =
    Ok (set_time_slots db (<[fresh_slot_id db := mkTimeSlot cid d s e avail false]>
                             (time_slots db)), fresh_slot_id db).
Proof.
  intros Hn Hu. unfold create_time_slot.
  rewrite create_time_slot_no_conflict.
  - by rewrite Hu.
  - intros k t Hk. unfold slot_conflicts.
    destruct (Nat.eqb_spec (ts_counselor_id t) cid) as [Hc|]; [|reflexivity].
    destruct (Z.eqb_spec (ts_date t) d) as [Hd|]; [|reflexivity].
    exfalso. exact (Hn k t Hk Hc Hd).
Qed.

Lemma create_time_slot_unchecked_witness :
  create_time_slot ex_db0 [] 7 (day0 + 1) nine_fifty nine_am true =
    Ok (set_time_slots ex_db0 (<[fresh_slot_id ex_db0 :=
          mkTimeSlot 7 (day0 + 1) nine_fifty nine_am true false]> (time_slots ex_db0)),
        fresh_slot_id ex_db0) /\ nine_am <= nine_fifty.
Proof.
  split; [|vm_compute; discriminate].
  apply create_time_slot_unchecked; [|reflexivity].
  intros k t Hk _. unfold ex_db0 in Hk. cbn [time_slots] in Hk.
  apply lookup_singleton_Some in Hk as [_ <-]. cbn. lia.
Defined.

(** X3: only the first unavailability row the query returns is read. A
    row with just one of [start_time], [end_time] set blocks nothing, so
    the slot is created whatever rows follow it, an all-day row for the same
    counselor and date included. *)
Theorem create_time_slot_partial_unavailability db u rest cid d s e avail :
  (un_counselor_id u = cid /\ un_start_date u <= d <= un_end_date u) ->
  ((exists t, un_start_time u = Some t /\ un_end_time u = None) \/
   (un_start_time u = None /\ exists t, un_end_time u = Some t)) ->
  (forall k t, time_slots db !! k = Some t -> slot_conflicts cid d s e t = false) ->
  create_time_slot db (u :: rest) cid d s e avail =
    Ok (set_time_slots db (<[fresh_slot_id db := mkTimeSlot cid d s e avail false]>
                             (time_slots db)), fresh_slot_id db).
Proof.
  intros (Hc & Hd1 & Hd2) Hpart Hno. unfold create_time_slot.
  rewrite create_time_slot_no_conflict by exact Hno.
  unfold first_unavailability. cbn [List.find].
  rewrite Hc, Nat.eqb_refl. rewrite (proj2 (Z.leb_le _ _) Hd1), (proj2 (Z.leb_le _ _) Hd2).
  cbn [andb].
  destruct Hpart as [(t & -> & ->)|(-> & t & ->)]; reflexivity.
Qed.

Lemma create_time_slot_partial_unavailability_witness :
  create_time_slot ex_db0 [mkUnavailability 7 day0 day0 (Some nine_am) None;
                           mkUnavailability 7 day0 day0 None None]
    7 day0 (nine_am + minutes 60) (nine_am + minutes 110) true =
    Ok (set_time_slots ex_db0 (<[fresh_slot_id ex_db0 :=
          mkTimeSlot 7 day0 (nine_am + minutes 60) (nine_am + minutes 110) true false]>
          (time_slots ex_db0)), fresh_slot_id ex_db0).
Proof.
  apply create_time_slot_partial_unavailability.
  - cbn. split; [reflexivity|lia].
  - left. exists nine_am. split; reflexivity.
  - intros k t Hk. unfold ex_db0 in Hk. cbn [time_slots] in Hk.
    apply lookup_singleton_Some in Hk as [_ <-]. vm_compute. reflexivity.
Defined.

Lemma create_time_slot_no_overlap db us cid d s e avail db' tid :
  no_overlap (time_slots db) -> create_time_slot db us cid d s e avail = Ok (db', tid) ->
  no_overlap (time_slots db').
Proof.
  intros Hno H. destruct (create_time_slot_Ok _ _ _ _ _ _ _ _ _ H) as (Hc & -> & ->).
  pose proof (fresh_slot_id_None db) as Hf.
  cbn [time_slots set_time_slots].
  intros k1 k2 t1 t2 Hne H1 H2 Hcid Hd Hp1 Hp2.
  destruct (decide (k1 = fresh_slot_id db)) as [->|Hn1];
  destruct (decide (k2 = fresh_slot_id db)) as [->|Hn2].
  - congruence.
  - rewrite lookup_insert_eq in H1. injection H1 as <-.
    rewrite lookup_insert_ne in H2 by congruence. cbn in Hcid, Hd, Hp1 |- *.
    pose proof (slot_conflicts_false cid d s e t2 (Hc k2 t2 H2) (eq_sym Hcid) (eq_sym Hd)
                  Hp2 Hp1). lia.
  - rewrite lookup_insert_eq in H2. injection H2 as <-.
    rewrite lookup_insert_ne in H1 by congruence. cbn in Hcid, Hd, Hp2 |- *.
    pose proof (slot_conflicts_false cid d s e t1 (Hc k1 t1 H1) Hcid Hd Hp1 Hp2). lia.
  - rewrite lookup_insert_ne in H1, H2 by congruence. exact (Hno k1 k2 t1 t2 Hne H1 H2 Hcid Hd Hp1 Hp2).
Qed.

Lemma bulk_ranges_no_overlap db us cid d ranges :
  no_overlap (time_slots db) -> no_overlap (time_slots (bulk_ranges db us cid d ranges).1).
Proof.
  revert db. induction ranges as [|[s e] rest IH]; intros db Hno; cbn [bulk_ranges]; [exact Hno|].
  destruct (create_time_slot db us cid d s e true) as [[db1 tid]|] eqn:Hc.
  - destruct (bulk_ranges db1 us cid d rest) as [db2 ids] eqn:Hb. cbn [fst].
    change db2 with (db2, ids).1. rewrite <- Hb. apply IH.
    exact (create_time_slot_no_overlap _ _ _ _ _ _ _ _ _ Hno Hc).
  - by apply IH.
Qed.

Lemma bulk_days_no_overlap db us cid n d excl ranges :
  no_overlap (time_slots db) -> no_overlap (time_slots (bulk_days db us cid n d excl ranges).1).
Proof.
  revert db d. induction n as [|n IH]; intros db d Hno; cbn [bulk_days]; [exact Hno|].
  destruct (if bool_decide (d ∈ excl) then (db, []) else bulk_ranges db us cid d ranges)
    as [db1 ids1] eqn:H1.
  destruct (bulk_days db1 us cid n (d + 1) excl ranges) as [db2 ids2] eqn:H2. cbn [fst].
  change db2 with (db2, ids2).1. rewrite <- H2. apply IH.
  case_bool_decide; [injection H1 as <- _; exact Hno|].
  change db1 with (db1, ids1).1. rewrite <- H1. by apply bulk_ranges_no_overlap.
Qed.

(** X5: [bulk_create_time_slots] keeps the slots free of overlaps: if no
    two slots of one counselor on one date (both of positive length)
    overlap before the call, none do after it, also when the requested time
    ranges overlap each other. *)
Theorem bulk_create_time_slots_no_overlap db us cid sd ed ranges excl :
  no_overlap (time_slots db) ->
  no_overlap (time_slots (bulk_create_time_slots db us cid sd ed ranges excl).1).
Proof. apply bulk_days_no_overlap. Qed.

Lemma bulk_create_time_slots_no_overlap_witness :
  no_overlap (time_slots ex_db0) /\
  no_overlap (time_slots (bulk_create_time_slots ex_db0 [] 7 day0 (day0 + 1)
                [(nine_am, nine_fifty); (nine_am + minutes 30, nine_am + minutes 80)] None).1).
Proof.
  assert (H : no_overlap (time_slots ex_db0)).
  { intros k1 k2 t1 t2 Hne H1 H2. unfold ex_db0 in H1, H2. cbn [time_slots] in H1, H2.
    apply lookup_singleton_Some in H1 as [<- _]. apply lookup_singleton_Some in H2 as [<- _].
    congruence. }
  split; [exact H|]. exact (bulk_create_time_slots_no_overlap _ _ _ _ _ _ _ H).
Defined.

Lemma bulk_ranges_spec db us cid d ranges :
  let r := bulk_ranges db us cid d ranges in
  r.1 = set_time_slots db (time_slots r.1) /\
  (forall k t, time_slots db !! k = Some t -> time_slots r.1 !! k = Some t) /\
  (forall k t, time_slots db !! k = None -> time_slots r.1 !! k = Some t ->
     ts_counselor_id t = cid /\ ts_date t = d /\ (ts_start_time t, ts_end_time t) ∈ ranges /\
     is_available t = true /\ is_booked t = false) /\
  (forall k, k ∈ r.2 -> time_slots db !! k = None /\ is_Some (time_slots r.1 !! k)).
Proof.
  revert db. induction ranges as [|[s e] rest IH]; intros db; cbn [bulk_ranges].
  - cbn [fst snd]. rewrite set_time_slots_same. split; [reflexivity|].
    split; [auto|]. split; [intros k t H1 H2; congruence|]. intros k Hk. set_solver.
  - destruct (create_time_slot db us cid d s e true) as [[db1 tid]|] eqn:Hc.
    + destruct (create_time_slot_Ok _ _ _ _ _ _ _ _ _ Hc) as (_ & -> & ->).
      pose proof (fresh_slot_id_None db) as Hf.
      specialize (IH (set_time_slots db (<[fresh_slot_id db :=
                    mkTimeSlot cid d s e true false]> (time_slots db)))).
      destruct (bulk_ranges _ us cid d rest) as [db2 ids] eqn:Hb.
      cbn [fst snd time_slots set_time_slots] in IH |- *.
      destruct IH as (I1 & I2 & I3 & I4).
      assert (Hold : forall k t, time_slots db !! k = Some t -> time_slots db2 !! k = Some t).
      { intros k t Hk. apply I2. rewrite lookup_insert_ne by congruence. exact Hk. }
      split; [exact I1|]. split; [exact Hold|]. split.
      * intros k t Hk Hk2. destruct (decide (k = fresh_slot_id db)) as [->|Hne].
        -- rewrite (I2 _ _ (lookup_insert_eq _ _ _)) in Hk2. injection Hk2 as <-.
           cbn. repeat split; [set_solver].
        -- assert (Hn : <[fresh_slot_id db := mkTimeSlot cid d s e true false]>
                          (time_slots db) !! k = None)
             by (rewrite lookup_insert_ne by congruence; exact Hk).
           destruct (I3 k t Hn Hk2) as (? & ? & ? & ? & ?). repeat split; auto. set_solver.
      * intros k Hk. apply elem_of_cons in Hk as [->|Hk].
        -- split; [exact Hf|]. rewrite (I2 _ _ (lookup_insert_eq _ _ _)). by eexists.
        -- destruct (I4 k Hk) as [Hn Hs]. split; [|exact Hs].
           destruct (decide (k = fresh_slot_id db)) as [->|Hne]; [exact Hf|].
           by rewrite lookup_insert_ne in Hn by congruence.
    + specialize (IH db). destruct (bulk_ranges db us cid d rest) as [db2 ids].
      cbn [fst snd] in IH |- *. destruct IH as (I1 & I2 & I3 & I4).
      split; [exact I1|]. split; [exact I2|]. split; [|exact I4].
      intros k t Hk Hk2. destruct (I3 k t Hk Hk2) as (? & ? & ? & ? & ?).
      repeat split; auto. set_solver.
Qed.

Lemma bulk_days_spec db us cid n d excl ranges :
  let r := bulk_days db us cid n d excl ranges in
  r.1 = set_time_slots db (time_slots r.1) /\
  (forall k t, time_slots db !! k = Some t -> time_slots r.1 !! k = Some t) /\
  (forall k t, time_slots db !! k = None -> time_slots r.1 !! k = Some t ->
     ts_counselor_id t = cid /\ d <= ts_date t < d + Z.of_nat n /\ (ts_date t ∉ excl) /\
     (ts_start_time t, ts_end_time t) ∈ ranges /\
     is_available t = true /\ is_booked t = false) /\
  (forall k, k ∈ r.2 -> time_slots db !! k = None /\ is_Some (time_slots r.1 !! k)).
Proof.
  revert db d. induction n as [|n IH]; intros db d; cbn [bulk_days].
  - cbn [fst snd]. rewrite set_time_slots_same. split; [reflexivity|].
    split; [auto|]. split; [intros k t H1 H2; congruence|]. intros k Hk. set_solver.
  - assert (Hr : let r := (if bool_decide (d ∈ excl) then (db, [])
                           else bulk_ranges db us cid d ranges) in
              r.1 = set_time_slots db (time_slots r.1) /\
              (forall k t, time_slots db !! k = Some t -> time_slots r.1 !! k = Some t) /\
              (forall k t, time_slots db !! k = None -> time_slots r.1 !! k = Some t ->
                 ts_counselor_id t = cid /\ ts_date t = d /\ (d ∉ excl) /\
                 (ts_start_time t, ts_end_time t) ∈ ranges /\
                 is_available t = true /\ is_booked t = false) /\
              (forall k, k ∈ r.2 -> time_slots db !! k = None /\
                                    is_Some (time_slots r.1 !! k))).
    { case_bool_decide as Hx.
      - cbn [fst snd]. rewrite set_time_slots_same. split; [reflexivity|].
        split; [auto|]. split; [intros k t H1 H2; congruence|]. intros k Hk. set_solver.
      - destruct (bulk_ranges_spec db us cid d ranges) as (R1 & R2 & R3 & R4).
        split; [exact R1|]. split; [exact R2|]. split; [|exact R4].
        intros k t Hk Hk2. destruct (R3 k t Hk Hk2) as (? & ? & ? & ? & ?).
        repeat split; auto. }
    destruct (if bool_decide (d ∈ excl) then (db, []) else bulk_ranges db us cid d ranges)
      as [db1 ids1].
    cbn [fst snd] in Hr. destruct Hr as (R1 & R2 & R3 & R4).
    specialize (IH db1 (d + 1)).
    destruct (bulk_days db1 us cid n (d + 1) excl ranges) as [db2 ids2].
    cbn [fst snd] in IH |- *. destruct IH as (I1 & I2 & I3 & I4).
    split; [rewrite I1, R1; reflexivity|]. split; [auto|]. split.
    + intros k t Hk Hk2. destruct (time_slots db1 !! k) as [t1|] eqn:H1.
      * rewrite (I2 k t1 H1) in Hk2. injection Hk2 as <-.
        destruct (R3 k t1 Hk H1) as (? & ? & ? & ? & ? & ?).
        repeat split; auto; [lia|lia|congruence].
      * destruct (I3 k t H1 Hk2) as (? & ? & ? & ? & ? & ?). repeat split; auto; lia.
    + intros k Hk. apply elem_of_app in Hk as [Hk|Hk].
      * destruct (R4 k Hk) as [Hn [t Ht]]. split; [exact Hn|]. rewrite (I2 k t Ht). by eexists.
      * destruct (I4 k Hk) as [Hn Hs]. split; [|exact Hs].
        destruct (time_slots db !! k) as [t0|] eqn:H0; [|reflexivity].
        rewrite (R2 k t0 H0) in Hn. discriminate.
Qed.

(** X6: [bulk_create_time_slots] changes nothing but the time slots; it
    keeps every existing slot as it was; every slot it adds belongs to the
    counselor, lies on a date from [start_date] to [end_date] that is not
    excluded, spans one of the requested ranges, and is available and
    unbooked; every id it returns is one of the added slots. *)
Theorem bulk_create_time_slots_effect db us cid sd ed ranges excl :
  let r := bulk_create_time_slots db us cid sd ed ranges excl in
  r.1 = set_time_slots db (time_slots r.1) /\
  (forall k t, time_slots db !! k = Some t -> time_slots r.1 !! k = Some t) /\
  (forall k t, time_slots db !! k = None -> time_slots r.1 !! k = Some t ->
     ts_counselor_id t = cid /\ sd <= ts_date t <= ed /\ (ts_date t ∉ default [] excl) /\
     (ts_start_time t, ts_end_time t) ∈ ranges /\
     is_available t = true /\ is_booked t = false) /\
  (forall k, k ∈ r.2 -> time_slots db !! k = None /\ is_Some (time_slots r.1 !! k)).
Proof.
  unfold bulk_create_time_slots.
  destruct (bulk_days_spec db us cid (Z.to_nat (ed - sd + 1)) sd (default [] excl) ranges)
    as (B1 & B2 & B3 & B4).
  split; [exact B1|]. split; [exact B2|]. split; [|exact B4].
  intros k t Hk Hk2. destruct (B3 k t Hk Hk2) as (? & ? & ? & ? & ? & ?).
  repeat split; auto; lia.
Qed.

Lemma book_time_slot_Ok db tid db1 :
  book_time_slot db tid = Ok db1 ->
  exists t, time_slots db !! tid = Some t /\ is_booked t = false /\ is_available t = true /\
    db1 = set_time_slots db (<[tid := set_booked t true]> (time_slots db)).
Proof.
  unfold book_time_slot. destruct (time_slots db !! tid) as [t|]; [|discriminate].
  destruct (is_booked t) eqn:Hb; [discriminate|].
  destruct (is_available t) eqn:Ha; [|discriminate].
  intros [= <-]. by exists t.
Qed.

(** X8: a slot is booked at most once: after a successful [book_time_slot],
    booking the same slot again raises "Time slot is already booked". *)
Theorem book_time_slot_twice db tid db1 :
  book_time_slot db tid = Ok db1 ->
  book_time_slot db1 tid = Err (ValueError "Time slot is already booked").
Proof.
  intros H. destruct (book_time_slot_Ok db tid db1 H) as (t & Ht & Hb & _ & ->).
  unfold book_time_slot. cbn [time_slots set_time_slots].
  by rewrite lookup_insert_eq.
Qed.

Lemma book_time_slot_twice_witness :
  book_time_slot ex_db0 3 = Ok (set_time_slots ex_db0 (<[3%nat := set_booked ex_slot true]>
                                                       (time_slots ex_db0))) /\
  book_time_slot (set_time_slots ex_db0 (<[3%nat := set_booked ex_slot true]>
                                          (time_slots ex_db0))) 3 =
    Err (ValueError "Time slot is already booked").
Proof.
  assert (H : book_time_slot ex_db0 3 = Ok (set_time_slots ex_db0
                (<[3%nat := set_booked ex_slot true]> (time_slots ex_db0)))) by reflexivity.
  split; [exact H|]. exact (book_time_slot_twice _ _ _ H).
Defined.

Lemma get_counselor_available_slots_elem db cid d tid t :
  (tid, t) ∈ get_counselor_available_slots db cid d <->
  time_slots db !! tid = Some t /\ ts_counselor_id t = cid /\ ts_date t = d /\
  is_available t = true /\ is_booked t = false.
Proof.
  unfold get_counselor_available_slots. rewrite (merge_sort_Permutation _ _).
  rewrite list_elem_of_filter, elem_of_map_to_list. cbn. tauto.
Qed.

(** X10: [get_counselor_available_slots] returns exactly the slots of the
    counselor on the date that are available and not booked, each with its
    id, ordered by start time. *)
Theorem get_counselor_available_slots_spec db cid d :
  (forall tid t, (tid, t) ∈ get_counselor_available_slots db cid d <->
     time_slots db !! tid = Some t /\ ts_counselor_id t = cid /\ ts_date t = d /\
     is_available t = true /\ is_booked t = false) /\
  NoDup (get_counselor_available_slots db cid d) /\
  StronglySorted slot_start_le (get_counselor_available_slots db cid d).
Proof.
  split; [apply get_counselor_available_slots_elem|]. split.
  - unfold get_counselor_available_slots. rewrite (merge_sort_Permutation _ _).
    apply NoDup_filter, NoDup_map_to_list.
  - apply StronglySorted_merge_sort.
    + intros a b c. unfold slot_start_le. lia.
    + intros a b. unfold slot_start_le. lia.
Qed.

(** X11: every slot [get_counselor_available_slots] lists can be booked:
    [book_time_slot] on its id succeeds and marks it booked. *)
Theorem get_counselor_available_slots_bookable db cid d tid t :
  (tid, t) ∈ get_counselor_available_slots db cid d ->
  book_time_slot db tid = Ok (set_time_slots db (<[tid := set_booked t true]> (time_slots db))).
Proof.
  intros H. apply get_counselor_available_slots_elem in H as (Ht & _ & _ & Ha & Hb).
  unfold book_time_slot. by rewrite Ht, Hb, Ha.
Qed.

Lemma get_counselor_available_slots_bookable_witness :
  (3%nat, ex_slot) ∈ get_counselor_available_slots ex_db0 7 day0 /\
  book_time_slot ex_db0 3 =
    Ok (set_time_slots ex_db0 (<[3%nat := set_booked ex_slot true]> (time_slots ex_db0))).
Proof.
  assert (H : (3%nat, ex_slot) ∈ get_counselor_available_slots ex_db0 7 day0).
  { apply get_counselor_available_slots_elem. repeat split. }
  split; [exact H|]. exact (get_counselor_available_slots_bookable _ _ _ _ _ H).
Defined.

(** X12: [get_counselor_time_slots] returns exactly the slots of the
    counselor dated from [start_date] to [end_date], leaving out the booked
    ones when [include_booked] is false, ordered by date and then start
    time; a range with [end_date < start_date] gives no slot. *)
Theorem get_counselor_time_slots_spec db cid sd ed inc :
  (forall tid t, (tid, t) ∈ get_counselor_time_slots db cid sd ed inc <->
     time_slots db !! tid = Some t /\ ts_counselor_id t = cid /\
     sd <= ts_date t <= ed /\ (inc = true \/ is_booked t = false)) /\
  NoDup (get_counselor_time_slots db cid sd ed inc) /\
  StronglySorted slot_date_start_le (get_counselor_time_slots db cid sd ed inc) /\
  (ed < sd -> get_counselor_time_slots db cid sd ed inc = []).
Proof.
  assert (Hel : forall tid t, (tid, t) ∈ get_counselor_time_slots db cid sd ed inc <->
     time_slots db !! tid = Some t /\ ts_counselor_id t = cid /\
     sd <= ts_date t <= ed /\ (inc = true \/ is_booked t = false)).
  { intros tid t. unfold get_counselor_time_slots. rewrite (merge_sort_Permutation _ _).
    destruct inc; rewrite ?list_elem_of_filter, elem_of_map_to_list; cbn.
    - intuition.
    - intuition congruence. }
  split; [exact Hel|]. split; [|split].
  - unfold get_counselor_time_slots. rewrite (merge_sort_Permutation _ _).
    destruct inc; repeat apply NoDup_filter; apply NoDup_map_to_list.
  - apply StronglySorted_merge_sort.
    + intros a b c. unfold slot_date_start_le. lia.
    + intros a b. unfold slot_date_start_le. lia.
  - intros Hlt. destruct (get_counselor_time_slots db cid sd ed inc) as [|[tid t] l] eqn:E;
      [reflexivity|].
    exfalso. assert (Hin : (tid, t) ∈ (tid, t) :: l) by apply list_elem_of_here.
    apply Hel in Hin. lia.
Qed.

(* ------------------------------------------------------------------ *)
(** ** Further properties: the midnight slot job *)

Lemma CounselorService_no_generate :
  CounselorService_getattr "generate_slots_from_schedule" =
    Err (AttributeError "generate_slots_from_schedule").
Proof. vm_compute. reflexivity. Qed.

(** X13: the midnight job [generate_daily_time_slots] never creates a
    slot and never changes the store, whatever the schedules:
    [generate_slots_from_schedule] is not an attribute of [CounselorService],
    so each call raises [AttributeError], which the loop logs and skips. *)
Theorem generate_daily_time_slots_noop fuel today db us schedules :
  generate_daily_time_slots fuel today db us schedules = Some db.
Proof.
  unfold generate_daily_time_slots. rewrite CounselorService_no_generate.
  generalize (List.filter (fun sch => sc_is_active sch && (effective_from sch <=? today + 1) &&
                 match effective_until sch with
                 | None => true
                 | Some u => today + 1 <=? u
                 end) schedules) as l.
  induction l as [|sch l IH]; [reflexivity|]. exact IH.
Qed.

(* ------------------------------------------------------------------ *)
(** ** Further properties: listing sessions and reading messages *)

Lemma session_desc_trans : Transitive session_desc.
Proof. intros a b c. unfold session_desc. lia. Qed.
Lemma session_desc_total : Total session_desc.
Proof. intros a b. unfold session_desc. lia. Qed.

Lemma list_sessions_spec db owner who skip limit st :
  exists l, NoDup l /\
    (forall k s, (k, s) ∈ l <-> sessions db !! k = Some s /\ owner s = who /\
                               (truthy st = false \/ Some (status_str (status s)) = st)) /\
    StronglySorted session_desc l /\
    (list_sessions db owner who skip limit st).1 = take limit (drop skip l) /\
    (list_sessions db owner who skip limit st).2 = length l.
Proof.
  unfold list_sessions. eexists. split; [|split; [|split; [|split; reflexivity]]].
  - rewrite (merge_sort_Permutation _ _).
    destruct (truthy st); repeat apply NoDup_filter; apply NoDup_map_to_list.
  - intros k s. rewrite (merge_sort_Permutation _ _).
    destruct (truthy st) eqn:Ht; rewrite ?list_elem_of_filter, elem_of_map_to_list; cbn.
    + destruct st as [x|]; [|discriminate]. cbn. intuition congruence.
    + intuition.
  - apply StronglySorted_merge_sort; [apply session_desc_trans|apply session_desc_total].
Qed.

(** X14: [get_user_chat_sessions] and [get_counselor_chat_sessions] page
    through one list: all the sessions of the user (resp. counselor), each
    once, filtered by status only when [status] is truthy, ordered by
    scheduled date and start time, newest first. The page is the slice from
    [skip] of at most [limit] entries, and the total is the length of the
    whole list, whatever [skip] and [limit] are. *)
Theorem chat_sessions_page db who skip limit st :
  (exists l, NoDup l /\
    (forall k s, (k, s) ∈ l <-> sessions db !! k = Some s /\ user_id s = who /\
                               (truthy st = false \/ Some (status_str (status s)) = st)) /\
    StronglySorted session_desc l /\
    get_user_chat_sessions db who skip limit st = (take limit (drop skip l), length l)) /\
  (exists l, NoDup l /\
    (forall k s, (k, s) ∈ l <-> sessions db !! k = Some s /\ counselor_id s = who /\
                               (truthy st = false \/ Some (status_str (status s)) = st)) /\
    StronglySorted session_desc l /\
    get_counselor_chat_sessions db who skip limit st = (take limit (drop skip l), length l)).
Proof.
  split.
  - destruct (list_sessions_spec db user_id who skip limit st) as (l & H1 & H2 & H3 & H4 & H5).
    exists l. split; [exact H1|]. split; [exact H2|]. split; [exact H3|].
    unfold get_user_chat_sessions. rewrite <- H4, <- H5. by destruct (list_sessions _ _ _ _ _ _).
  - destruct (list_sessions_spec db counselor_id who skip limit st)
      as (l & H1 & H2 & H3 & H4 & H5).
    exists l. split; [exact H1|]. split; [exact H2|]. split; [exact H3|].
    unfold get_counselor_chat_sessions. rewrite <- H4, <- H5.
    by destruct (list_sessions _ _ _ _ _ _).
Qed.

Lemma msg_created_le_trans : Transitive msg_created_le.
Proof. intros a b c. unfold msg_created_le. lia. Qed.
Lemma msg_created_le_total : Total msg_created_le.
Proof. intros a b. unfold msg_created_le. lia. Qed.

(** X15: [get_session_messages], as the route calls it (with the caller
    as [user_id]), raises "Session not found or access denied" unless the
    caller is the session's user. For the session's user it returns a slice,
    from [skip] and of at most [limit] entries, of the session's messages,
    all of them, ordered by creation time. *)
Theorem get_session_messages_user db sid u skip limit :
  ((forall s, sessions db !! sid = Some s -> user_id s <> u) ->
   get_session_messages db sid (Some u) None skip limit =
     Err (ValueError "Session not found or access denied")) /\
  (forall s, sessions db !! sid = Some s -> user_id s = u ->
   exists l, l ≡ₚ filter (fun m => msg_session_id m = sid) (messages db) /\
     StronglySorted msg_created_le l /\
     get_session_messages db sid (Some u) None skip limit = Ok (take limit (drop skip l))).
Proof.
  split.
  - intros Hno. unfold get_session_messages, get_chat_session_details.
    destruct (sessions db !! sid) as [s|] eqn:Hs; [|reflexivity].
    destruct (Nat.eqb_spec (user_id s) u) as [E|]; [|reflexivity].
    exfalso. exact (Hno s eq_refl E).
  - intros s Hs Hu. unfold get_session_messages, get_chat_session_details.
    rewrite Hs, Hu, Nat.eqb_refl. cbn [negb].
    eexists. split; [|split; [|reflexivity]].
    + apply merge_sort_Permutation.
    + apply StronglySorted_merge_sort; [apply msg_created_le_trans|apply msg_created_le_total].
Qed.

(** X16: a message stored by [send_message] is returned by
    [get_session_messages] to both participants of the session, the user
    and the counselor, when [skip] is 0 and [limit] covers the session's
    messages. *)
Theorem send_then_get_messages db sid sender ty body now db' m s limit :
  send_message db sid sender ty body now = (db', Ok m) ->
  sessions db !! sid = Some s ->
  (length (filter (fun m' => msg_session_id m' = sid) (messages db')) <= limit)%nat ->
  (exists ms, get_session_messages db' sid (Some (user_id s)) None 0 limit = Ok ms /\ m ∈ ms) /\
  (exists ms, get_session_messages db' sid None (Some (counselor_id s)) 0 limit = Ok ms /\
              m ∈ ms).
Proof.
  intros Hsend Hs Hlen.
  destruct (send_message_Ok _ _ _ _ _ _ _ _ Hsend) as (s0 & Hs0 & _ & -> & ->).
  rewrite Hs in Hs0. injection Hs0 as <-.
  set (L := merge_sort msg_created_le
              (filter (fun m' => msg_session_id m' = sid)
                 (messages (add_message (mkMessage sid sender ty body now) db)))).
  assert (HL : take limit (drop 0 L) = L).
  { cbn [drop]. apply take_ge. unfold L. rewrite (Permutation_length (merge_sort_Permutation _ _)).
    exact Hlen. }
  assert (Hin : mkMessage sid sender ty body now ∈ L).
  { unfold L. rewrite (merge_sort_Permutation _ _). apply list_elem_of_filter.
    split; [reflexivity|]. unfold add_message. cbn [messages].
    apply elem_of_app. right. apply list_elem_of_here. }
  split.
  - exists L. split; [|exact Hin]. unfold get_session_messages, get_chat_session_details.
    unfold add_message at 1. cbn [sessions]. rewrite Hs, Nat.eqb_refl. cbn [negb].
    f_equal. exact HL.
  - exists L. split; [|exact Hin]. unfold get_session_messages, get_chat_session_details.
    unfold add_message at 1. cbn [sessions]. rewrite Hs, Nat.eqb_refl. cbn [negb].
    f_equal. exact HL.
Qed.

Lemma send_then_get_messages_witness :
  send_message ex_db1 0 1 user "hello" ex_t_start =
    (add_message (mkMessage 0 1 user "hello" ex_t_start) ex_db1,
     Ok (mkMessage 0 1 user "hello" ex_t_start)) /\
  (exists ms, get_session_messages (add_message (mkMessage 0 1 user "hello" ex_t_start) ex_db1)
                0 (Some 1%nat) None 0 50 = Ok ms /\ mkMessage 0 1 user "hello" ex_t_start ∈ ms).
Proof.
  assert (H : send_message ex_db1 0 1 user "hello" ex_t_start =
    (add_message (mkMessage 0 1 user "hello" ex_t_start) ex_db1,
     Ok (mkMessage 0 1 user "hello" ex_t_start))) by reflexivity.
  split; [exact H|].
  exact (proj1 (send_then_get_messages _ _ _ _ _ _ _ _ ex_session0 50 H
                  ltac:(reflexivity) ltac:(vm_compute; lia))).
Defined.

(* ------------------------------------------------------------------ *)
(** ** Further properties: the WebSocket registry and handler *)


Lemma elem_of_List_filter {A} (f : A -> bool) (l : list A) x :
  x ∈ List.filter f l <-> f x = true /\ x ∈ l.
Proof. rewrite !list_elem_of_In, filter_In. tauto. Qed.






(** X19: the typing indicator of a handle goes to every other member of the
    session's room and never back to the sender. *)
Theorem handle_typing_indicator_spec cm ws sid uid ut d :
  forall o, o ∈ handle_typing_indicator cm ws sid uid ut d <->
    exists w, o = Sent w (ev_typing_indicator uid ut (default false (p_is_typing d))) /\
              w ∈ default [] (active_connections cm !! sid) /\ w <> ws.
Proof.
  intros o. unfold handle_typing_indicator, broadcast_to_session.
  destruct (active_connections cm !! sid) as [room|]; cbn [default].
  - rewrite list_elem_of_fmap. split.
    + intros (w & -> & Hw). apply elem_of_List_filter in Hw as [Hf Hw].
      apply negb_true_iff, bool_decide_eq_false in Hf. exists w. split; [reflexivity|].
      split; [exact Hw|congruence].
    + intros (w & -> & Hw & Hne). exists w. split; [reflexivity|].
      apply elem_of_List_filter. split; [|exact Hw].
      apply negb_true_iff, bool_decide_eq_false. congruence.
  - split; [intros Hx; inversion Hx|]. intros (w & _ & Hw & _). inversion Hw.
Qed.

Lemma start_chat_session_messages db sid cid now :
  messages (start_chat_session db sid cid now).1 = messages db.
Proof.
  unfold start_chat_session. destruct (get_chat_session_details db sid None (Some cid)); [|reflexivity].
  case_bool_decide; [reflexivity|]. unfold notify_best_effort.
  destruct (NotificationService_getattr _); reflexivity.
Qed.

Lemma complete_chat_session_messages db sid cid notes now :
  messages (complete_chat_session db sid cid notes now).1 = messages db.
Proof.
  unfold complete_chat_session. destruct (get_chat_session_details db sid None (Some cid)); [|reflexivity].
  case_bool_decide; [reflexivity|].
  destruct (staff db !! _) as [st|]; [|reflexivity].
  destruct (counselor_profile st); [|reflexivity]. unfold notify_best_effort.
  destruct (NotificationService_getattr _); reflexivity.
Qed.

Lemma handle_session_action_messages db cm ws sid uid ut d now :
  messages (handle_session_action db cm ws sid uid ut d now).1 = messages db.
Proof.
  unfold handle_session_action.
  destruct (_ && bool_decide (ut = counselor)).
  - rewrite <- (start_chat_session_messages db sid uid now).
    destruct (start_chat_session db sid uid now) as [db' [s|e]]; [|reflexivity].
    destruct (actual_start_time s); reflexivity.
  - destruct (_ && bool_decide (ut = counselor)); [|reflexivity].
    rewrite <- (complete_chat_session_messages db sid uid (Some (default "" (p_counselor_notes d))) now).
    destruct (complete_chat_session _ _ _ _ _) as [db' [s|e]]; [|reflexivity].
    destruct (actual_end_time s); reflexivity.
Qed.

Lemma handle_message_messages db cm ws sid uid ut d now :
  exists ms, messages (handle_message db cm ws sid uid ut d now).1 = messages db ++ ms /\
    Forall (fun m => msg_session_id m = sid /\ sender_id m = uid /\ sender_type m = ut /\
                     whitespace_only (content m) = false) ms.
Proof.
  unfold handle_message.
  destruct (match p_type d with Some t' => String.eqb t' "chat_message" | None => false end).
  - unfold handle_chat_message.
    destruct (String.eqb_spec (strip (default "" (p_content d))) "") as [Hc|Hc].
    { exists []. by rewrite app_nil_r. }
    unfold send_message.
    destruct (match ut with
              | user => get_chat_session_details db sid (Some uid) None
              | counselor => get_chat_session_details db sid None (Some uid)
              end); [|exists []; by rewrite app_nil_r].
    case_bool_decide; [exists []; by rewrite app_nil_r|].
    eexists. split; [reflexivity|]. repeat constructor.
    cbn. by apply strip_nonempty_not_blank.
  - destruct (match p_type d with Some t' => String.eqb t' "typing" | None => false end).
    { exists []. by rewrite app_nil_r. }
    destruct (match p_type d with Some t' => String.eqb t' "session_action" | None => false end).
    { exists []. rewrite app_nil_r. split; [apply handle_session_action_messages|constructor]. }
    exists []. by rewrite app_nil_r.
Qed.

(** X20: over the WebSocket receive loop, the message log only grows at its
    end, and every message it gains belongs to the connection's session, has
    the connection's sender id and sender type, and has content that is not
    empty or whitespace only. *)
Theorem receive_loop_messages db cm ws sid uid ut frames :
  exists ms, messages (receive_loop db cm ws sid uid ut frames).1 = messages db ++ ms /\
    Forall (fun m => msg_session_id m = sid /\ sender_id m = uid /\ sender_type m = ut /\
                     whitespace_only (content m) = false) ms.
Proof.
  revert db. induction frames as [|[t f] rest IH]; intros db; cbn.
  - exists []. by rewrite app_nil_r.
  - destruct f as [ | | d].
    + exists []. by rewrite app_nil_r.
    + specialize (IH db). destruct (receive_loop db cm ws sid uid ut rest). exact IH.
    + destruct (handle_message_messages db cm ws sid uid ut d t) as (ms1 & H1 & F1).
      destruct (handle_message db cm ws sid uid ut d t) as [db1 o1].
      destruct (IH db1) as (ms2 & H2 & F2).
      destruct (receive_loop db1 cm ws sid uid ut rest) as [db2 o2].
      exists (ms1 ++ ms2). cbn in *. rewrite H2, H1, <- app_assoc. split; [reflexivity|].
      by apply Forall_app.
Qed.

Lemma handle_message_user db cm ws sid uid d now :
  (handle_message db cm ws sid uid user d now).1 =
    mkDB (sessions db) (time_slots db) (staff db)
         (messages (handle_message db cm ws sid uid user d now).1)
         (notifications db) (next_id db).
Proof.
  unfold handle_message.
  destruct (match p_type d with Some t' => String.eqb t' "chat_message" | None => false end).
  - unfold handle_chat_message.
    destruct (String.eqb _ ""); [by destruct db|].
    unfold send_message. destruct (get_chat_session_details db sid (Some uid) None); [|by destruct db].
    case_bool_decide; [by destruct db|]. reflexivity.
  - destruct (match p_type d with Some t' => String.eqb t' "typing" | None => false end); [by destruct db|].
    destruct (match p_type d with Some t' => String.eqb t' "session_action" | None => false end);
      [|by destruct db].
    unfold handle_session_action.
    rewrite !andb_false_r. by destruct db.
Qed.

(** X21: a connection of type user changes nothing in the store but the
    message log: sessions, time slots, staff, notifications and the id
    counter are the same after its receive loop, whatever frames it sends
    (a session action from a user is refused before any change). *)
Theorem receive_loop_user_only_messages db cm ws sid uid frames :
  let db' := (receive_loop db cm ws sid uid user frames).1 in
  sessions db' = sessions db /\ time_slots db' = time_slots db /\ staff db' = staff db /\
  notifications db' = notifications db /\ next_id db' = next_id db.
Proof.
  cbn zeta. revert db. induction frames as [|[t f] rest IH]; intros db; cbn.
  - tauto.
  - destruct f as [ | | d].
    + tauto.
    + specialize (IH db). destruct (receive_loop db cm ws sid uid user rest). exact IH.
    + pose proof (handle_message_user db cm ws sid uid d t) as H1.
      destruct (handle_message db cm ws sid uid user d t) as [db1 o1].
      specialize (IH db1).
      destruct (receive_loop db1 cm ws sid uid user rest) as [db2 o2].
      cbn in *. rewrite H1 in IH. cbn in IH. exact IH.
Qed.

(* ------------------------------------------------------------------ *)
(** ** Further properties: the status sweep *)

Lemma auto_cancel_one_rest now db k :
  staff (auto_cancel_one now db k) = staff db /\
  messages (auto_cancel_one now db k) = messages db /\
  notifications (auto_cancel_one now db k) = notifications db /\
  next_id (auto_cancel_one now db k) = next_id db.
Proof. unfold auto_cancel_one. repeat case_match; cbn; auto. Qed.

Lemma auto_complete_one_rest now db k :
  staff (auto_complete_one now db k) = staff db /\
  messages (auto_complete_one now db k) = messages db /\
  notifications (auto_complete_one now db k) = notifications db /\
  next_id (auto_complete_one now db k) = next_id db.
Proof. unfold auto_complete_one. repeat case_match; cbn; auto. Qed.

Lemma fold_auto_cancel_rest now ks db :
  let db' := fold_left (auto_cancel_one now) ks db in
  staff db' = staff db /\ messages db' = messages db /\
  notifications db' = notifications db /\ next_id db' = next_id db.
Proof.
  cbn zeta. revert db. induction ks as [|k ks IH]; intros db; cbn [fold_left]; [auto|].
  destruct (IH (auto_cancel_one now db k)) as (H1 & H2 & H3 & H4).
  destruct (auto_cancel_one_rest now db k) as (G1 & G2 & G3 & G4).
  rewrite H1, H2, H3, H4, G1, G2, G3, G4. auto.
Qed.

Lemma fold_auto_complete_rest now ks db :
  let db' := fold_left (auto_complete_one now) ks db in
  staff db' = staff db /\ messages db' = messages db /\
  notifications db' = notifications db /\ next_id db' = next_id db.
Proof.
  cbn zeta. revert db. induction ks as [|k ks IH]; intros db; cbn [fold_left]; [auto|].
  destruct (IH (auto_complete_one now db k)) as (H1 & H2 & H3 & H4).
  destruct (auto_complete_one_rest now db k) as (G1 & G2 & G3 & G4).
  rewrite H1, H2, H3, H4, G1, G2, G3, G4. auto.
Qed.

Lemma sweep_cancel_loop_keeps_nonpending now db k s :
  sessions db !! k = Some s -> status s <> pending ->
  sessions (fold_left (auto_cancel_one now) (keys_with_status pending db) db) !! k = Some s.
Proof.
  intros Hk Hst. rewrite fold_auto_cancel_other; [exact Hk|].
  intros Hin. apply keys_with_status_spec in Hin as (x & Hx & Hxs). congruence.
Qed.

(** X23: the status sweep changes no staff row, message, notification or the
    id counter, and it leaves every completed or cancelled session as it
    was. *)
Theorem update_session_statuses_frame now db :
  let db' := update_session_statuses now db in
  staff db' = staff db /\ messages db' = messages db /\
  notifications db' = notifications db /\ next_id db' = next_id db /\
  (forall k s, sessions db !! k = Some s -> status s = completed \/ status s = cancelled ->
     sessions db' !! k = Some s).
Proof.
  cbn zeta. unfold update_session_statuses.
  destruct (fold_auto_cancel_rest now (keys_with_status pending db) db) as (H1 & H2 & H3 & H4).
  set (db1 := fold_left (auto_cancel_one now) (keys_with_status pending db) db) in *.
  destruct (fold_auto_complete_rest now (keys_with_status active db1) db1) as (G1 & G2 & G3 & G4).
  rewrite G1, G2, G3, G4, H1, H2, H3, H4. do 4 (split; [reflexivity|]).
  intros k s Hk Hst.
  assert (Ha : sessions db1 !! k = Some s)
    by (apply sweep_cancel_loop_keeps_nonpending; [exact Hk|destruct Hst; congruence]).
  rewrite fold_auto_complete_other; [exact Ha|].
  intros Hin. apply keys_with_status_spec in Hin as (x & Hx & Hxs).
  rewrite Ha in Hx. injection Hx as <-. destruct Hst; congruence.
Qed.

Lemma auto_complete_one_at now db k s :
  sessions db !! k = Some s ->
  sessions (auto_complete_one now db k) !! k =
    Some (let end_dt := combine (scheduled_date s) (scheduled_end_time s) in
          if end_dt + minutes 30 <? now then
            set_lifecycle s completed (actual_start_time s) (Some (end_dt + minutes 30))
              (match actual_start_time s with
               | Some t0 => Some (minutes_between t0 (end_dt + minutes 30))
               | None => duration s
               end)
              (Some (strip (String.append (default "" (counselor_notes s))
                              (String.append nl (String.append nl auto_complete_note)))))
          else s).
Proof.
  intros Hk. unfold auto_complete_one. rewrite Hk. cbv zeta.
  destruct (_ <? now); [|exact Hk]. cbn [sessions set_sessions]. apply lookup_insert_eq.
Qed.

Lemma update_session_statuses_active_at now db k s :
  sessions db !! k = Some s -> status s = active ->
  sessions (update_session_statuses now db) !! k =
    Some (let end_dt := combine (scheduled_date s) (scheduled_end_time s) in
          if end_dt + minutes 30 <? now then
            set_lifecycle s completed (actual_start_time s) (Some (end_dt + minutes 30))
              (match actual_start_time s with
               | Some t0 => Some (minutes_between t0 (end_dt + minutes 30))
               | None => duration s
               end)
              (Some (strip (String.append (default "" (counselor_notes s))
                              (String.append nl (String.append nl auto_complete_note)))))
          else s).
Proof.
  intros Hk Hst. unfold update_session_statuses.
  set (db1 := fold_left (auto_cancel_one now) (keys_with_status pending db) db).
  assert (Ha : sessions db1 !! k = Some s)
    by (apply sweep_cancel_loop_keeps_nonpending; [exact Hk|congruence]).
  pose proof (keys_with_status_in active db1 k s Ha Hst) as Hin.
  pose proof (keys_with_status_NoDup active db1) as Hnd.
  apply list_elem_of_split in Hin as (l1 & l2 & Hsplit).
  rewrite Hsplit in Hnd |- *.
  apply NoDup_app in Hnd as (_ & Hdis & Hnd2).
  apply NoDup_cons in Hnd2 as [Hk2 _].
  assert (Hk1 : k ∉ l1) by (intros H; apply (Hdis k H); apply list_elem_of_here).
  rewrite fold_left_app. cbn [fold_left].
  rewrite fold_auto_complete_other by exact Hk2.
  apply auto_complete_one_at. rewrite fold_auto_complete_other by exact Hk1. exact Ha.
Qed.

(** X24: on a run of the sweep at time [now], an active session whose
    scheduled end plus 30 minutes is before [now] becomes completed: its
    end time is the scheduled end plus 30 minutes, its duration is the whole
    minutes from its actual start to that end (kept as it was if it has no
    start), and its notes are the old notes, two newlines and the
    auto-completion note, stripped. An active session that is not yet 30
    minutes past its end is left as it was. *)
Theorem update_session_statuses_auto_complete now db k s :
  sessions db !! k = Some s -> status s = active ->
  let end_dt := combine (scheduled_date s) (scheduled_end_time s) in
  (end_dt + minutes 30 < now ->
     exists s', sessions (update_session_statuses now db) !! k = Some s' /\
       status s' = completed /\ actual_end_time s' = Some (end_dt + minutes 30) /\
       actual_start_time s' = actual_start_time s /\
       duration s' = match actual_start_time s with
                     | Some t0 => Some (minutes_between t0 (end_dt + minutes 30))
                     | None => duration s
                     end /\
       counselor_notes s' =
         Some (strip (String.append (default "" (counselor_notes s))
                        (String.append nl (String.append nl auto_complete_note)))) /\
       time_slot_id s' = time_slot_id s /\ user_id s' = user_id s /\
       counselor_id s' = counselor_id s) /\
  (now <= end_dt + minutes 30 ->
     sessions (update_session_statuses now db) !! k = Some s).
Proof.
  intros Hk Hst. cbn zeta.
  pose proof (update_session_statuses_active_at now db k s Hk Hst) as H. cbv zeta in H.
  split.
  - intros Hlt. apply Z.ltb_lt in Hlt. rewrite Hlt in H.
    eexists; split; [exact H|]. cbn. repeat (split; [reflexivity|]). reflexivity.
  - intros Hle. destruct (Z.ltb_spec (combine (scheduled_date s) (scheduled_end_time s)
                                        + minutes 30) now); [lia|exact H].
Qed.

Lemma update_session_statuses_auto_complete_witness :
  let db := (start_chat_session ex_db1 0 7 (combine day0 nine_am)).1 in
  let s := set_lifecycle ex_session0 active (Some (combine day0 nine_am))
             None None None in
  sessions db !! 0%nat = Some s /\ status s = active /\
  (combine (scheduled_date s) (scheduled_end_time s) + minutes 30 <
     combine day0 nine_fifty + minutes 31 ->
   exists s', sessions (update_session_statuses (combine day0 nine_fifty + minutes 31) db) !! 0%nat
                = Some s' /\
     status s' = completed /\
     actual_end_time s' = Some (combine (scheduled_date s) (scheduled_end_time s) + minutes 30) /\
     actual_start_time s' = actual_start_time s /\
     duration s' = match actual_start_time s with
                   | Some t0 => Some (minutes_between t0
                                 (combine (scheduled_date s) (scheduled_end_time s) + minutes 30))
                   | None => duration s
                   end /\
     counselor_notes s' =
       Some (strip (String.append (default "" (counselor_notes s))
                      (String.append nl (String.append nl auto_complete_note)))) /\
     time_slot_id s' = time_slot_id s /\ user_id s' = user_id s /\
     counselor_id s' = counselor_id s).
Proof.
  cbv zeta.
  assert (Hk : sessions (start_chat_session ex_db1 0 7 (combine day0 nine_am)).1 !! 0%nat =
               Some (set_lifecycle ex_session0 active (Some (combine day0 nine_am)) None None None))
    by (vm_compute; reflexivity).
  split; [exact Hk|]. split; [reflexivity|].
  exact (proj1 (update_session_statuses_auto_complete (combine day0 nine_fifty + minutes 31)
           _ 0%nat _ Hk eq_refl)).
Defined.

Lemma sweep_status_cases now db k s' :
  sessions (update_session_statuses now db) !! k = Some s' ->
  sessions db !! k = Some s' \/ status s' = cancelled \/ status s' = completed.
Proof.
  unfold update_session_statuses.
  assert (Hc : forall ks db0 s0, sessions (fold_left (auto_cancel_one now) ks db0) !! k = Some s0 ->
            sessions db0 !! k = Some s0 \/ status s0 = cancelled).
  { induction ks as [|j ks IH]; intros db0 s0 H; cbn [fold_left] in H; [by left|].
    apply IH in H as [H|H]; [|by right].
    destruct (decide (k = j)) as [->|Hne].
    - unfold auto_cancel_one in H. destruct (sessions db0 !! j) as [x|] eqn:Ex; [|cbn in H; left; congruence].
      destruct (_ <? now); [|cbn in H; left; congruence].
      destruct (time_slot_id x); [destruct (time_slots _ !! _)|];
        cbn [sessions set_sessions set_time_slots] in H;
        rewrite lookup_insert_eq in H; injection H as <-; right; reflexivity.
    - rewrite auto_cancel_one_other in H by exact Hne. by left. }
  assert (Hm : forall ks db0 s0, sessions (fold_left (auto_complete_one now) ks db0) !! k = Some s0 ->
            sessions db0 !! k = Some s0 \/ status s0 = completed).
  { induction ks as [|j ks IH]; intros db0 s0 H; cbn [fold_left] in H; [by left|].
    apply IH in H as [H|H]; [|by right].
    destruct (decide (k = j)) as [->|Hne].
    - unfold auto_complete_one in H. destruct (sessions db0 !! j) as [x|] eqn:Ex; [|cbn in H; left; congruence].
      destruct (_ <? now); [|cbn in H; left; congruence].
      cbn [sessions set_sessions] in H. rewrite lookup_insert_eq in H.
      injection H as <-. right; reflexivity.
    - rewrite auto_complete_one_other in H by exact Hne. by left. }
  intros H. apply Hm in H as [H|H]; [|by right; right].
  apply Hc in H as [H|H]; [by left|by right; left].
Qed.

Lemma fold_left_fixed {A B} (f : A -> B -> A) (ks : list B) (a : A) :
  (forall k, k ∈ ks -> f a k = a) -> fold_left f ks a = a.
Proof.
  induction ks as [|k ks IH]; intros H; cbn; [reflexivity|].
  rewrite H by apply list_elem_of_here. apply IH. intros j Hj. apply H. by apply list_elem_of_further.
Qed.

(** X25: the status sweep is idempotent: a second run at the same time
    changes nothing, since every session it would cancel or complete has
    been cancelled or completed by the first run. *)
Theorem update_session_statuses_idem now db :
  update_session_statuses now (update_session_statuses now db) = update_session_statuses now db.
Proof.
  set (db' := update_session_statuses now db).
  assert (Hp : forall k, k ∈ keys_with_status pending db' -> auto_cancel_one now db' k = db').
  { intros k Hk. apply keys_with_status_spec in Hk as (s & Hs & Hst).
    destruct (sweep_status_cases now db k s Hs) as [H0|[H0|H0]]; [|congruence|congruence].
    destruct (update_session_statuses_pending now db k s H0 Hst) as [Hover _].
    unfold auto_cancel_one. rewrite Hs.
    destruct (Z.ltb_spec (combine (scheduled_date s) (scheduled_start_time s) + minutes 15) now)
      as [Hlt|]; [|reflexivity].
    destruct (Hover Hlt) as [Hc _]. fold db' in Hc. rewrite Hs in Hc.
    injection Hc as Hc. rewrite Hc in Hst. discriminate. }
  assert (Hq : forall k, k ∈ keys_with_status active db' -> auto_complete_one now db' k = db').
  { intros k Hk. apply keys_with_status_spec in Hk as (s & Hs & Hst).
    destruct (sweep_status_cases now db k s Hs) as [H0|[H0|H0]]; [|congruence|congruence].
    pose proof (update_session_statuses_active_at now db k s H0 Hst) as Ha. cbv zeta in Ha.
    fold db' in Ha. rewrite Hs in Ha.
    unfold auto_complete_one. rewrite Hs. cbv zeta.
    destruct (_ <? now) eqn:E; [|reflexivity].
    try rewrite E in Ha. injection Ha as Ha. rewrite Ha in Hst. discriminate. }
  unfold update_session_statuses at 1.
  rewrite (fold_left_fixed _ _ _ Hp). exact (fold_left_fixed _ _ _ Hq).
Qed.

(* ------------------------------------------------------------------ *)
(** ** Further properties: slots generated from a schedule *)

(** What the generation loop keeps between the store [db0] it started from
    and the store [db] it has built, with the ids [ids] it has created. *)
Lemma gen_loop_spec fuel sch d :
  forall db0 db cur ids db' ids',
  gen_loop fuel db sch d cur ids = Some (db', ids') ->
  db = set_time_slots db0 (time_slots db) ->
  (forall tid t, time_slots db0 !! tid = Some t -> time_slots db !! tid = Some t) ->
  NoDup ids ->
  (forall tid, tid ∈ ids -> time_slots db0 !! tid = None /\ is_Some (time_slots db !! tid)) ->
  (forall tid t, time_slots db !! tid = Some t -> time_slots db0 !! tid = None ->
     tid ∈ ids /\ ts_counselor_id t = sc_counselor_id sch /\ ts_date t = d /\
     is_available t = true /\ is_booked t = false /\ ts_end_time t <= sc_end_time sch) ->
  db' = set_time_slots db0 (time_slots db') /\
  (forall tid t, time_slots db0 !! tid = Some t -> time_slots db' !! tid = Some t) /\
  NoDup ids' /\
  (forall tid, tid ∈ ids' -> time_slots db0 !! tid = None /\ is_Some (time_slots db' !! tid)) /\
  (forall tid t, time_slots db' !! tid = Some t -> time_slots db0 !! tid = None ->
     tid ∈ ids' /\ ts_counselor_id t = sc_counselor_id sch /\ ts_date t = d /\
     is_available t = true /\ is_booked t = false /\ ts_end_time t <= sc_end_time sch).
Proof.
  induction fuel as [|f IH]; intros db0 db cur ids db' ids' Hg Hdb Hold Hnd Hids Hnew;
    cbn [gen_loop] in Hg; [discriminate|].
  destruct (cur <? sc_end_time sch); [|injection Hg as <- <-; auto].
  destruct (Z.ltb_spec (sc_end_time sch)
              ((cur + minutes (session_duration_minutes sch)) mod day_us)) as [_|Hle];
    [injection Hg as <- <-; auto|].
  destruct (existsb _ _); [eapply IH; eauto|].
  set (tid := fresh_slot_id db) in Hg.
  set (slot_end := (cur + minutes (session_duration_minutes sch)) mod day_us) in Hg, Hle.
  assert (Hf : time_slots db !! tid = None) by apply fresh_slot_id_None.
  assert (Hf0 : time_slots db0 !! tid = None).
  { destruct (time_slots db0 !! tid) as [t|] eqn:E; [|reflexivity].
    apply Hold in E. congruence. }
  eapply IH; [exact Hg| | | | |].
  - rewrite Hdb at 1. reflexivity.
  - intros k t Hk. cbn [time_slots set_time_slots].
    rewrite lookup_insert_ne; [by apply Hold|]. intros ->. congruence.
  - apply NoDup_app. split; [exact Hnd|]. split; [|apply NoDup_singleton].
    intros x Hx Hx'. apply list_elem_of_singleton in Hx' as ->.
    destruct (Hids _ Hx) as [_ [t Ht]]. congruence.
  - intros k Hk. apply elem_of_app in Hk as [Hk|Hk].
    + destruct (Hids k Hk) as [H0 [t Ht]]. split; [exact H0|].
      cbn [time_slots set_time_slots]. rewrite lookup_insert_ne; [by eexists|].
      intros ->. congruence.
    + apply list_elem_of_singleton in Hk as ->. split; [exact Hf0|].
      cbn [time_slots set_time_slots]. rewrite lookup_insert_eq. by eexists.
  - intros k t Hk Hk0. cbn [time_slots set_time_slots] in Hk.
    destruct (decide (k = tid)) as [->|Hne].
    + rewrite lookup_insert_eq in Hk. injection Hk as <-.
      split; [apply elem_of_app; right; apply list_elem_of_here|]. cbn. auto.
    + rewrite lookup_insert_ne in Hk by congruence.
      destruct (Hnew k t Hk Hk0) as [Hin Ht]. split; [apply elem_of_app; by left|exact Ht].
Qed.

(** X26: when [generate_slots_from_schedule] ends normally, it changes only
    the time slots: every slot that existed is kept unchanged, the returned
    ids are distinct and name exactly the new slots, and every new slot
    belongs to the schedule's counselor, is on the target date, is available
    and not booked, and ends no later than the schedule's end time. *)
Theorem generate_slots_from_schedule_effect fuel db us sch d db' ids :
  generate_slots_from_schedule fuel db us sch d = Some (Ok (db', ids)) ->
  db' = set_time_slots db (time_slots db') /\
  (forall tid t, time_slots db !! tid = Some t -> time_slots db' !! tid = Some t) /\
  NoDup ids /\
  (forall tid, tid ∈ ids -> time_slots db !! tid = None /\ is_Some (time_slots db' !! tid)) /\
  (forall tid t, time_slots db' !! tid = Some t -> time_slots db !! tid = None ->
     tid ∈ ids /\ ts_counselor_id t = sc_counselor_id sch /\ ts_date t = d /\
     is_available t = true /\ is_booked t = false /\ ts_end_time t <= sc_end_time sch).
Proof.
  assert (Hnone : db = set_time_slots db (time_slots db) /\
    (forall tid t, time_slots db !! tid = Some t -> time_slots db !! tid = Some t) /\
    NoDup ([] : list nat) /\
    (forall tid, tid ∈ ([] : list nat) -> time_slots db !! tid = None /\ is_Some (time_slots db !! tid)) /\
    (forall tid t, time_slots db !! tid = Some t -> time_slots db !! tid = None ->
       tid ∈ ([] : list nat) /\ ts_counselor_id t = sc_counselor_id sch /\ ts_date t = d /\
       is_available t = true /\ is_booked t = false /\ ts_end_time t <= sc_end_time sch)).
  { split; [by rewrite set_time_slots_same|]. split; [auto|]. split; [constructor|].
    split; [intros tid Hin; inversion Hin|]. intros tid t H1 H2. congruence. }
  unfold generate_slots_from_schedule.
  destruct (d <? effective_from sch); [intros [= <- <-]; exact Hnone|].
  destruct (match effective_until sch with Some u => u <? d | None => false end);
    [intros [= <- <-]; exact Hnone|].
  destruct (parse_days _) as [allowed|e]; [|discriminate].
  case_bool_decide; [intros [= <- <-]; exact Hnone|].
  destruct (first_unavailability us (sc_counselor_id sch) d); [intros [= <- <-]; exact Hnone|].
  destruct (gen_loop fuel db sch d (sc_start_time sch) []) as [[db1 ids1]|] eqn:Hg;
    [|discriminate].
  intros [= <- <-].
  eapply gen_loop_spec; [exact Hg|by rewrite set_time_slots_same|auto|constructor| |].
  - intros tid Hin. inversion Hin.
  - intros tid t H1 H2. congruence.
Qed.

Lemma generate_slots_from_schedule_effect_witness :
  let sch := mkCounselorSchedule 7 "4" nine_am (nine_am + minutes 120) 50 10 0 None true in
  let r := match generate_slots_from_schedule 10 ex_db0 [] sch day0 with
           | Some (Ok r) => r
           | _ => (ex_db0, [])
           end in
  r.1 = set_time_slots ex_db0 (time_slots r.1) /\
  (forall tid t, time_slots ex_db0 !! tid = Some t -> time_slots r.1 !! tid = Some t) /\
  NoDup r.2 /\
  (forall tid, tid ∈ r.2 -> time_slots ex_db0 !! tid = None /\ is_Some (time_slots r.1 !! tid)) /\
  (forall tid t, time_slots r.1 !! tid = Some t -> time_slots ex_db0 !! tid = None ->
     tid ∈ r.2 /\ ts_counselor_id t = sc_counselor_id sch /\ ts_date t = day0 /\
     is_available t = true /\ is_booked t = false /\ ts_end_time t <= sc_end_time sch).
Proof.
  intros sch r.
  exact (generate_slots_from_schedule_effect 10 ex_db0 [] sch day0 r.1 r.2
           ltac:(vm_compute; reflexivity)).
Defined.
